(** * dummydata: order synthesis, financial derivation and flat-file rows

    A shallow embedding of the Python package [dummydata]
    (models/order.py, models/customer.py, models/product.py,
    generators/data_generator.py, generators/report_generator.py,
    utils/csv_handler.py, config.py)
    together with the properties its specification states about it.

    Conventions of the embedding.
    - Python [int] is [Z]; lists are [list]; [str] is [string], a
      character of which is the code point of its number, so that the
      texts of the model are the Python texts of code points below 256.
    - Python [float] is an abstract type [F] with the operations the code
      uses (class [PyFloat]); every definition is generic in it, and a
      rational instance ([Q], exact arithmetic, decimal rounding
      half-to-even) is used to evaluate the code on concrete inputs.
    - The global [random] source is an entropy oracle [nat -> Z] read at a
      cursor; each library draw consumes one position.
    - Exceptions are values of [exn]; code that can raise lives in the
      monad [M S A := S -> result A * S]. *)

From Stdlib Require Import ZArith QArith Qround Lia Lqa Ascii String.
From Stdlib Require Import DecimalString DecimalN DecimalZ DecimalPos.
From stdpp Require Import base tactics option list sorting strings gmap.

Local Open Scope string_scope.
Local Open Scope Z_scope.

(** ** Exceptions and the state-and-exception monad *)

Inductive exn : Type :=
  | ValueError
  | IndexError
  | KeyError
  | OverflowError
  | OSError.

Inductive result (A : Type) : Type :=
  | Ok (a : A)
  | Raise (e : exn).
Arguments Ok {A} a.
Arguments Raise {A} e.

Definition M (S A : Type) : Type := S -> result A * S.

Definition ret {S A} (a : A) : M S A := fun s => (Ok a, s).
Definition raise {S A} (e : exn) : M S A := fun s => (Raise e, s).
Definition bind {S A B} (c : M S A) (k : A -> M S B) : M S B :=
  fun s => match c s with
           | (Ok a, s') => k a s'
           | (Raise e, s') => (Raise e, s')
           end.
Definition lift {S A} (r : result A) : M S A := fun s => (r, s).

(** [try: body except Exception: handler] *)
Definition try_except {S A} (body : M S A) (handler : exn -> M S A) : M S A :=
  fun s => match body s with
           | (Ok a, s') => (Ok a, s')
           | (Raise e, s') => handler e s'
           end.

Notation "'let*' x ':=' c 'in' k" := (bind c (fun x => k))
  (at level 10, x pattern, c at level 100, k at level 200).

(** [for x in xs: out.append(f(x))] *)
Fixpoint mapM {S A B} (f : A -> M S B) (xs : list A) : M S (list B) :=
  match xs with
  | [] => ret []
  | x :: xs' =>
      let* y := f x in
      let* ys := mapM f xs' in
      ret (y :: ys)
  end.

(** Pure fallible code: the same monad without the state. *)
Definition rbind {A B} (r : result A) (k : A -> result B) : result B :=
  match r with
  | Ok a => k a
  | Raise e => Raise e
  end.

Notation "'let?' x ':=' c 'in' k" := (rbind c (fun x => k))
  (at level 10, x pattern, c at level 100, k at level 200).

(** [xs[i]] *)
Definition getitem {A} (xs : list A) (i : nat) : result A :=
  match xs !! i with
  | Some x => Ok x
  | None => Raise IndexError
  end.

(** ** Integers as text: [str(n)] and the format spec [0wd] *)

Definition str_Z (z : Z) : string := NilZero.string_of_int (Z.to_int z).

Fixpoint zeros (n : nat) : string :=
  match n with
  | O => ""
  | S n' => String "0"%char (zeros n')
  end.

Definition zfill (w : nat) (s : string) : string :=
  zeros (w - String.length s) +:+ s.

(** [f"{z:0wd}"]: zero padding to width [w], the sign counted in the width. *)
Definition format_0d (w : nat) (z : Z) : string :=
  match z with
  | Zneg p => String "-"%char (zfill (w - 1) (str_Z (Zpos p)))
  | _ => zfill w (str_Z z)
  end.

(** Reading a run of decimal digits back. *)
Definition digits_value (s : string) : option Z :=
  match NilEmpty.uint_of_string s with
  | Some d => Some (Z.of_N (N.of_uint d))
  | None => None
  end.

(** ** Calendar dates: [calendar.monthrange] and [datetime.date] *)

Record date : Type := mkDate { year : Z; month : Z; day : Z }.

Definition MINYEAR : Z := 1.
Definition MAXYEAR : Z := 9999.

Definition isleap (y : Z) : bool :=
  (y mod 4 =? 0) && (negb (y mod 100 =? 0) || (y mod 400 =? 0)).

(** [calendar.mdays], indexed by month number. *)
Definition mdays : list Z := [0; 31; 28; 31; 30; 31; 30; 31; 31; 30; 31; 30; 31].

(** [calendar.monthrange(year, month)[1]]: the number of days of the month;
    a month outside 1..12 raises [IllegalMonthError], a [ValueError]. *)
Definition monthrange (y m : Z) : result Z :=
  if (1 <=? m) && (m <=? 12)
  then let? base := getitem mdays (Z.to_nat m) in
       Ok (base + (if (m =? 2) && isleap y then 1 else 0))
  else Raise ValueError.

(** The same count as a total function, 0 for a month out of range. *)
Definition days_in_month (y m : Z) : Z :=
  match monthrange y m with
  | Ok n => n
  | Raise _ => 0
  end.

(** [datetime.date(y, m, d)] checks its fields. *)
Definition make_date (y m d : Z) : result date :=
  if (MINYEAR <=? y) && (y <=? MAXYEAR) && (1 <=? m) && (m <=? 12)
     && (1 <=? d) && (d <=? days_in_month y m)
  then Ok (mkDate y m d)
  else Raise ValueError.

(** [dt + datetime.timedelta(days=1)]; past [date.max] it raises
    [OverflowError]. *)
Definition add_one_day (dt : date) : result date :=
  if day dt <? days_in_month (year dt) (month dt)
  then Ok (mkDate (year dt) (month dt) (day dt + 1))
  else if month dt <? 12
  then Ok (mkDate (year dt) (month dt + 1) 1)
  else if year dt <? MAXYEAR
  then Ok (mkDate (year dt + 1) 1 1)
  else Raise OverflowError.

(** Comparison of dates is lexicographic on (year, month, day). *)
Definition date_le (a b : date) : Prop :=
  year a < year b \/
  (year a = year b /\ (month a < month b \/ (month a = month b /\ day a <= day b))).

(** [dt.strftime('%m/%d/%Y')] *)
Definition strftime_mdY (dt : date) : string :=
  format_0d 2 (month dt) +:+ "/" +:+ format_0d 2 (day dt) +:+ "/" +:+ format_0d 4 (year dt).

(** ** Floating-point numbers and the number parsers of the interpreter

    The operations of Python the code applies to numbers. [f_dec m e] is
    the decimal literal [m * 10^-e]; [f_round x n] is [round(x, n)];
    [f_repr] is [str(x)] as the csv writer emits it; [f_parse] is
    [float(s)] and [int_parse] is [int(s)], [None] standing for
    [ValueError]. *)

Class PyFloat (F : Type) : Type := {
  f_add : F -> F -> F;
  f_sub : F -> F -> F;
  f_mul : F -> F -> F;
  f_div : F -> F -> F;
  f_of_Z : Z -> F;
  f_dec : Z -> nat -> F;
  f_round : F -> nat -> F;
  f_ltb : F -> F -> bool;
  f_repr : F -> string;
  f_parse : string -> option F;
  int_parse : string -> option Z
}.

Definition py_float `{PyFloat F} (s : string) : result F :=
  match f_parse s with
  | Some x => Ok x
  | None => Raise ValueError
  end.

Definition py_int `{PyFloat F} (s : string) : result Z :=
  match int_parse s with
  | Some z => Ok z
  | None => Raise ValueError
  end.

(** ** Text predicates: [s.isdigit()], [s.strip()] and truthiness *)

(** The characters [str.isdigit()] accepts: besides the ten decimal
    digits, the superscripts two, three (178, 179) and one (185), which
    have the Unicode property [Numeric_Type=Digit]. *)
Definition is_digit (c : ascii) : bool :=
  let n := N_of_ascii c in
  ((48 <=? n)%N && (n <=? 57)%N) || (n =? 178)%N || (n =? 179)%N || (n =? 185)%N.

Fixpoint all_chars (p : ascii -> bool) (s : string) : bool :=
  match s with
  | EmptyString => true
  | String c s' => p c && all_chars p s'
  end.

Definition nonempty (s : string) : bool :=
  match s with
  | EmptyString => false
  | String _ _ => true
  end.

(** [s.isdigit()]: at least one character, all of them digits. *)
Definition isdigit (s : string) : bool := nonempty s && all_chars is_digit s.

(** The characters [str.strip()] removes, those of [str.isspace()]:
    space, tab, newline, vertical tab, form feed, carriage return, the
    four separators 28..31, next line (133) and no-break space (160). *)
Definition is_space (c : ascii) : bool :=
  let n := N_of_ascii c in
  (n =? 32)%N || ((9 <=? n)%N && (n <=? 13)%N) || ((28 <=? n)%N && (n <=? 31)%N)
  || (n =? 133)%N || (n =? 160)%N.

(** [not s or not s.strip()] *)
Definition blank (s : string) : bool := all_chars is_space s.

(** ** The random source

    [entropy] is the raw output of the generator, one integer per draw;
    the state is the cursor into it. *)

Definition Rng (A : Type) : Type := M nat A.

Definition TWO53 : Z := 9007199254740992.

Section Random.
Context {F : Type} `{PyFloat F}.
Variable entropy : nat -> Z.

Definition next_raw : Rng Z := fun pos => (Ok (entropy pos), S pos).

(** [random.random()]: a multiple of 2^-53 in [0, 1). *)
Definition unit_of_raw (raw : Z) : F :=
  f_div (f_of_Z (raw mod TWO53)) (f_of_Z TWO53).

Definition random_random : Rng F :=
  let* raw := next_raw in ret (unit_of_raw raw).

(** [random.uniform(a, b)] is [a + (b - a) * random()]. *)
Definition uniform_at (a b u : F) : F := f_add a (f_mul (f_sub b a) u).

Definition random_uniform (a b : F) : Rng F :=
  let* u := random_random in ret (uniform_at a b u).

(** [random.randint(a, b)]: empty ranges raise [ValueError]. *)
Definition random_randint (a b : Z) : Rng Z :=
  if b <? a then raise ValueError
  else let* raw := next_raw in ret (a + raw mod (b - a + 1)).

(** [random.choice(seq)]: an empty sequence raises [IndexError]. *)
Definition random_choice {A} (xs : list A) : Rng A :=
  match xs with
  | [] => raise IndexError
  | _ =>
      let* raw := next_raw in
      lift (getitem xs (Z.to_nat (raw mod Z.of_nat (length xs))))
  end.
End Random.

(** ** config.py *)

Section Config.
Context {F : Type} `{PyFloat F}.

(** [STANDARD_CHARGES], a dict in insertion order. *)
Definition STANDARD_CHARGES : list (string * F) :=
  [ ("Labor Charge", f_dec 8500 2);
    ("Pump Fee", f_dec 4500 2);
    ("After Hours Fee", f_dec 12500 2);
    ("Weekend Delivery", f_dec 7500 2);
    ("Rush Delivery", f_dec 9500 2) ].

(** [d[key]] *)
Fixpoint dict_get {V} (d : list (string * V)) (key : string) : result V :=
  match d with
  | [] => Raise KeyError
  | (k, v) :: d' => if String.eqb k key then Ok v else dict_get d' key
  end.
End Config.

Definition ORDER_HEADERS : list string :=
  [ "CustomerName"; "Order#"; "Seq"; "Seq Desc"; "PO #"; "PO Req"; "Date";
    "Status"; "Invoice#"; "Invoice Date"; "BOL"; "Product"; "Unit Price";
    "Quantity"; "Product"; "Charges"; "Special Charges"; "Total Taxes";
    "Total"; "Exempt Taxes"; "Total Cost"; "Margin Per Gallon" ].

(** ** models/customer.py *)

Module Sequence.
Record t : Type := mk { seq_id : Z; description : string }.
End Sequence.

Module Customer.
Record t : Type := mk {
  customer_id : string;
  name : string;
  address : string;
  city : string;
  state : string;
  zip_code : string;
  contact_name : string;
  phone : string;
  email : string;
  sequences : list Sequence.t
}.

(** [row[i] if len(row) > i else default] *)
Definition field_or (row : list string) (i : nat) (default : string) : string :=
  match row !! i with
  | Some s => s
  | None => default
  end.

Definition from_row (row : list string) : result t :=
  if (length row <? 2)%nat then Raise ValueError
  else
    let? r0 := getitem row 0 in
    let? r1 := getitem row 1 in
    Ok {| customer_id := r0;
          name := r1;
          address := field_or row 2 "";
          city := field_or row 3 "";
          state := field_or row 4 "";
          zip_code := field_or row 5 "";
          contact_name := field_or row 6 "";
          phone := field_or row 7 "";
          email := field_or row 8 "";
          sequences := [] |}.

Definition to_row (c : t) : list string :=
  [ customer_id c; name c; address c; city c; state c; zip_code c;
    contact_name c; phone c; email c ].

Definition add_sequence (c : t) (seq_id : Z) (description : string) : t :=
  {| customer_id := customer_id c;
     name := name c;
     address := address c;
     city := city c;
     state := state c;
     zip_code := zip_code c;
     contact_name := contact_name c;
     phone := phone c;
     email := email c;
     sequences := sequences c ++ [Sequence.mk seq_id description] |}.

Definition has_sequences (c : t) : bool := (0 <? length (sequences c))%nat.
End Customer.

(** ** models/product.py *)

Module Product.
Section WithFloat.
Context {F : Type} `{PyFloat F}.
Variable entropy : nat -> Z.

Record t : Type := mk {
  code : string;
  name : string;
  abbrev : string;
  product_group : string;
  cycle_code : string;
  method : string;
  account_group : string;
  tax_profile : string;
  tax_group : string;
  packaging : string;
  unit_of_measure : string;
  status : string;
  stocked : string;
  upc_code : string;
  min_price : F;
  max_price : F
}.

(** Assignment to the two price attributes of an existing product. *)
Definition set_prices (p : t) (lo hi : F) : t :=
  {| code := code p; name := name p; abbrev := abbrev p;
     product_group := product_group p; cycle_code := cycle_code p;
     method := method p; account_group := account_group p;
     tax_profile := tax_profile p; tax_group := tax_group p;
     packaging := packaging p; unit_of_measure := unit_of_measure p;
     status := status p; stocked := stocked p; upc_code := upc_code p;
     min_price := lo; max_price := hi |}.

Definition from_row (row : list string) : Rng t :=
  if (length row <? 2)%nat then raise ValueError
  else
    let* r0 := lift (getitem row 0) in
    let* r1 := lift (getitem row 1) in
    let product :=
      {| code := r0;
         name := r1;
         abbrev := Customer.field_or row 2 "";
         product_group := Customer.field_or row 3 "Fuel";
         cycle_code := Customer.field_or row 4 "";
         method := Customer.field_or row 5 "Direct";
         account_group := Customer.field_or row 6 "";
         tax_profile := Customer.field_or row 7 "";
         tax_group := Customer.field_or row 8 "";
         packaging := Customer.field_or row 9 "Bulk";
         unit_of_measure := Customer.field_or row 10 "Gallon";
         status := Customer.field_or row 11 "Active";
         stocked := Customer.field_or row 12 "Yes";
         upc_code := Customer.field_or row 13 "";
         min_price := f_dec 0 1;
         max_price := f_dec 0 1 |} in
    let* lo := random_uniform entropy (f_dec 250 2) (f_dec 320 2) in
    let* hi := random_uniform entropy (f_dec 350 2) (f_dec 450 2) in
    ret (set_prices product (f_round lo 2) (f_round hi 2)).

Definition to_row (p : t) : list string :=
  [ code p; name p; abbrev p; product_group p; cycle_code p; method p;
    account_group p; tax_profile p; tax_group p; packaging p;
    unit_of_measure p; status p; stocked p; upc_code p ].

Definition get_random_price (p : t) : Rng F :=
  let* x := random_uniform entropy (min_price p) (max_price p) in
  ret (f_round x 2).
End WithFloat.
Arguments t F : clear implicits.
End Product.

(** ** models/order.py *)

Module Order.
(** [Union[datetime.date, str]] *)
Inductive date_field : Type :=
  | DateObj (d : date)
  | DateStr (s : string).

(** [Union[datetime.date, str, None]] *)
Inductive invoice_date_field : Type :=
  | InvNone
  | InvObj (d : date)
  | InvStr (s : string).

(** [Union[float, str]] *)
Inductive charge (F : Type) : Type :=
  | ChargeNum (x : F)
  | ChargeStr (s : string).
Arguments ChargeNum {F} x.
Arguments ChargeStr {F} s.

(** An element of the list [to_row] returns. *)
Inductive cell (F : Type) : Type :=
  | CStr (s : string)
  | CInt (z : Z)
  | CFloat (x : F).
Arguments CStr {F} s.
Arguments CInt {F} z.
Arguments CFloat {F} x.

Section WithFloat.
Context {F : Type} `{PyFloat F}.
Variable entropy : nat -> Z.

Record t : Type := mk {
  customer_name : string;
  order_number : string;
  sequence_id : Z;
  sequence_desc : string;
  date : date_field;
  product_name : string;
  unit_price : F;
  quantity : Z;
  status : string;
  po_required : string;
  po_number : string;
  invoice_number : string;
  invoice_date : invoice_date_field;
  bol : string;
  additional_product : string;
  charges : charge F;
  special_charges : charge F;
  total_taxes : F;
  exempt_taxes : F;
  total : F;
  total_cost : F;
  margin_per_gallon : F
}.

Definition charge_cell (c : charge F) : cell F :=
  match c with
  | ChargeNum x => CFloat x
  | ChargeStr s => CStr s
  end.

Definition to_row (o : t) : list (cell F) :=
  let date_str :=
    match date o with
    | DateStr s => s
    | DateObj d => strftime_mdY d
    end in
  let invoice_date_str :=
    match invoice_date o with
    | InvNone => ""
    | InvStr s => s
    | InvObj d => strftime_mdY d
    end in
  [ CStr (customer_name o);
    CStr (order_number o);
    CInt (sequence_id o);
    CStr (sequence_desc o);
    CStr (po_number o);
    CStr (po_required o);
    CStr date_str;
    CStr (status o);
    CStr (invoice_number o);
    CStr invoice_date_str;
    CStr (bol o);
    CStr (product_name o);
    CFloat (unit_price o);
    CInt (quantity o);
    CStr (additional_product o);
    charge_cell (charges o);
    charge_cell (special_charges o);
    CFloat (total_taxes o);
    CFloat (total o);
    CFloat (exempt_taxes o);
    CFloat (total_cost o);
    CFloat (margin_per_gallon o) ].

(** What [csv.writer] puts in the file for a cell: [str(x)]. *)
Definition csv_text (c : cell F) : string :=
  match c with
  | CStr s => s
  | CInt z => str_Z z
  | CFloat x => f_repr x
  end.

(** The values the [try] block of [from_row] computes. *)
Record numerics : Type := mkNumerics {
  n_unit_price : F;
  n_quantity : Z;
  n_charges : charge F;
  n_special_charges : charge F;
  n_total_taxes : F;
  n_total : F;
  n_exempt_taxes : F;
  n_total_cost : F;
  n_margin_per_gallon : F
}.

(** [float(s) if s else 0.0] *)
Definition float_or_zero (s : string) : result F :=
  if nonempty s then py_float s else Ok (f_dec 0 1).

(** [int(s) if s else 0] *)
Definition int_or_zero (s : string) : result Z :=
  if nonempty s then py_int s else Ok 0.

(** [s if not s or not s.strip() else float(s)] *)
Definition charge_of_text (s : string) : result (charge F) :=
  if blank s then Ok (ChargeStr s)
  else let? x := py_float s in Ok (ChargeNum x).

(** The cell [row[i]] read as a float, an int, a charge. *)
Definition float_cell (row : list string) (i : nat) : result F :=
  let? c := getitem row i in float_or_zero c.

Definition int_cell (row : list string) (i : nat) : result Z :=
  let? c := getitem row i in int_or_zero c.

Definition charge_field (row : list string) (i : nat) : result (charge F) :=
  let? c := getitem row i in charge_of_text c.

Definition parse_numerics (row : list string) : result numerics :=
  let? unit_price := float_cell row 12 in
  let? quantity := int_cell row 13 in
  let? charges := charge_field row 15 in
  let? special_charges := charge_field row 16 in
  let? total_taxes := float_cell row 17 in
  let? total := float_cell row 18 in
  let? exempt_taxes := float_cell row 19 in
  let? total_cost := float_cell row 20 in
  let? margin_per_gallon := float_cell row 21 in
  Ok (mkNumerics unit_price quantity charges special_charges total_taxes
        total exempt_taxes total_cost margin_per_gallon).

(** The assignments of the [except (ValueError, IndexError)] branch. *)
Definition default_numerics : numerics :=
  mkNumerics (f_dec 0 1) 0 (ChargeStr "") (ChargeStr "") (f_dec 0 1)
    (f_dec 0 1) (f_dec 0 1) (f_dec 0 1) (f_dec 0 1).

Definition guarded_numerics (row : list string) : result numerics :=
  match parse_numerics row with
  | Ok n => Ok n
  | Raise ValueError => Ok default_numerics
  | Raise IndexError => Ok default_numerics
  | Raise e => Raise e
  end.

Definition from_row (row : list string) : result t :=
  if (length row <? 14)%nat then Raise ValueError
  else
    let? n := guarded_numerics row in
    let? r0 := getitem row 0 in
    let? r1 := getitem row 1 in
    let? r2 := getitem row 2 in
    let? seq := (if isdigit r2 then py_int r2 else Ok 0) in
    let? r3 := getitem row 3 in
    let? r4 := getitem row 4 in
    let? r5 := getitem row 5 in
    let? r6 := getitem row 6 in
    let? r7 := getitem row 7 in
    let? r8 := getitem row 8 in
    let? r9 := getitem row 9 in
    let? r10 := getitem row 10 in
    let? r11 := getitem row 11 in
    Ok {| customer_name := r0;
          order_number := r1;
          sequence_id := seq;
          sequence_desc := r3;
          po_number := r4;
          po_required := r5;
          date := DateStr r6;
          status := r7;
          invoice_number := r8;
          invoice_date := InvStr r9;
          bol := r10;
          product_name := r11;
          unit_price := n_unit_price n;
          quantity := n_quantity n;
          additional_product := Customer.field_or row 14 "";
          charges := n_charges n;
          special_charges := n_special_charges n;
          total_taxes := n_total_taxes n;
          total := n_total n;
          exempt_taxes := n_exempt_taxes n;
          total_cost := n_total_cost n;
          margin_per_gallon := n_margin_per_gallon n |}.

(** [float(c) if isinstance(c, (int, float)) else 0.0] *)
Definition charge_amount (c : charge F) : F :=
  match c with
  | ChargeNum x => x
  | ChargeStr _ => f_dec 0 1
  end.

Definition calculate_totals (o : t) : Rng t :=
  let main_charges := f_round (f_mul (unit_price o) (f_of_Z (quantity o))) 2 in
  let additional_charges := charge_amount (charges o) in
  let special := charge_amount (special_charges o) in
  let* tax_rate := random_uniform entropy (f_dec 5 2) (f_dec 10 2) in
  let new_total_taxes := f_round (f_mul main_charges tax_rate) 2 in
  let* exempt := random_uniform entropy (f_of_Z 0) (f_mul new_total_taxes (f_dec 3 1)) in
  let new_exempt_taxes := f_round exempt 2 in
  let new_total :=
    f_sub (f_add (f_add (f_add main_charges additional_charges) special)
             new_total_taxes) new_exempt_taxes in
  let new_total_cost := f_round (f_mul main_charges (f_dec 85 2)) 2 in
  let new_margin :=
    if 0 <? quantity o
    then f_round (f_div (f_sub main_charges new_total_cost) (f_of_Z (quantity o))) 3
    else f_dec 0 1 in
  ret {| customer_name := customer_name o;
         order_number := order_number o;
         sequence_id := sequence_id o;
         sequence_desc := sequence_desc o;
         date := date o;
         product_name := product_name o;
         unit_price := unit_price o;
         quantity := quantity o;
         status := status o;
         po_required := po_required o;
         po_number := po_number o;
         invoice_number := invoice_number o;
         invoice_date := invoice_date o;
         bol := bol o;
         additional_product := additional_product o;
         charges := charges o;
         special_charges := special_charges o;
         total_taxes := new_total_taxes;
         exempt_taxes := new_exempt_taxes;
         total := new_total;
         total_cost := new_total_cost;
         margin_per_gallon := new_margin |}.
End WithFloat.
Arguments t F : clear implicits.
Arguments numerics F : clear implicits.
End Order.

(** ** generators/data_generator.py *)

Module DataGenerator.
Section WithFloat.
Context {F : Type} `{PyFloat F}.
Variable entropy : nat -> Z.

Definition generate_date_in_month (y m : Z) : Rng date :=
  let* num_days := lift (monthrange y m) in
  let* d := random_randint entropy 1 num_days in
  lift (make_date y m d).

(** [dates.sort()] *)
Definition sort_dates (dates : list date) : list date :=
  merge_sort date_le dates.

Definition statuses_weighted : list string :=
  replicate 90 "Completed" ++ replicate 5 "In Progress" ++ replicate 5 "Pending".

Definition po_weighted : list string :=
  replicate 60 "Yes" ++ replicate 40 "No".

Definition standard_charge_names : list string :=
  fst <$> (STANDARD_CHARGES (F := F)).

(** [f"{year}{month:02d}"] *)
Definition month_year_str (y m : Z) : string := str_Z y +:+ format_0d 2 m.

(** The invoice fields of a completed order. *)
Definition invoice_for (m : Z) (mys : string) (i : nat) (date_obj : date)
  : result (string * Order.invoice_date_field) :=
  let invoice_num := "INV-" +:+ mys +:+ "-" +:+ format_0d 4 (Z.of_nat i + 1) in
  let? next := add_one_day date_obj in
  let invoice_date_obj := if negb (month next =? m) then date_obj else next in
  Ok (invoice_num, Order.InvObj invoice_date_obj).

(** The three charge fields: additional product, charges, special charges. *)
Definition draw_charges : Rng (string * Order.charge F * Order.charge F) :=
  let* u := random_random entropy in
  if f_ltb u (f_dec 10 2)
  then
    let* additional_product := random_choice entropy standard_charge_names in
    let* price := lift (dict_get STANDARD_CHARGES additional_product) in
    let* v := random_random entropy in
    if f_ltb v (f_dec 30 2)
    then
      let* x := random_uniform entropy (f_of_Z 10) (f_of_Z 50) in
      ret (additional_product, Order.ChargeNum price, Order.ChargeNum (f_round x 2))
    else ret (additional_product, Order.ChargeNum price, Order.ChargeStr "")
  else ret ("", Order.ChargeStr "", Order.ChargeStr "").

(** The body of the loop [for i in range(num_orders)]. *)
Definition generate_order (products : list (Product.t F))
    (customers : list Customer.t) (m : Z) (mys : string)
    (dates : list date) (i : nat) : Rng (Order.t F) :=
  let* customer := random_choice entropy customers in
  let* sequence := random_choice entropy (Customer.sequences customer) in
  let order_num := "ORD-" +:+ mys +:+ "-" +:+ format_0d 4 (Z.of_nat i + 1) in
  let* po_req := random_choice entropy po_weighted in
  let po_num :=
    if String.eqb po_req "Yes"
    then "PO-" +:+ mys +:+ "-" +:+ format_0d 3 (Z.of_nat i + 1)
    else "" in
  let* date_obj := lift (getitem dates i) in
  let* status := random_choice entropy statuses_weighted in
  let* (invoice_num, invoice_date) :=
    (if String.eqb status "Completed"
     then lift (invoice_for m mys i date_obj)
     else ret ("", Order.InvNone)) in
  let bol := "BOL-" +:+ mys +:+ "-" +:+ format_0d 4 (Z.of_nat i + 1) in
  let* product := random_choice entropy products in
  let* unit_price := Product.get_random_price entropy product in
  let* q := random_randint entropy 20 350 in
  let quantity := q * 10 in
  let* (additional_product, charges, special_charges) := draw_charges in
  let order :=
    {| Order.customer_name := Customer.name customer;
       Order.order_number := order_num;
       Order.sequence_id := Sequence.seq_id sequence;
       Order.sequence_desc := Sequence.description sequence;
       Order.po_number := po_num;
       Order.po_required := po_req;
       Order.date := Order.DateObj date_obj;
       Order.status := status;
       Order.invoice_number := invoice_num;
       Order.invoice_date := invoice_date;
       Order.bol := bol;
       Order.product_name := Product.name product;
       Order.unit_price := unit_price;
       Order.quantity := quantity;
       Order.additional_product := additional_product;
       Order.charges := charges;
       Order.special_charges := special_charges;
       Order.total_taxes := f_dec 0 1;
       Order.exempt_taxes := f_dec 0 1;
       Order.total := f_dec 0 1;
       Order.total_cost := f_dec 0 1;
       Order.margin_per_gallon := f_dec 0 1 |} in
  Order.calculate_totals entropy order.

Definition generate_orders (products : list (Product.t F))
    (customers : list Customer.t) (y m : Z) (num_orders : Z)
  : Rng (list (Order.t F)) :=
  let indices := seq 0 (Z.to_nat num_orders) in
  let* drawn := mapM (fun _ : nat => generate_date_in_month y m) indices in
  let dates := sort_dates drawn in
  let mys := month_year_str y m in
  mapM (generate_order products customers m mys dates) indices.
End WithFloat.
End DataGenerator.

(** ** utils/csv_handler.py

    The file system maps a path to the records of the file at that path.
    Every operation of the operating system can fail: [faults] says, for
    each operation in the order they are issued, whether it raises. *)

Module CSVHandler.
Record world : Type := mkWorld {
  files : gmap string (list (list string));
  ticks : nat;
  faults : nat -> option exn
}.

Definition IO (A : Type) : Type := M world A.

(** One operating-system call: it raises if the fault plan says so, and
    otherwise applies [effect] to the files. *)
Definition syscall (effect : gmap string (list (list string)) ->
                             gmap string (list (list string))) : IO unit :=
  fun w =>
    match faults w (ticks w) with
    | Some e => (Raise e, mkWorld (files w) (S (ticks w)) (faults w))
    | None => (Ok tt, mkWorld (effect (files w)) (S (ticks w)) (faults w))
    end.

(** [os.makedirs(..., exist_ok=True)]; directories are not modelled. *)
Definition makedirs : IO unit := syscall (fun fs => fs).

(** [open(path, 'w')] creates or truncates the file. *)
Definition open_w (path : string) : IO unit := syscall (fun fs => <[path := []]> fs).

(** [writer.writerow(record)] appends one record. *)
Definition writerow (path : string) (record : list string) : IO unit :=
  syscall (fun fs =>
    match fs !! path with
    | Some rs => <[path := (rs ++ [record])%list]> fs
    | None => <[path := [record]]> fs
    end).

(** [writer.writerows(data)] *)
Definition writerows (path : string) (data : list (list string)) : IO unit :=
  let* _ := mapM (writerow path) data in ret tt.

(** [csvfile.close()], which can fail as any other operation. A record is
    in the file of the model once its [writerow] has returned, so that a
    failing close takes no record back. *)
Definition close : IO unit := syscall (fun fs => fs).

(** [with open(path, 'w') as csvfile: body]: the file is closed when the
    block is left, at its end or by an exception; an exception raised by
    the close takes the place of the one that left the block. *)
Definition with_open_w {A} (path : string) (body : IO A) : IO A :=
  let* _ := open_w path in
  fun w =>
    let '(r, w1) := body w in
    match close w1 with
    | (Ok _, w2) => (r, w2)
    | (Raise e, w2) => (Raise e, w2)
    end.

Definition write_csv (path : string) (headers : list string)
    (data : list (list string)) : IO bool :=
  try_except
    (let* _ := makedirs in
     let* _ :=
       with_open_w path
         (let* _ := writerow path headers in
          writerows path data) in
     ret true)
    (fun _ => ret false).

(** No operation among the next [n] raises. *)
Definition fault_free (w : world) (n : nat) : Prop :=
  forall k : nat, (k < n)%nat -> faults w (ticks w + k) = None.

(** The next [k] operations succeed and the one after them raises. *)
Definition first_fault (w : world) (k : nat) : Prop :=
  fault_free w k /\ faults w (ticks w + k) <> None.
End CSVHandler.

(** ** A rational instance of the float interface

    Exact arithmetic on reduced fractions; [round(x, n)] rounds half to
    even on the decimal scale; numbers are printed and read as plain
    decimal numerals. It is the instance the code is evaluated with. *)

Module QFloat.
Definition pow10 (e : nat) : Z := 10 ^ Z.of_nat e.

Definition q_dec (m : Z) (e : nat) : Q := Qred (m # Z.to_pos (pow10 e)).

Definition q_half : Q := 1 # 2.

(** The integer nearest to [s], ties to the even one. *)
Definition nearest_even (s : Q) : Z :=
  let fl := Qfloor s in
  match Qcompare (s - inject_Z fl) q_half with
  | Lt => fl
  | Gt => fl + 1
  | Eq => if Z.even fl then fl else fl + 1
  end.

Definition q_round (x : Q) (n : nat) : Q :=
  Qred (nearest_even (x * inject_Z (pow10 n)) # Z.to_pos (pow10 n)).

Definition q_ltb (a b : Q) : bool := negb (Qle_bool b a).

(** The least [e] in [e0 .. e0 + fuel) with [den] dividing [10^e]. *)
Fixpoint decimal_exponent (fuel e0 : nat) (den : Z) : option nat :=
  match fuel with
  | O => None
  | S fuel' =>
      if pow10 e0 mod den =? 0 then Some e0
      else decimal_exponent fuel' (S e0) den
  end.

Definition q_repr (x : Q) : string :=
  let x := Qred x in
  let den := Zpos (Qden x) in
  match decimal_exponent 24 1 den with
  | Some e =>
      let scaled := Z.abs (Qnum x) * (pow10 e / den) in
      (if Qnum x <? 0 then "-" else "") +:+
      str_Z (scaled / pow10 e) +:+ "." +:+ zfill e (str_Z (scaled mod pow10 e))
  | None => str_Z (Qnum x) +:+ "/" +:+ str_Z den
  end.

(** The text before the first dot, and the text after it if there is one. *)
Fixpoint split_dot (s : string) : string * option string :=
  match s with
  | EmptyString => (EmptyString, None)
  | String c s' =>
      if Ascii.eqb c "."%char then (EmptyString, Some s')
      else let '(a, b) := split_dot s' in (String c a, b)
  end.

Definition unsigned_parse (s : string) : option Q :=
  let '(ip, fp) := split_dot s in
  let fp := default EmptyString fp in
  if nonempty (ip +:+ fp)
  then match digits_value (ip +:+ fp) with
       | Some v => Some (q_dec v (String.length fp))
       | None => None
       end
  else None.

Definition q_parse (s : string) : option Q :=
  match s with
  | String "-"%char s' => Qred ∘ Qopp <$> unsigned_parse s'
  | String "+"%char s' => unsigned_parse s'
  | _ => unsigned_parse s
  end.

Definition unsigned_int_parse (s : string) : option Z :=
  if nonempty s then digits_value s else None.

Definition q_int_parse (s : string) : option Z :=
  match s with
  | String "-"%char s' => Z.opp <$> unsigned_int_parse s'
  | String "+"%char s' => unsigned_int_parse s'
  | _ => unsigned_int_parse s
  end.

#[global] Instance Q_PyFloat : PyFloat Q := {|
  f_add a b := Qred (a + b);
  f_sub a b := Qred (a - b);
  f_mul a b := Qred (a * b);
  f_div a b := Qred (a / b);
  f_of_Z z := inject_Z z;
  f_dec := q_dec;
  f_round := q_round;
  f_ltb := q_ltb;
  f_repr := q_repr;
  f_parse := q_parse;
  int_parse := q_int_parse
|}.
End QFloat.

(** ** Vocabulary of the statements *)

(** A date of the month [m] of the year [y]. *)
Definition in_month (y m : Z) (d : date) : Prop :=
  year d = y /\ month d = m /\ 1 <= day d <= days_in_month y m.

Section Shapes.
Context {F : Type} `{PyFloat F}.

(** The three charge fields of an order: all empty, or a standard charge
    with its listed price and, only then, possibly a special charge, which
    is [round(uniform(10, 50), 2)] at some draw [raw] of the generator. *)
Definition charges_shape (additional_product : string)
    (charges special_charges : Order.charge F) : Prop :=
  (additional_product = "" /\ charges = Order.ChargeStr "" /\
   special_charges = Order.ChargeStr "") \/
  (exists price : F,
     (additional_product, price) ∈ (STANDARD_CHARGES (F := F)) /\
     charges = Order.ChargeNum price /\
     (special_charges = Order.ChargeStr "" \/
      exists raw : Z,
        special_charges =
        Order.ChargeNum
          (f_round (uniform_at (f_of_Z 10) (f_of_Z 50) (unit_of_raw raw)) 2))).

(** The invoice fields of an order dated [d] in the month [m]. *)
Definition invoice_shape (m : Z) (d : date) (o : Order.t F) : Prop :=
  (Order.status o = "Completed" /\
   Order.invoice_number o <> "" /\
   exists next : date,
     add_one_day d = Ok next /\
     Order.invoice_date o =
     Order.InvObj (if negb (month next =? m) then d else next)) \/
  (Order.status o <> "Completed" /\
   Order.invoice_number o = "" /\
   Order.invoice_date o = Order.InvNone).
(** [if self.invoice_date:], the test [to_row] applies to the field. *)
Definition invoice_date_present (f : Order.invoice_date_field) : Prop :=
  match f with
  | Order.InvNone => False
  | Order.InvObj _ => True
  | Order.InvStr s => s <> ""
  end.

(** A float, an int, a charge that the text written for it gives back. *)
Definition float_text_ok (x : F) : Prop :=
  nonempty (f_repr x) = true /\ f_parse (f_repr x) = Some x.

Definition int_text_ok (z : Z) : Prop := int_parse (str_Z z) = Some z.

Definition charge_text_ok (c : Order.charge F) : Prop :=
  match c with
  | Order.ChargeNum x => blank (f_repr x) = false /\ f_parse (f_repr x) = Some x
  | Order.ChargeStr s => blank s = true
  end.

(** An order whose fields are all representable as text: the two dates
    are held as text, the sequence id is not negative, and each number is
    read back from the text written for it. *)
Definition text_representable (o : Order.t F) : Prop :=
  (exists s, Order.date o = Order.DateStr s) /\
  (exists s, Order.invoice_date o = Order.InvStr s) /\
  0 <= Order.sequence_id o /\
  int_text_ok (Order.sequence_id o) /\
  float_text_ok (Order.unit_price o) /\
  int_text_ok (Order.quantity o) /\
  charge_text_ok (Order.charges o) /\
  charge_text_ok (Order.special_charges o) /\
  float_text_ok (Order.total_taxes o) /\
  float_text_ok (Order.total o) /\
  float_text_ok (Order.exempt_taxes o) /\
  float_text_ok (Order.total_cost o) /\
  float_text_ok (Order.margin_per_gallon o).

(** The nine fields of an order that [from_row] parses as numbers. *)
Definition numerics_of (o : Order.t F) : Order.numerics F :=
  Order.mkNumerics (Order.unit_price o) (Order.quantity o) (Order.charges o)
    (Order.special_charges o) (Order.total_taxes o) (Order.total o)
    (Order.exempt_taxes o) (Order.total_cost o) (Order.margin_per_gallon o).
End Shapes.

(** A customer with its sequences dropped. *)
Definition clear_sequences (c : Customer.t) : Customer.t :=
  {| Customer.customer_id := Customer.customer_id c;
     Customer.name := Customer.name c;
     Customer.address := Customer.address c;
     Customer.city := Customer.city c;
     Customer.state := Customer.state c;
     Customer.zip_code := Customer.zip_code c;
     Customer.contact_name := Customer.contact_name c;
     Customer.phone := Customer.phone c;
     Customer.email := Customer.email c;
     Customer.sequences := [] |}.

(** ** A concrete run, used to evaluate the statements *)

Module Sample.
Import QFloat.

Definition entropy (n : nat) : Z := (Z.of_nat n * 7919 + 13) * 1234567891234567.

Definition product : Product.t Q :=
  Product.mk "REG001" "Regular Gasoline" "REG" "Fuel" "C1" "Direct" "Retail"
    "T1" "Fuel Tax" "Bulk" "Gallon" "Active" "Yes" "0123456789"
    (q_dec 250 2) (q_dec 350 2).

Definition customer : Customer.t :=
  Customer.mk "CUST0001" "Acme Fuels" "1 Main St" "Springfield" "IL" "62701"
    "Jo Doe" "555-0100" "jo@acme.example" [Sequence.mk 1 "Location 1"].

Definition run : result (list (Order.t Q)) * nat :=
  DataGenerator.generate_orders entropy [product] [customer] 2024 2 3 0%nat.

Definition orders : list (Order.t Q) :=
  match fst run with
  | Ok os => os
  | Raise _ => []
  end.

(** The second order of the batch as [from_row] holds it: dates as text. *)
Definition text_order : Order.t Q :=
  {| Order.customer_name := "Acme Fuels";
     Order.order_number := "ORD-202402-0002";
     Order.sequence_id := 1;
     Order.sequence_desc := "Location 1";
     Order.date := Order.DateStr "02/07/2024";
     Order.product_name := "Regular Gasoline";
     Order.unit_price := q_dec 274 2;
     Order.quantity := 2150;
     Order.status := "Completed";
     Order.po_required := "No";
     Order.po_number := "";
     Order.invoice_number := "INV-202402-0002";
     Order.invoice_date := Order.InvStr "02/08/2024";
     Order.bol := "BOL-202402-0002";
     Order.additional_product := "Rush Delivery";
     Order.charges := Order.ChargeNum (q_dec 9500 2);
     Order.special_charges := Order.ChargeStr "";
     Order.total_taxes := q_dec 38627 2;
     Order.exempt_taxes := q_dec 8410 2;
     Order.total := q_dec 628817 2;
     Order.total_cost := q_dec 500735 2;
     Order.margin_per_gallon := q_dec 411 3 |}.

(** A row of 22 cells whose unit price reads 3.5 and whose quantity is
    not a number. *)
Definition bad_quantity_row : list string :=
  [ "Acme Fuels"; "ORD-202402-0002"; "1"; "Location 1"; ""; "No";
    "02/07/2024"; "Completed"; "INV-202402-0002"; "02/08/2024";
    "BOL-202402-0002"; "Regular Gasoline"; "3.5"; "abc"; ""; ""; "";
    "386.27"; "6288.17"; "84.1"; "5007.35"; "0.411" ].

(** The no-break space and the superscript two, by their code points. *)
Definition nbsp : string := String (ascii_of_N 160%N) "".
Definition superscript_two : string := String (ascii_of_N 178%N) "".

(** A row of 22 cells whose charges cell holds a no-break space. *)
Definition nbsp_charges_row : list string :=
  [ "Acme Fuels"; "ORD-202402-0002"; "1"; "Location 1"; ""; "No";
    "02/07/2024"; "Completed"; "INV-202402-0002"; "02/08/2024";
    "BOL-202402-0002"; "Regular Gasoline"; "3.5"; "200"; ""; nbsp; "";
    "386.27"; "6288.17"; "84.1"; "5007.35"; "0.411" ].

(** A row of 22 cells whose sequence id is a superscript two. *)
Definition superscript_sequence_row : list string :=
  [ "Acme Fuels"; "ORD-202402-0002"; superscript_two; "Location 1"; ""; "No";
    "02/07/2024"; "Completed"; "INV-202402-0002"; "02/08/2024";
    "BOL-202402-0002"; "Regular Gasoline"; "3.5"; "200"; ""; ""; "";
    "386.27"; "6288.17"; "84.1"; "5007.35"; "0.411" ].

(** The rows of the batch as the csv writer receives them. *)
Definition order_rows : list (list string) :=
  (fun o => Order.csv_text <$> Order.to_row o) <$> orders.

Definition orders_file : string := "fuel_orders_data/csv_data/orders/orders_2024_02.csv".

End Sample.

(** ** The rest of config.py *)

Definition PRODUCT_HEADERS : list string :=
  [ "Product Code"; "ProductName"; "Abbrev"; "Product Group"; "CycleCode";
    "Method"; "Account Group"; "Tax Profile"; "Tax Group"; "Packaging";
    "Unit of Measure"; "Status"; "Stocked"; "UPC Code" ].

Definition CUSTOMER_HEADERS : list string :=
  [ "CustomerID"; "CustomerName"; "Address"; "City"; "State"; "Zip";
    "ContactName"; "Phone"; "Email" ].

Definition SEQUENCE_HEADERS : list string :=
  [ "CustomerID"; "SequenceID"; "SequenceDesc" ].

Definition SAMPLE_PRODUCTS : list (list string) :=
  [ ["REG001"; "Regular Gasoline"; "REG"; "Fuel"; "C1"; "Direct"; "Retail"; "T1"; "Fuel Tax"; "Bulk"; "Gallon"; "Active"; "Yes"; "0123456789"];
    ["PRM001"; "Premium Gasoline"; "PRM"; "Fuel"; "C1"; "Direct"; "Retail"; "T1"; "Fuel Tax"; "Bulk"; "Gallon"; "Active"; "Yes"; "1234567890"];
    ["DSL001"; "Diesel"; "DSL"; "Fuel"; "C2"; "Direct"; "Commercial"; "T1"; "Fuel Tax"; "Bulk"; "Gallon"; "Active"; "Yes"; "2345678901"];
    ["KRS001"; "Kerosene"; "KRS"; "Fuel"; "C2"; "Direct"; "Commercial"; "T1"; "Fuel Tax"; "Bulk"; "Gallon"; "Active"; "Yes"; "3456789012"];
    ["ETH001"; "Ethanol"; "ETH"; "Fuel"; "C3"; "Direct"; "Retail"; "T2"; "Alt Fuel Tax"; "Bulk"; "Gallon"; "Active"; "Yes"; "4567890123"];
    ["BIO001"; "Biodiesel"; "BIO"; "Fuel"; "C3"; "Direct"; "Commercial"; "T2"; "Alt Fuel Tax"; "Bulk"; "Gallon"; "Active"; "Yes"; "5678901234"];
    ["E85001"; "E85 Fuel"; "E85"; "Fuel"; "C3"; "Direct"; "Retail"; "T2"; "Alt Fuel Tax"; "Bulk"; "Gallon"; "Active"; "Yes"; "6789012345"];
    ["DNF001"; "Diesel No Freeze"; "DNF"; "Fuel"; "C2"; "Direct"; "Commercial"; "T1"; "Fuel Tax"; "Bulk"; "Gallon"; "Active"; "Yes"; "7890123456"];
    ["JET001"; "Jet Fuel"; "JET"; "Fuel"; "C4"; "Direct"; "Aviation"; "T3"; "Aviation Tax"; "Bulk"; "Gallon"; "Active"; "Yes"; "8901234567"];
    ["AVG001"; "Aviation Gasoline"; "AVG"; "Fuel"; "C4"; "Direct"; "Aviation"; "T3"; "Aviation Tax"; "Bulk"; "Gallon"; "Active"; "Yes"; "9012345678"] ].

Definition DEFAULT_NUM_CUSTOMERS : Z := 20.
Definition DEFAULT_ORDERS_PER_MONTH : Z := 50.

Definition ORDER_DIR : string := "fuel_orders_data/csv_data/orders".
Definition PRODUCTS_FILE : string := "fuel_orders_data/csv_data/products/products.csv".
Definition CUSTOMERS_FILE : string := "fuel_orders_data/csv_data/customers/customers.csv".
Definition SEQUENCES_FILE : string :=
  "fuel_orders_data/csv_data/customers/customer_sequences.csv".
Definition SINGLE_OUTPUT_FILE : string := "customer_orders.csv".

(** The defaults of the fourteen text fields of [Product], as its
    dataclass and [Product.from_row] give them. *)
Definition PRODUCT_FIELD_DEFAULTS : list string :=
  [ ""; ""; ""; "Fuel"; ""; "Direct"; ""; ""; ""; "Bulk"; "Gallon"; "Active";
    "Yes"; "" ].

(** [range(a, b)] *)
Definition zrange (a b : Z) : list Z :=
  (fun k : nat => a + Z.of_nat k) <$> seq 0 (Z.to_nat (b - a)).

(** [for x in xs: acc = f(acc, x)] *)
Fixpoint foldM {S A B} (f : B -> A -> M S B) (xs : list A) (acc : B) : M S B :=
  match xs with
  | [] => ret acc
  | x :: xs' => let* acc' := f acc x in foldM f xs' acc'
  end.

(** ** The rest of utils/csv_handler.py

    A file holds the records the csv writer was given, cells as text; the
    csv reader gives them back as they are. [FileNotFoundError] and
    [IOError] are [OSError]. *)

Module CSVReader.
Import CSVHandler.

(** [os.path.exists(path)] never raises. *)
Definition file_exists (path : string) : IO bool :=
  fun w => (Ok (bool_decide (is_Some (files w !! path))), w).

(** [open(path, 'r')], the reading of all its records and the close of the
    file, which change no file: one operation that can fail. *)
Definition read_all (path : string) : IO (list (list string)) :=
  fun w =>
    let w' := mkWorld (files w) (S (ticks w)) (faults w) in
    match faults w (ticks w) with
    | Some e => (Raise e, w')
    | None =>
        match files w !! path with
        | Some records => (Ok records, w')
        | None => (Raise OSError, w')
        end
    end.

(** [next(reader, None)] then [list(reader)], or [list(reader)] alone. *)
Definition read_csv (path : string) (skip_header : bool) : IO (list (list string)) :=
  let* found := file_exists path in
  if negb found then raise OSError
  else
    let* records := read_all path in
    ret (if skip_header then drop 1 records else records).
End CSVReader.

(** ** The rest of generators/data_generator.py

    The state of a run: the cursor of the [random] module, the cursor of
    the Faker instance, whose texts are the oracle [faker], and the disk. *)

Record session : Type := mkSession {
  rng_pos : nat;
  fake_pos : nat;
  disk : CSVHandler.world
}.

Definition Run (A : Type) : Type := M session A.

Definition with_rng {A} (c : Rng A) : Run A :=
  fun s => let (r, p) := c (rng_pos s) in (r, mkSession p (fake_pos s) (disk s)).

Definition with_io {A} (c : CSVHandler.IO A) : Run A :=
  fun s => let (r, w) := c (disk s) in (r, mkSession (rng_pos s) (fake_pos s) w).

Module Catalog.
Section WithFloat.
Context {F : Type} `{PyFloat F}.
Variable entropy : nat -> Z.
Variable faker : nat -> string.

(** One call of a Faker provider: [fake.company()], [fake.city()], ... *)
Definition fake : Run string :=
  fun s => (Ok (faker (fake_pos s)),
            mkSession (rng_pos s) (S (fake_pos s)) (disk s)).

Definition create_sample_products : Rng (list (Product.t F)) :=
  mapM (Product.from_row entropy) SAMPLE_PRODUCTS.

(** [rows = [... for row in rows if len(row) >= n]] *)
Definition rows_of_width (n : nat) (rows : list (list string)) : list (list string) :=
  filter (fun row => (n <= length row)%nat) rows.

Definition generate_products (products_file : string) (force_new : bool)
  : Run (list (Product.t F)) :=
  let* found := with_io (CSVReader.file_exists products_file) in
  let* products :=
    (if force_new || negb found
     then
       let* products := with_rng create_sample_products in
       let product_rows := Product.to_row <$> products in
       let* success :=
         with_io (CSVHandler.write_csv products_file PRODUCT_HEADERS product_rows) in
       if negb success then raise OSError else ret products
     else
       let* product_rows := with_io (CSVReader.read_csv products_file true) in
       with_rng (mapM (Product.from_row entropy) (rows_of_width 2 product_rows))) in
  match products with
  | [] => raise ValueError
  | _ => ret products
  end.

(** The six descriptions [random.choice] picks from for the sequence [j]. *)
Definition sequence_descriptions (j : Z) : list string :=
  [ "Location " +:+ str_Z j; "Facility " +:+ str_Z j; "Building " +:+ str_Z j;
    "Warehouse " +:+ str_Z j; "Tank " +:+ str_Z j; "Station " +:+ str_Z j ].

(** The body of the loop [for i in range(1, num_customers + 1)]. *)
Definition create_sample_customer (i : Z) : Run Customer.t :=
  let customer_id := "CUST" +:+ format_0d 4 i in
  let* name := fake in
  let* address := fake in
  let* city := fake in
  let* state := fake in
  let* zip_code := fake in
  let* contact_name := fake in
  let* phone := fake in
  let* email := fake in
  let customer :=
    Customer.mk customer_id name address city state zip_code contact_name
      phone email [] in
  let* num_sequences := with_rng (random_randint entropy 1 5) in
  foldM (fun c j =>
           let* sequence_desc :=
             with_rng (random_choice entropy (sequence_descriptions j)) in
           ret (Customer.add_sequence c j sequence_desc))
    (zrange 1 (num_sequences + 1)) customer.

Definition create_sample_customers (num_customers : Z) : Run (list Customer.t) :=
  mapM create_sample_customer (zrange 1 (num_customers + 1)).

(** [customers_dict]: a dict keeps its keys in insertion order, and an
    assignment to a key it has replaces the value in place. *)
Fixpoint dict_set {V} (d : list (string * V)) (key : string) (v : V)
  : list (string * V) :=
  match d with
  | [] => [(key, v)]
  | (k, w) :: d' =>
      if String.eqb k key then (k, v) :: d' else (k, w) :: dict_set d' key v
  end.

(** [key in d] *)
Definition dict_has {V} (d : list (string * V)) (key : string) : bool :=
  existsb (fun kv => String.eqb (fst kv) key) d.

(** [d[key].add_sequence(seq_id, description)] for a key the dict has. *)
Fixpoint dict_add_sequence (d : list (string * Customer.t)) (key : string)
    (seq_id : Z) (description : string) : list (string * Customer.t) :=
  match d with
  | [] => []
  | (k, c) :: d' =>
      if String.eqb k key
      then (k, Customer.add_sequence c seq_id description) :: d'
      else (k, c) :: dict_add_sequence d' key seq_id description
  end.

(** The loop over the rows of the customers file. *)
Definition load_customers (customer_rows : list (list string))
  : result (list (string * Customer.t)) :=
  fold_left
    (fun acc row =>
       let? d := acc in
       if (2 <=? length row)%nat
       then let? customer := Customer.from_row row in
            Ok (dict_set d (Customer.customer_id customer) customer)
       else Ok d)
    customer_rows (Ok []).

(** The loop over the rows of the sequences file. *)
Definition load_sequences (d0 : list (string * Customer.t))
    (sequence_rows : list (list string)) : result (list (string * Customer.t)) :=
  fold_left
    (fun acc row =>
       let? d := acc in
       if (3 <=? length row)%nat
       then
         let? customer_id := getitem row 0 in
         if dict_has d customer_id
         then
           let? r1 := getitem row 1 in
           let? seq_id := py_int r1 in
           let? description := getitem row 2 in
           Ok (dict_add_sequence d customer_id seq_id description)
         else Ok d
       else Ok d)
    sequence_rows (Ok d0).

(** The rows written to the sequences file, cells as the writer prints
    them. *)
Definition sequence_rows_of (customers : list Customer.t) : list (list string) :=
  c ← customers;
  (fun sq => [Customer.customer_id c; str_Z (Sequence.seq_id sq);
              Sequence.description sq]) <$> Customer.sequences c.

Definition generate_customers (customers_file sequences_file : string)
    (num_customers : Z) (force_new : bool) : Run (list Customer.t) :=
  let* found_customers := with_io (CSVReader.file_exists customers_file) in
  let* found_sequences := with_io (CSVReader.file_exists sequences_file) in
  let* customers :=
    (if force_new || negb found_customers || negb found_sequences
     then
       let* customers := create_sample_customers num_customers in
       let customer_rows := Customer.to_row <$> customers in
       let sequence_rows := sequence_rows_of customers in
       let* customer_success :=
         with_io (CSVHandler.write_csv customers_file CUSTOMER_HEADERS customer_rows) in
       let* sequence_success :=
         with_io (CSVHandler.write_csv sequences_file SEQUENCE_HEADERS sequence_rows) in
       if negb customer_success || negb sequence_success
       then raise OSError else ret customers
     else
       let* customer_rows := with_io (CSVReader.read_csv customers_file true) in
       let* customers_dict := lift (load_customers customer_rows) in
       let* sequence_rows := with_io (CSVReader.read_csv sequences_file true) in
       let* customers_dict := lift (load_sequences customers_dict sequence_rows) in
       ret (filter (fun c => Customer.has_sequences c = true)
              (snd <$> customers_dict))) in
  match customers with
  | [] => raise ValueError
  | _ => ret customers
  end.
End WithFloat.
End Catalog.

(** ** generators/report_generator.py

    [datetime.datetime.now()] is the pair [(now_year, now_month)]. *)

Module ReportGenerator.
Section WithFloat.
Context {F : Type} `{PyFloat F}.
Variable entropy : nat -> Z.
Variable faker : nat -> string.
Variable now_year now_month : Z.

(** The rows of a batch, each cell as the csv writer prints it. *)
Definition order_rows (orders : list (Order.t F)) : list (list string) :=
  (fun o => Order.csv_text <$> Order.to_row o) <$> orders.

Definition generate_monthly_orders (y m : Z) (output_file : string)
    (num_orders : Z) (force_new_base_data : bool) : Run bool :=
  try_except
    (let* products :=
       Catalog.generate_products entropy PRODUCTS_FILE force_new_base_data in
     let* customers :=
       Catalog.generate_customers entropy faker CUSTOMERS_FILE SEQUENCES_FILE
         DEFAULT_NUM_CUSTOMERS force_new_base_data in
     let* orders :=
       with_rng (DataGenerator.generate_orders entropy products customers
                   y m num_orders) in
     let* success :=
       with_io (CSVHandler.write_csv output_file ORDER_HEADERS (order_rows orders)) in
     if success then ret true else ret false)
    (fun _ => ret false).

(** [os.path.join(ORDER_DIR, f"orders_{year}_{month:02d}.csv")] *)
Definition monthly_file (y m : Z) : string :=
  ORDER_DIR +:+ "/" +:+ "orders_" +:+ str_Z y +:+ "_" +:+ format_0d 2 m +:+ ".csv".

(** [total_months], as the first loop over the years adds it up. *)
Definition total_months (start_year end_year end_month : Z) : Z :=
  fold_left
    (fun total y => if y =? end_year then total + end_month else total + 12)
    (zrange start_year (end_year + 1)) 0.

(** The variables the two nested loops update. *)
Record progress : Type := mkProgress {
  force_new : bool;
  months_processed : Z;
  months_succeeded : Z
}.

(** The body of the loop [for month in range(1, max_month + 1)]. *)
Definition report_month (orders_per_month : Z) (y : Z) (st : progress) (m : Z)
  : Run progress :=
  let* success :=
    generate_monthly_orders y m (monthly_file y m) orders_per_month
      (force_new st) in
  ret (mkProgress false (months_processed st + 1)
         (if success then months_succeeded st + 1 else months_succeeded st)).

(** The body of the loop [for year in range(start_year, end_year + 1)]. *)
Definition report_year (orders_per_month end_year end_month : Z)
    (st : progress) (y : Z) : Run progress :=
  let max_month := if y =? end_year then end_month else 12 in
  foldM (report_month orders_per_month y) (zrange 1 (max_month + 1)) st.

Definition generate_multi_year_reports (start_year end_year end_month : option Z)
    (orders_per_month : Z) : Run bool :=
  let start_year := default (now_year - 5) start_year in
  let end_year := default now_year end_year in
  let end_month := default now_month end_month in
  if end_year <? start_year then ret false
  else if (start_year =? end_year) && (end_month <? 1) then ret false
  else
    let* st :=
      foldM (report_year orders_per_month end_year end_month)
        (zrange start_year (end_year + 1)) (mkProgress true 0 0) in
    ret (0 <? months_succeeded st).

Definition generate_current_month (output_file : option string) : Run bool :=
  let output_file := default (monthly_file now_year now_month) output_file in
  generate_monthly_orders now_year now_month output_file
    DEFAULT_ORDERS_PER_MONTH false.

Definition generate_single_file (output_file : string) (num_orders : Z)
    (force_new_base_data : bool) : Run bool :=
  try_except
    (let* products :=
       Catalog.generate_products entropy PRODUCTS_FILE force_new_base_data in
     let* customers :=
       Catalog.generate_customers entropy faker CUSTOMERS_FILE SEQUENCES_FILE
         DEFAULT_NUM_CUSTOMERS force_new_base_data in
     let* orders :=
       with_rng (DataGenerator.generate_orders entropy products customers
                   now_year now_month num_orders) in
     let* success :=
       with_io (CSVHandler.write_csv output_file ORDER_HEADERS (order_rows orders)) in
     if success then ret true else ret false)
    (fun _ => ret false).
End WithFloat.
End ReportGenerator.

(** The sequences numbered by [js], in that order, each described by one
    of the six descriptions of its number. *)
Definition numbered_from (js : list Z) (sqs : list Sequence.t) : Prop :=
  Forall2 (fun sq j => Sequence.seq_id sq = j /\
                       Sequence.description sq ∈ Catalog.sequence_descriptions j)
    sqs js.

(** A customer as [create_sample_customers] makes them: between 1 and 5
    sequences, numbered from 1. *)
Definition well_sequenced (c : Customer.t) : Prop :=
  exists k : Z, 1 <= k <= 5 /\
    numbered_from (zrange 1 (k + 1)) (Customer.sequences c).

(** ** Further concrete inputs *)

Module Fixture.
Import QFloat.

(** The first fourteen cells of an order row: no cell after the quantity. *)
Definition short_order_row : list string :=
  [ "Acme Fuels"; "ORD-202402-0002"; "1"; "Location 1"; ""; "No";
    "02/07/2024"; "Completed"; "INV-202402-0002"; "02/08/2024";
    "BOL-202402-0002"; "Regular Gasoline"; "3.5"; "2150" ].

(** A disk without files on which no operation fails. *)
Definition clean_disk : CSVHandler.world :=
  CSVHandler.mkWorld ∅ 0 (fun _ => None).

Definition faker (n : nat) : string := "text " +:+ str_Z (Z.of_nat n).

Definition start : session := mkSession 0 0 clean_disk.
End Fixture.

(** * Properties *)

(** ** The monad *)

Section MonadFacts.
Context {S : Type}.

Lemma bind_Ok_inv {A B} (c : M S A) (k : A -> M S B) s b s' :
  bind c k s = (Ok b, s') ->
  exists a s1, c s = (Ok a, s1) /\ k a s1 = (Ok b, s').
Proof.
  unfold bind. destruct (c s) as [[a | e] s1]; [eauto | discriminate].
Qed.

Lemma bind_run {A B} {c : M S A} {s a s1} (Hc : c s = (Ok a, s1))
    (k : A -> M S B) :
  bind c k s = k a s1.
Proof. unfold bind. by rewrite Hc. Qed.

Lemma bind_raise {A B} {c : M S A} {s e s1} (Hc : c s = (Raise e, s1))
    (k : A -> M S B) :
  bind c k s = (Raise e, s1).
Proof. unfold bind. by rewrite Hc. Qed.

Lemma lift_run {A} {r : result A} {a} (Hr : r = Ok a) (s : S) :
  lift r s = (Ok a, s).
Proof. unfold lift. by rewrite Hr. Qed.

Lemma lift_Ok_inv {A} (r : result A) (s : S) a s' :
  lift r s = (Ok a, s') -> r = Ok a /\ s' = s.
Proof. unfold lift. intros [= -> ->]. auto. Qed.

Lemma ret_Ok_inv {A} (x : A) (s : S) a s' :
  ret x s = (Ok a, s') -> a = x /\ s' = s.
Proof. unfold ret. intros [= -> ->]. auto. Qed.

Lemma mapM_Forall2 {A B} (f : A -> M S B) xs :
  forall s ys s', mapM f xs s = (Ok ys, s') ->
  Forall2 (fun x y => exists s1 s2, f x s1 = (Ok y, s2)) xs ys.
Proof.
  induction xs as [| x xs IH]; intros s ys s' Hrun; simpl in Hrun.
  - apply ret_Ok_inv in Hrun as [-> _]. constructor.
  - apply bind_Ok_inv in Hrun as (y & s1 & Hy & Hrun).
    apply bind_Ok_inv in Hrun as (ys' & s2 & Hys & Hrun).
    apply ret_Ok_inv in Hrun as [-> _].
    constructor; [eauto | eapply IH; eauto].
Qed.

Lemma mapM_total {A B} (f : A -> M S B) xs :
  (forall x s, x ∈ xs -> exists y s', f x s = (Ok y, s')) ->
  forall s, exists ys s', mapM f xs s = (Ok ys, s').
Proof.
  induction xs as [| x xs IH]; intros Hf s; simpl.
  - unfold ret. eauto.
  - destruct (Hf x s) as (y & s1 & Hy); [left |].
    destruct IH with (s := s1) as (ys & s2 & Hys).
    { intros x' s0 Hin. apply Hf. by right. }
    unfold bind at 1. rewrite Hy. unfold bind at 1. rewrite Hys.
    unfold ret. eauto.
Qed.

Lemma mapM_seq_lookup {B} (f : nat -> M S B) n s ys s' i y :
  mapM f (seq 0 n) s = (Ok ys, s') ->
  ys !! i = Some y ->
  (i < n)%nat /\ exists s1 s2, f i s1 = (Ok y, s2).
Proof.
  intros Hrun Hy. apply mapM_Forall2 in Hrun.
  destruct (Forall2_lookup_r _ _ _ _ _ Hrun Hy) as (x & Hx & Hf).
  apply lookup_seq in Hx as [-> Hlt]. simpl in Hf. auto.
Qed.

Lemma mapM_length {A B} (f : A -> M S B) xs s ys s' :
  mapM f xs s = (Ok ys, s') -> length ys = length xs.
Proof.
  intros Hrun. apply mapM_Forall2 in Hrun.
  symmetry. eapply Forall2_length; eauto.
Qed.
End MonadFacts.

Lemma rbind_Ok_inv {A B} (r : result A) (k : A -> result B) b :
  rbind r k = Ok b -> exists a, r = Ok a /\ k a = Ok b.
Proof. destruct r as [a | e]; simpl; [eauto | discriminate]. Qed.

Lemma getitem_Ok {A} (xs : list A) i x : getitem xs i = Ok x <-> xs !! i = Some x.
Proof.
  unfold getitem. destruct (xs !! i); split; intros [=]; subst; auto.
Qed.

(** ** Decimal text *)

Lemma append_cancel_l (p a b : string) : p +:+ a = p +:+ b -> a = b.
Proof.
  induction p as [| c p IH]; simpl; [auto |].
  intros [= Heq]. auto.
Qed.

Lemma digits_value_zeros (k : nat) (s : string) :
  digits_value (zeros k +:+ s) = digits_value s.
Proof.
  induction k as [| k IH]; [reflexivity |].
  revert IH. unfold digits_value. simpl.
  destruct (NilEmpty.uint_of_string (zeros k +:+ s)) as [d |];
    destruct (NilEmpty.uint_of_string s) as [d' |]; simpl; congruence.
Qed.

Lemma digits_value_str_Z (z : Z) : 0 <= z -> digits_value (str_Z z) = Some z.
Proof.
  intros Hz. destruct z as [| p | p]; [reflexivity | | lia].
  unfold digits_value, str_Z. simpl.
  pose proof (DecimalPos.Unsigned.to_uint_nonnil p) as Hnil.
  assert (NilZero.string_of_uint (Pos.to_uint p) =
          NilEmpty.string_of_uint (Pos.to_uint p)) as ->
    by (destruct (Pos.to_uint p); [congruence | reflexivity ..]).
  rewrite NilEmpty.usu. unfold N.of_uint.
  by rewrite DecimalPos.Unsigned.of_to.
Qed.

Lemma digits_value_format_0d (w : nat) (z : Z) :
  0 <= z -> digits_value (format_0d w z) = Some z.
Proof.
  intros Hz.
  assert (format_0d w z = zfill w (str_Z z)) as -> by (destruct z; [reflexivity .. | lia]).
  unfold zfill. rewrite digits_value_zeros. by apply digits_value_str_Z.
Qed.

Lemma format_0d_inj (w : nat) (a b : Z) :
  0 <= a -> 0 <= b -> format_0d w a = format_0d w b -> a = b.
Proof.
  intros Ha Hb Heq.
  pose proof (digits_value_format_0d w a Ha) as Hva.
  pose proof (digits_value_format_0d w b Hb) as Hvb.
  congruence.
Qed.

(** ** The calendar *)

Lemma monthrange_valid (y m : Z) :
  1 <= m <= 12 -> exists n, monthrange y m = Ok n /\ 28 <= n <= 31.
Proof.
  intros Hm.
  assert (m = 1 \/ m = 2 \/ m = 3 \/ m = 4 \/ m = 5 \/ m = 6 \/ m = 7 \/
          m = 8 \/ m = 9 \/ m = 10 \/ m = 11 \/ m = 12) as Hcases by lia.
  unfold monthrange.
  repeat (destruct Hcases as [-> | Hcases]); try subst m; simpl;
    try (eexists; split; [reflexivity | lia]).
  destruct (isleap y); eexists; (split; [reflexivity | lia]).
Qed.

Lemma days_in_month_valid (y m : Z) : 1 <= m <= 12 -> 28 <= days_in_month y m <= 31.
Proof.
  intros Hm. unfold days_in_month.
  destruct (monthrange_valid y m Hm) as (n & -> & Hn). exact Hn.
Qed.

Lemma monthrange_days (y m n : Z) : monthrange y m = Ok n -> days_in_month y m = n.
Proof. unfold days_in_month. by intros ->. Qed.

Lemma make_date_inv (y m d : Z) (dt : date) :
  make_date y m d = Ok dt ->
  dt = mkDate y m d /\ MINYEAR <= y <= MAXYEAR /\ 1 <= m <= 12 /\
  1 <= d <= days_in_month y m.
Proof.
  unfold make_date.
  destruct (_ && _) eqn:Hchk; [| discriminate].
  intros [= <-]. repeat (apply andb_true_iff in Hchk as [Hchk ?]).
  unfold MINYEAR, MAXYEAR in *. split; [reflexivity | lia].
Qed.

Lemma make_date_ok (y m d : Z) :
  MINYEAR <= y <= MAXYEAR -> 1 <= m <= 12 -> 1 <= d <= days_in_month y m ->
  make_date y m d = Ok (mkDate y m d).
Proof.
  intros Hy Hm Hd. unfold make_date.
  assert ((MINYEAR <=? y) && (y <=? MAXYEAR) && (1 <=? m) && (m <=? 12)
          && (1 <=? d) && (d <=? days_in_month y m) = true) as ->; [| done].
  unfold MINYEAR, MAXYEAR in *. repeat (apply andb_true_iff; split); lia.
Qed.

(** A next day in the same month is the same year, one day later. *)
Lemma add_one_day_same_month (dt next : date) :
  add_one_day dt = Ok next ->
  month next = month dt ->
  next = mkDate (year dt) (month dt) (day dt + 1) /\
  day dt < days_in_month (year dt) (month dt).
Proof.
  unfold add_one_day.
  destruct (day dt <? _) eqn:Hday.
  - intros [= <-] _. split; [reflexivity | lia].
  - destruct (month dt <? 12) eqn:Hmon.
    + intros [= <-] Hsame. simpl in Hsame. exfalso. lia.
    + destruct (year dt <? MAXYEAR); [| discriminate].
      intros [= <-] Hsame. simpl in Hsame. exfalso. lia.
Qed.

Lemma add_one_day_ok (dt : date) :
  year dt <= MAXYEAR -> month dt <= 12 ->
  ~ (year dt = MAXYEAR /\ month dt = 12) ->
  exists next, add_one_day dt = Ok next.
Proof.
  intros Hy Hm Hlast. unfold add_one_day.
  destruct (day dt <? _); [eauto |].
  destruct (month dt <? 12) eqn:Hmon; [eauto |].
  destruct (year dt <? MAXYEAR) eqn:Hyear; [eauto |].
  unfold MAXYEAR in *. lia.
Qed.

Example days_in_month_leap :
  days_in_month 2024 2 = 29 /\ days_in_month 2023 2 = 28 /\
  days_in_month 1900 2 = 28 /\ days_in_month 2000 2 = 29 /\
  days_in_month 2024 4 = 30 /\ days_in_month 2024 12 = 31.
Proof. repeat split. Qed.

Example add_one_day_month_end :
  add_one_day (mkDate 2024 2 29) = Ok (mkDate 2024 3 1) /\
  add_one_day (mkDate 2023 12 31) = Ok (mkDate 2024 1 1) /\
  add_one_day (mkDate 9999 12 31) = Raise OverflowError.
Proof. repeat split. Qed.

#[export] Instance date_le_total : Total date_le.
Proof. intros a b. unfold date_le. lia. Qed.

#[export] Instance date_le_trans : Transitive date_le.
Proof. intros a b c. unfold date_le. lia. Qed.

(** ** The random source *)

Section RandomFacts.
Context {F : Type} `{PyFloat F}.
Variable entropy : nat -> Z.

Lemma random_uniform_run (a b : F) (pos : nat) :
  random_uniform entropy a b pos =
  (Ok (uniform_at a b (unit_of_raw (entropy pos))), S pos).
Proof. reflexivity. Qed.

Lemma random_random_run (pos : nat) :
  random_random entropy pos = (Ok (unit_of_raw (entropy pos)), S pos).
Proof. reflexivity. Qed.

Lemma random_randint_ok (a b : Z) (pos : nat) :
  a <= b ->
  exists v, (a <= v <= b) /\ (random_randint entropy a b pos = (Ok v, S pos)).
Proof.
  intros Hab. unfold random_randint.
  assert ((b <? a) = false) as -> by lia.
  exists (a + entropy pos mod (b - a + 1)). split; [| reflexivity].
  pose proof (Z.mod_pos_bound (entropy pos) (b - a + 1)). lia.
Qed.

Lemma random_randint_inv (a b : Z) (pos : nat) v pos' :
  random_randint entropy a b pos = (Ok v, pos') -> a <= v <= b.
Proof.
  unfold random_randint. destruct (b <? a) eqn:Hab; [discriminate |].
  intros [= <- _].
  pose proof (Z.mod_pos_bound (entropy pos) (b - a + 1)). lia.
Qed.

Lemma random_choice_ok {A} (xs : list A) (pos : nat) :
  xs <> [] ->
  exists x, x ∈ xs /\ random_choice entropy xs pos = (Ok x, S pos).
Proof.
  intros Hne. destruct xs as [| x0 xs']; [done |].
  set (xs := x0 :: xs'). 
  assert (0 < Z.of_nat (length xs)) as Hlen by (simpl; lia).
  pose proof (Z.mod_pos_bound (entropy pos) _ Hlen) as Hidx.
  destruct (lookup_lt_is_Some_2 xs (Z.to_nat (entropy pos mod Z.of_nat (length xs))))
    as [x Hx]; [lia |].
  exists x. split; [by eapply list_elem_of_lookup_2 |].
  unfold random_choice, xs. fold xs. unfold bind, next_raw, lift.
  apply getitem_Ok in Hx. by rewrite Hx.
Qed.

Lemma random_choice_inv {A} (xs : list A) (pos : nat) x pos' :
  random_choice entropy xs pos = (Ok x, pos') -> x ∈ xs.
Proof.
  destruct xs as [| x0 xs']; [discriminate |].
  unfold random_choice, bind, next_raw, lift.
  intros [= Hx _]. apply getitem_Ok in Hx. by eapply list_elem_of_lookup_2.
Qed.
End RandomFacts.

(** ** The generator *)

Section GeneratorFacts.
Context {F : Type} `{PyFloat F}.
Variable entropy : nat -> Z.

Lemma generate_date_in_month_inv (y m : Z) (pos : nat) d pos' :
  DataGenerator.generate_date_in_month entropy y m pos = (Ok d, pos') ->
  in_month y m d.
Proof.
  unfold DataGenerator.generate_date_in_month. intros Hrun.
  apply bind_Ok_inv in Hrun as (n & s1 & Hn & Hrun).
  apply lift_Ok_inv in Hn as [Hn ->].
  apply bind_Ok_inv in Hrun as (v & s2 & Hv & Hrun).
  apply lift_Ok_inv in Hrun as [Hd _].
  apply make_date_inv in Hd as (-> & _ & _ & Hday).
  unfold in_month. simpl. auto.
Qed.

Lemma generate_date_in_month_ok (y m : Z) (pos : nat) :
  MINYEAR <= y <= MAXYEAR -> 1 <= m <= 12 ->
  exists d pos', DataGenerator.generate_date_in_month entropy y m pos = (Ok d, pos').
Proof.
  intros Hy Hm. unfold DataGenerator.generate_date_in_month.
  destruct (monthrange_valid y m Hm) as (n & Hn & Hbound).
  destruct (random_randint_ok entropy 1 n pos) as (v & Hv & Hdraw); [lia |].
  unfold bind, lift. rewrite Hn, Hdraw.
  rewrite make_date_ok; eauto.
  by rewrite (monthrange_days _ _ _ Hn).
Qed.

Lemma get_random_price_run (p : Product.t F) (pos : nat) :
  Product.get_random_price entropy p pos =
  (Ok (f_round (uniform_at (Product.min_price p) (Product.max_price p)
                  (unit_of_raw (entropy pos))) 2), S pos).
Proof. reflexivity. Qed.

Lemma dict_get_elem {V} (d : list (string * V)) key v :
  dict_get d key = Ok v -> (key, v) ∈ d.
Proof.
  induction d as [| [k w] d IH]; simpl; [discriminate |].
  destruct (String.eqb k key) eqn:Hk.
  - intros [= ->]. apply String.eqb_eq in Hk as ->. left.
  - intros Hv. right. auto.
Qed.

Lemma draw_charges_inv (pos : nat) ap ch sp pos' :
  DataGenerator.draw_charges entropy pos = (Ok (ap, ch, sp), pos') ->
  charges_shape ap ch sp.
Proof.
  unfold DataGenerator.draw_charges. intros Hrun.
  apply bind_Ok_inv in Hrun as (u & s1 & _ & Hrun).
  destruct (f_ltb u _).
  - apply bind_Ok_inv in Hrun as (name & s2 & _ & Hrun).
    apply bind_Ok_inv in Hrun as (price & s3 & Hprice & Hrun).
    apply lift_Ok_inv in Hprice as [Hprice ->].
    apply dict_get_elem in Hprice.
    apply bind_Ok_inv in Hrun as (v & s4 & _ & Hrun).
    destruct (f_ltb v _).
    + apply bind_Ok_inv in Hrun as (x & s5 & Hx & Hrun).
      rewrite random_uniform_run in Hx. injection Hx as <- <-.
      apply ret_Ok_inv in Hrun as [[= -> -> ->] _].
      right. exists price. eauto.
    + apply ret_Ok_inv in Hrun as [[= -> -> ->] _].
      right. exists price. eauto.
  - apply ret_Ok_inv in Hrun as [[= -> -> ->] _]. by left.
Qed.

Lemma draw_charges_ok (pos : nat) :
  exists r pos', DataGenerator.draw_charges entropy pos = (Ok r, pos').
Proof.
  unfold DataGenerator.draw_charges.
  unfold bind at 1. rewrite random_random_run.
  destruct (f_ltb _ _); [| unfold ret; eauto].
  destruct (random_choice_ok entropy
              (DataGenerator.standard_charge_names (F := F)) (S pos))
    as (name & Hname & Hdraw); [discriminate |].
  unfold bind at 1. rewrite Hdraw.
  assert (exists price, dict_get (STANDARD_CHARGES (F := F)) name = Ok price)
    as [price Hprice].
  { unfold DataGenerator.standard_charge_names, STANDARD_CHARGES in *.
    simpl in Hname. set_unfold in Hname.
    destruct Hname as [-> | [-> | [-> | [-> | [-> | []]]]]]; simpl; eauto. }
  unfold bind at 1, lift at 1. rewrite Hprice.
  unfold bind at 1. rewrite random_random_run.
  destruct (f_ltb _ _); [| unfold ret; eauto].
  unfold bind at 1. rewrite random_uniform_run. unfold ret; eauto.
Qed.

(** The derivation step touches the five derived fields only. *)
Lemma calculate_totals_keeps (o : Order.t F) (pos : nat) :
  exists o',
    Order.calculate_totals entropy o pos = (Ok o', S (S pos)) /\
    Order.order_number o' = Order.order_number o /\
    Order.date o' = Order.date o /\
    Order.status o' = Order.status o /\
    Order.invoice_number o' = Order.invoice_number o /\
    Order.invoice_date o' = Order.invoice_date o /\
    Order.additional_product o' = Order.additional_product o /\
    Order.charges o' = Order.charges o /\
    Order.special_charges o' = Order.special_charges o.
Proof.
  eexists. split.
  - cbv beta iota zeta delta
      [Order.calculate_totals bind random_uniform random_random next_raw ret].
    reflexivity.
  - simpl. repeat split.
Qed.

Lemma invoice_for_inv (m : Z) (mys : string) (i : nat) (d : date) num inv :
  DataGenerator.invoice_for m mys i d = Ok (num, inv) ->
  num <> "" /\
  exists next, add_one_day d = Ok next /\
               inv = Order.InvObj (if negb (month next =? m) then d else next).
Proof.
  unfold DataGenerator.invoice_for. intros Hrun.
  apply rbind_Ok_inv in Hrun as (next & Hnext & [= <- <-]).
  split; [discriminate | eauto].
Qed.

Lemma generate_order_inv products customers (m : Z) (mys : string)
    (dates : list date) (i : nat) (pos : nat) o pos' :
  DataGenerator.generate_order entropy products customers m mys dates i pos
    = (Ok o, pos') ->
  Order.order_number o = "ORD-" +:+ mys +:+ "-" +:+ format_0d 4 (Z.of_nat i + 1) /\
  (exists d, dates !! i = Some d /\ Order.date o = Order.DateObj d /\
             invoice_shape m d o) /\
  charges_shape (Order.additional_product o) (Order.charges o)
    (Order.special_charges o).
Proof.
  unfold DataGenerator.generate_order. intros Hrun.
  apply bind_Ok_inv in Hrun as (customer & s1 & _ & Hrun).
  apply bind_Ok_inv in Hrun as (sequence & s2 & _ & Hrun).
  apply bind_Ok_inv in Hrun as (po_req & s3 & _ & Hrun).
  apply bind_Ok_inv in Hrun as (d & s4 & Hd & Hrun).
  apply lift_Ok_inv in Hd as [Hd ->]. apply getitem_Ok in Hd.
  apply bind_Ok_inv in Hrun as (status & s5 & _ & Hrun).
  apply bind_Ok_inv in Hrun as ([num inv] & s6 & Hinv & Hrun).
  apply bind_Ok_inv in Hrun as (product & s7 & _ & Hrun).
  apply bind_Ok_inv in Hrun as (price & s8 & _ & Hrun).
  apply bind_Ok_inv in Hrun as (q & s9 & _ & Hrun).
  apply bind_Ok_inv in Hrun as ([[ap ch] sp] & s10 & Hch & Hrun).
  apply draw_charges_inv in Hch.
  match type of Hrun with
  | Order.calculate_totals _ ?raw _ = _ =>
      destruct (calculate_totals_keeps raw s10)
        as (o' & Hrun' & Hnum & Hdate & Hst & Hinum & Hidate & Hap & Hc & Hsp)
  end.
  rewrite Hrun' in Hrun. injection Hrun as -> _.
  split; [by rewrite Hnum |]. split.
  - exists d. split; [done |]. split; [by rewrite Hdate |].
    unfold invoice_shape. rewrite Hst, Hinum, Hidate. simpl.
    destruct (String.eqb status "Completed") eqn:Hstatus.
    + apply String.eqb_eq in Hstatus as ->.
      apply lift_Ok_inv in Hinv as [Hinv _].
      apply invoice_for_inv in Hinv as (Hnum' & next & Hnext & ->).
      left. eauto.
    + apply String.eqb_neq in Hstatus.
      apply ret_Ok_inv in Hinv as [[= -> ->] _]. by right.
  - by rewrite Hap, Hc, Hsp.
Qed.

Lemma generate_order_ok products customers (m : Z) (mys : string)
    (dates : list date) (i : nat) (pos : nat) d :
  products <> [] -> customers <> [] ->
  Forall (fun c => Customer.sequences c <> []) customers ->
  dates !! i = Some d ->
  year d <= MAXYEAR -> month d <= 12 ->
  ~ (year d = MAXYEAR /\ month d = 12) ->
  exists o pos',
    DataGenerator.generate_order entropy products customers m mys dates i pos
      = (Ok o, pos').
Proof.
  intros Hprod Hcust Hseqs Hd Hy Hm Hlast.
  unfold DataGenerator.generate_order.
  destruct (random_choice_ok entropy customers pos Hcust) as (c & Hc & Hrun).
  rewrite (bind_run Hrun). clear Hrun.
  assert (Customer.sequences c <> []) as Hseq
    by (rewrite Forall_forall in Hseqs; auto).
  destruct (random_choice_ok entropy _ (S pos) Hseq) as (sq & _ & Hrun).
  rewrite (bind_run Hrun). clear Hrun.
  destruct (random_choice_ok entropy DataGenerator.po_weighted (S (S pos)))
    as (po & _ & Hrun); [discriminate |].
  rewrite (bind_run Hrun). clear Hrun.
  apply getitem_Ok in Hd.
  rewrite (bind_run (lift_run Hd _)).
  destruct (random_choice_ok entropy DataGenerator.statuses_weighted
              (S (S (S pos)))) as (st & _ & Hrun); [discriminate |].
  rewrite (bind_run Hrun). clear Hrun.
  destruct (add_one_day_ok d Hy Hm Hlast) as (next & Hnext).
  set (pos4 := S (S (S (S pos)))).
  assert (exists num inv,
    (if String.eqb st "Completed"
     then lift (DataGenerator.invoice_for m mys i d)
     else ret ("", Order.InvNone)) pos4 = (Ok (num, inv), pos4))
    as (num & inv & Hrun).
  { destruct (String.eqb st "Completed"); [| unfold ret; eauto].
    unfold lift, DataGenerator.invoice_for. rewrite Hnext. simpl. eauto. }
  rewrite (bind_run Hrun). clear Hrun.
  destruct (random_choice_ok entropy products pos4 Hprod) as (p & _ & Hrun).
  rewrite (bind_run Hrun). clear Hrun.
  rewrite (bind_run (get_random_price_run p (S pos4))).
  destruct (random_randint_ok entropy 20 350 (S (S pos4))) as (q & _ & Hrun);
    [lia |].
  rewrite (bind_run Hrun). clear Hrun.
  destruct (draw_charges_ok (S (S (S pos4)))) as ([[ap ch] sp] & pos5 & Hrun).
  rewrite (bind_run Hrun). clear Hrun.
  match goal with
  | |- exists o pos', Order.calculate_totals _ ?raw ?s = _ =>
      destruct (calculate_totals_keeps raw s) as (o' & Hrun & _)
  end.
  eauto.
Qed.

Lemma generate_orders_inv products customers (y m count : Z) (pos : nat)
    os pos' :
  DataGenerator.generate_orders entropy products customers y m count pos
    = (Ok os, pos') ->
  exists drawn : list date,
    length drawn = Z.to_nat count /\
    Forall (in_month y m) drawn /\
    length os = Z.to_nat count /\
    forall i o, os !! i = Some o ->
      exists s1 s2,
        DataGenerator.generate_order entropy products customers m
          (DataGenerator.month_year_str y m)
          (DataGenerator.sort_dates drawn) i s1 = (Ok o, s2).
Proof.
  unfold DataGenerator.generate_orders. intros Hrun.
  apply bind_Ok_inv in Hrun as (drawn & s1 & Hdrawn & Hrun).
  exists drawn. split; [| split; [| split]].
  - apply mapM_length in Hdrawn. by rewrite Hdrawn, length_seq.
  - apply mapM_Forall2 in Hdrawn. apply Forall_forall. intros d Hd.
    apply list_elem_of_lookup in Hd as [i Hd].
    destruct (Forall2_lookup_r _ _ _ _ _ Hdrawn Hd) as (x & _ & s2 & s3 & Hgen).
    by eapply generate_date_in_month_inv.
  - apply mapM_length in Hrun. by rewrite Hrun, length_seq.
  - intros i o Ho. by destruct (mapM_seq_lookup _ _ _ _ _ _ _ Hrun Ho).
Qed.

Lemma sort_dates_in_month (y m : Z) (drawn : list date) :
  Forall (in_month y m) drawn ->
  Forall (in_month y m) (DataGenerator.sort_dates drawn).
Proof.
  intros Hall. unfold DataGenerator.sort_dates.
  by rewrite merge_sort_Permutation.
Qed.

Lemma sort_dates_length (drawn : list date) :
  length (DataGenerator.sort_dates drawn) = length drawn.
Proof.
  unfold DataGenerator.sort_dates. by rewrite merge_sort_Permutation.
Qed.

(** The dates of the orders are the sorted list of the drawn dates. *)
Lemma generate_orders_dates products customers (y m count : Z) (pos : nat)
    os pos' :
  DataGenerator.generate_orders entropy products customers y m count pos
    = (Ok os, pos') ->
  exists drawn : list date,
    Forall (in_month y m) drawn /\
    Order.date <$> os = Order.DateObj <$> DataGenerator.sort_dates drawn.
Proof.
  intros Hrun. apply generate_orders_inv in Hrun
    as (drawn & Hlen & Hall & Hlen' & Hgen).
  exists drawn. split; [done |].
  apply list_eq_same_length with (n := Z.to_nat count);
    rewrite ?length_fmap, ?sort_dates_length; try done.
  intros i a b _. rewrite !list_lookup_fmap.
  destruct (os !! i) as [o |] eqn:Ho; [| discriminate]. simpl.
  destruct (Hgen i o Ho) as (s1 & s2 & Hone).
  apply generate_order_inv in Hone as (_ & (d & -> & Hd & _) & _).
  simpl. congruence.
Qed.

Lemma generate_orders_ok products customers (y m count : Z) (pos : nat) :
  (0 < count ->
   products <> [] /\ customers <> [] /\
   Forall (fun c => Customer.sequences c <> []) customers /\
   MINYEAR <= y <= MAXYEAR /\ 1 <= m <= 12 /\ ~ (y = MAXYEAR /\ m = 12)) ->
  exists os pos',
    DataGenerator.generate_orders entropy products customers y m count pos
      = (Ok os, pos').
Proof.
  intros Hpre. unfold DataGenerator.generate_orders.
  destruct (Z.to_nat count) as [| n] eqn:Hn.
  { simpl. unfold bind, ret. eauto. }
  destruct Hpre as (Hprod & Hcust & Hseqs & Hy & Hm & Hlast); [lia |].
  rewrite <- Hn.
  destruct (mapM_total
              (fun _ : nat => DataGenerator.generate_date_in_month entropy y m)
              (seq 0 (Z.to_nat count))) with (s := pos)
    as (drawn & s1 & Hdrawn).
  { intros x s _. by apply generate_date_in_month_ok. }
  rewrite (bind_run Hdrawn).
  assert (Forall (in_month y m) (DataGenerator.sort_dates drawn)) as Hall.
  { apply sort_dates_in_month, Forall_forall. intros d Hd.
    apply mapM_Forall2 in Hdrawn.
    apply list_elem_of_lookup in Hd as [i Hd].
    destruct (Forall2_lookup_r _ _ _ _ _ Hdrawn Hd) as (x & _ & s2 & s3 & Hgen).
    by eapply generate_date_in_month_inv. }
  apply mapM_total. intros i s Hi.
  apply elem_of_seq in Hi as [_ Hi].
  destruct (lookup_lt_is_Some_2 (DataGenerator.sort_dates drawn) i) as [d Hd].
  { rewrite sort_dates_length. apply mapM_length in Hdrawn.
    rewrite Hdrawn, length_seq. lia. }
  rewrite Forall_forall in Hall.
  destruct (Hall d) as (Hyd & Hmd & _); [by eapply list_elem_of_lookup_2 |].
  eapply generate_order_ok; eauto; rewrite ?Hyd, ?Hmd; lia.
Qed.
(** What holds of each order of a batch. *)
Lemma generate_orders_each products customers (y m count : Z) (pos : nat)
    os pos' o :
  DataGenerator.generate_orders entropy products customers y m count pos
    = (Ok os, pos') ->
  o ∈ os ->
  exists d, in_month y m d /\ Order.date o = Order.DateObj d /\
            invoice_shape m d o /\
            charges_shape (Order.additional_product o) (Order.charges o)
              (Order.special_charges o).
Proof.
  intros Hrun Ho. apply generate_orders_inv in Hrun
    as (drawn & _ & Hall & _ & Hgen).
  apply list_elem_of_lookup in Ho as [i Ho].
  destruct (Hgen i o Ho) as (s1 & s2 & Hone).
  apply generate_order_inv in Hone as (_ & (d & Hd & Hdate & Hinv) & Hch).
  exists d. split; [| done].
  apply sort_dates_in_month in Hall. rewrite Forall_forall in Hall.
  apply Hall. by eapply list_elem_of_lookup_2.
Qed.
End GeneratorFacts.

(** ** Financial derivation *)

(** C1. For every order, [calculate_totals] returns the order with: total
    equal to main charges + additional charges + special charges + total
    taxes - exempt taxes, summed left to right and not rounded, where main
    charges is [round(unit_price * quantity, 2)] and a charge that is not a
    number counts as 0.0; total cost equal to [round(main_charges * 0.85, 2)];
    margin per gallon equal to
    [round((main_charges - total_cost) / quantity, 3)] when quantity > 0 and
    0.0 otherwise. *)
Theorem calculate_totals_formulas {F : Type} `{PyFloat F} (entropy : nat -> Z)
    (o : Order.t F) (pos : nat) :
  exists o' pos',
    Order.calculate_totals entropy o pos = (Ok o', pos') /\
    let main_charges :=
      f_round (f_mul (Order.unit_price o) (f_of_Z (Order.quantity o))) 2 in
    let additional_charges :=
      match Order.charges o with
      | Order.ChargeNum x => x
      | Order.ChargeStr _ => f_dec 0 1
      end in
    let special_charges :=
      match Order.special_charges o with
      | Order.ChargeNum x => x
      | Order.ChargeStr _ => f_dec 0 1
      end in
    Order.total o' =
      f_sub (f_add (f_add (f_add main_charges additional_charges) special_charges)
               (Order.total_taxes o'))
        (Order.exempt_taxes o') /\
    Order.total_cost o' = f_round (f_mul main_charges (f_dec 85 2)) 2 /\
    Order.margin_per_gallon o' =
      (if 0 <? Order.quantity o
       then f_round (f_div (f_sub main_charges (Order.total_cost o'))
                       (f_of_Z (Order.quantity o))) 3
       else f_dec 0 1) /\
    Order.unit_price o' = Order.unit_price o /\
    Order.quantity o' = Order.quantity o.
Proof.
  eexists _, _. split.
  - cbv beta iota zeta delta
      [Order.calculate_totals bind random_uniform random_random next_raw ret].
    reflexivity.
  - simpl. destruct (Order.charges o), (Order.special_charges o); repeat split.
Qed.

(** The second order of the sample batch: 2150 gallons at 2.74 with a Rush
    Delivery charge of 95.00. *)
Example calculate_totals_sample :
  exists o : Order.t Q,
    Sample.orders !! 1%nat = Some o /\
    Order.unit_price o = QFloat.q_dec 274 2 /\ Order.quantity o = 2150 /\
    Order.charges o = Order.ChargeNum (QFloat.q_dec 9500 2) /\
    Order.special_charges o = Order.ChargeStr "" /\
    Order.total_taxes o = QFloat.q_dec 38627 2 /\
    Order.exempt_taxes o = QFloat.q_dec 8410 2 /\
    Order.total o = QFloat.q_dec 628817 2 /\
    Order.total_cost o = QFloat.q_dec 500735 2 /\
    Order.margin_per_gallon o = QFloat.q_dec 411 3.
Proof. eexists. split; [vm_compute; reflexivity |]. vm_compute. tauto. Qed.

(** An order of no gallons has a margin of 0.0. *)
Example calculate_totals_no_quantity :
  exists o : Order.t Q,
    fst (Order.calculate_totals Sample.entropy
           {| Order.customer_name := "Acme Fuels";
              Order.order_number := "ORD-202402-0001";
              Order.sequence_id := 1;
              Order.sequence_desc := "Location 1";
              Order.date := Order.DateObj (mkDate 2024 2 7);
              Order.product_name := "Regular Gasoline";
              Order.unit_price := QFloat.q_dec 274 2;
              Order.quantity := 0;
              Order.status := "Pending";
              Order.po_required := "No";
              Order.po_number := "";
              Order.invoice_number := "";
              Order.invoice_date := Order.InvNone;
              Order.bol := "BOL-202402-0001";
              Order.additional_product := "";
              Order.charges := Order.ChargeStr "";
              Order.special_charges := Order.ChargeStr "";
              Order.total_taxes := f_dec 0 1;
              Order.exempt_taxes := f_dec 0 1;
              Order.total := f_dec 0 1;
              Order.total_cost := f_dec 0 1;
              Order.margin_per_gallon := f_dec 0 1 |} 0%nat) = Ok o /\
    Order.total o = f_dec 0 1 /\
    Order.margin_per_gallon o = f_dec 0 1.
Proof. eexists. split; [vm_compute; reflexivity |]. vm_compute. tauto. Qed.

(** ** Order synthesis *)

(** C2 (amended). For every count >= 0, [generate_orders] returns exactly
    count orders, order i (from 0) carrying the number
    ORD-{yyyymm}-{i+1:04d}, so the numbers of a batch are pairwise distinct,
    and count = 0 gives the empty list, provided that, when count > 0, the
    product list and the customer list are both non-empty, every customer
    has a sequence, the month is a month of the calendar (1..12, year
    1..9999) and it is not December 9999. *)
Theorem generate_orders_count_and_numbers {F : Type} `{PyFloat F}
    (entropy : nat -> Z) (products : list (Product.t F))
    (customers : list Customer.t) (y m count : Z) (pos : nat) :
  0 <= count ->
  (0 < count ->
   products <> [] /\ customers <> [] /\
   Forall (fun c => Customer.sequences c <> []) customers /\
   1 <= y <= 9999 /\ 1 <= m <= 12 /\ ~ (y = 9999 /\ m = 12)) ->
  exists os pos',
    DataGenerator.generate_orders entropy products customers y m count pos
      = (Ok os, pos') /\
    Z.of_nat (length os) = count /\
    (forall i o, os !! i = Some o ->
       Order.order_number o =
       "ORD-" +:+ DataGenerator.month_year_str y m +:+ "-" +:+
       format_0d 4 (Z.of_nat i + 1)) /\
    NoDup (Order.order_number <$> os) /\
    (count = 0 -> os = []).
Proof.
  intros Hcount Hpre.
  destruct (generate_orders_ok entropy products customers y m count pos Hpre)
    as (os & pos' & Hrun).
  exists os, pos'. split; [exact Hrun |].
  apply generate_orders_inv in Hrun as (drawn & _ & _ & Hlen & Hgen).
  assert (forall i o, os !! i = Some o ->
            Order.order_number o =
            "ORD-" +:+ DataGenerator.month_year_str y m +:+ "-" +:+
            format_0d 4 (Z.of_nat i + 1)) as Hnum.
  { intros i o Ho. destruct (Hgen i o Ho) as (s1 & s2 & Hone).
    by apply generate_order_inv in Hone as (Hnum & _). }
  split; [lia |]. split; [exact Hnum |]. split.
  - apply NoDup_alt. intros i j num Hi Hj.
    rewrite list_lookup_fmap in Hi, Hj.
    destruct (os !! i) as [oi |] eqn:Hoi; [| discriminate].
    destruct (os !! j) as [oj |] eqn:Hoj; [| discriminate].
    simpl in Hi, Hj. injection Hi as Hi. injection Hj as Hj.
    rewrite (Hnum i oi Hoi) in Hi. rewrite (Hnum j oj Hoj) in Hj.
    rewrite <- Hj in Hi.
    do 3 apply append_cancel_l in Hi.
    apply format_0d_inj in Hi; lia.
  - intros ->. by destruct os.
Qed.

Lemma generate_orders_count_and_numbers_witness :
  exists os pos',
    DataGenerator.generate_orders Sample.entropy [Sample.product]
      [Sample.customer] 2024 2 3 0%nat = (Ok os, pos') /\
    Z.of_nat (length os) = 3 /\
    (forall i o, os !! i = Some o ->
       Order.order_number o =
       "ORD-" +:+ DataGenerator.month_year_str 2024 2 +:+ "-" +:+
       format_0d 4 (Z.of_nat i + 1)) /\
    NoDup (Order.order_number <$> os) /\
    (3 = 0 -> os = []).
Proof.
  apply (generate_orders_count_and_numbers Sample.entropy [Sample.product]
           [Sample.customer] 2024 2 3 0%nat).
  - lia.
  - intros _. repeat split; try discriminate; try lia.
    repeat constructor. discriminate.
Defined.

(** The claim of C2 as first worded asks nothing of the customer list but
    that its members have sequences: with no customer at all and one order
    requested, the choice of a customer raises [IndexError]. *)
Lemma generate_orders_without_customers_raises :
  [Sample.product] <> [] /\
  Forall (fun c => Customer.sequences c <> []) ([] : list Customer.t) /\
  0 <= 1 /\
  fst (DataGenerator.generate_orders Sample.entropy [Sample.product] []
         2024 2 1 0%nat) = Raise IndexError.
Proof.
  split; [discriminate |]. split; [constructor |]. split; [lia |].
  vm_compute. reflexivity.
Qed.

(** C3. In every batch [generate_orders] returns, the dates of the orders,
    in the order of the batch, are the dates drawn for the month sorted
    ascending before the loop over the orders: each lies in the requested
    month, between day 1 and the last day of that month, and the sequence is
    non-decreasing. *)
Theorem generate_orders_dates_in_month_sorted {F : Type} `{PyFloat F}
    (entropy : nat -> Z) (products : list (Product.t F))
    (customers : list Customer.t) (y m count : Z) (pos : nat)
    (os : list (Order.t F)) (pos' : nat) :
  DataGenerator.generate_orders entropy products customers y m count pos
    = (Ok os, pos') ->
  exists drawn ds : list date,
    ds = DataGenerator.sort_dates drawn /\
    Order.date <$> os = Order.DateObj <$> ds /\
    Forall (in_month y m) ds /\
    StronglySorted date_le ds.
Proof.
  intros Hrun.
  apply generate_orders_dates in Hrun as (drawn & Hall & Hdates).
  exists drawn, (DataGenerator.sort_dates drawn).
  split; [reflexivity |]. split; [exact Hdates |]. split.
  - by apply sort_dates_in_month.
  - unfold DataGenerator.sort_dates. apply StronglySorted_merge_sort; apply _.
Qed.

Lemma generate_orders_dates_in_month_sorted_witness :
  exists drawn ds : list date,
    ds = DataGenerator.sort_dates drawn /\
    Order.date <$> Sample.orders = Order.DateObj <$> ds /\
    Forall (in_month 2024 2) ds /\
    StronglySorted date_le ds.
Proof.
  apply (generate_orders_dates_in_month_sorted Sample.entropy [Sample.product]
           [Sample.customer] 2024 2 3 0%nat Sample.orders (snd Sample.run)).
  vm_compute. reflexivity.
Defined.

(** C4. In every batch [generate_orders] returns, an order has an invoice
    number, and likewise an invoice date, exactly when its status is
    Completed; the invoice date of a completed order is the day after the
    order date when that day is in the same month and the order date itself
    otherwise, so it is in the month and year of the order date. *)
Theorem invoice_iff_completed {F : Type} `{PyFloat F}
    (entropy : nat -> Z) (products : list (Product.t F))
    (customers : list Customer.t) (y m count : Z) (pos : nat)
    (os : list (Order.t F)) (pos' : nat) (o : Order.t F) :
  DataGenerator.generate_orders entropy products customers y m count pos
    = (Ok os, pos') ->
  o ∈ os ->
  exists d : date,
    Order.date o = Order.DateObj d /\
    (Order.invoice_number o <> "" <-> Order.status o = "Completed") /\
    (invoice_date_present (Order.invoice_date o) <->
     Order.status o = "Completed") /\
    (Order.status o = "Completed" ->
     exists next inv : date,
       add_one_day d = Ok next /\
       inv = (if month next =? month d then next else d) /\
       Order.invoice_date o = Order.InvObj inv /\
       month inv = month d /\ year inv = year d).
Proof.
  intros Hrun Ho.
  destruct (generate_orders_each entropy _ _ _ _ _ _ _ _ _ Hrun Ho)
    as (d & (_ & Hm & _) & Hdate & Hinv & _).
  exists d. split; [exact Hdate |].
  destruct Hinv as [(Hst & Hnum & next & Hnext & Hidate)
                   | (Hst & Hnum & Hidate)].
  - rewrite Hidate. simpl. repeat split; auto.
    intros _. exists next. eexists. split; [exact Hnext |].
    split; [reflexivity |]. rewrite <- Hm.
    destruct (month next =? month d) eqn:Hsame; simpl; [| done].
    apply Z.eqb_eq in Hsame.
    apply (add_one_day_same_month d next Hnext) in Hsame as [Hsame _].
    by rewrite Hsame.
  - rewrite Hidate, Hnum. simpl. repeat split; try done.
Qed.

Lemma invoice_iff_completed_witness :
  exists (o : Order.t Q) (d : date),
    Sample.orders !! 1%nat = Some o /\
    Order.date o = Order.DateObj d /\
    (Order.invoice_number o <> "" <-> Order.status o = "Completed") /\
    (invoice_date_present (Order.invoice_date o) <->
     Order.status o = "Completed") /\
    (Order.status o = "Completed" ->
     exists next inv : date,
       add_one_day d = Ok next /\
       inv = (if month next =? month d then next else d) /\
       Order.invoice_date o = Order.InvObj inv /\
       month inv = month d /\ year inv = year d).
Proof.
  assert (exists o : Order.t Q, Sample.orders !! 1%nat = Some o) as [o Ho]
    by (vm_compute; eauto).
  destruct (invoice_iff_completed Sample.entropy [Sample.product]
              [Sample.customer] 2024 2 3 0%nat Sample.orders (snd Sample.run) o)
    as (d & Hd); [vm_compute; reflexivity | by eapply list_elem_of_lookup_2 |].
  exists o, d. split; [exact Ho | exact Hd].
Defined.

(** C7. In every batch [generate_orders] returns, the additional product,
    the charges and the special charges of an order are either all three
    the empty string, or the additional product is a standard charge and
    the charges its listed price, and only then the special charges may be
    a number, [round(uniform(10, 50), 2)]; so special charges are set only
    if charges are. *)
Theorem charges_all_or_standard {F : Type} `{PyFloat F}
    (entropy : nat -> Z) (products : list (Product.t F))
    (customers : list Customer.t) (y m count : Z) (pos : nat)
    (os : list (Order.t F)) (pos' : nat) (o : Order.t F) :
  DataGenerator.generate_orders entropy products customers y m count pos
    = (Ok os, pos') ->
  o ∈ os ->
  charges_shape (Order.additional_product o) (Order.charges o)
    (Order.special_charges o) /\
  (Order.special_charges o <> Order.ChargeStr "" ->
   Order.charges o <> Order.ChargeStr "").
Proof.
  intros Hrun Ho.
  destruct (generate_orders_each entropy _ _ _ _ _ _ _ _ _ Hrun Ho)
    as (d & _ & _ & _ & Hshape).
  split; [exact Hshape |].
  destruct Hshape as [(_ & _ & ->) | (price & _ & -> & _)]; [done | discriminate].
Qed.

Lemma charges_all_or_standard_witness :
  exists o : Order.t Q,
    Sample.orders !! 1%nat = Some o /\
    charges_shape (Order.additional_product o) (Order.charges o)
      (Order.special_charges o) /\
    (Order.special_charges o <> Order.ChargeStr "" ->
     Order.charges o <> Order.ChargeStr "").
Proof.
  assert (exists o : Order.t Q, Sample.orders !! 1%nat = Some o) as [o Ho]
    by (vm_compute; eauto).
  exists o. split; [exact Ho |].
  apply (charges_all_or_standard Sample.entropy [Sample.product]
           [Sample.customer] 2024 2 3 0%nat Sample.orders (snd Sample.run) o).
  - vm_compute. reflexivity.
  - by eapply list_elem_of_lookup_2.
Defined.

(** ** Rational arithmetic *)

Section BandFacts.
Import QFloat.

Lemma pow10_pos (e : nat) : 0 < pow10 e.
Proof. unfold pow10. apply Z.pow_pos_nonneg; lia. Qed.

Lemma nearest_even_ge (s : Q) (k : Z) :
  (inject_Z k <= s)%Q -> k <= nearest_even s.
Proof.
  intros Hk. unfold nearest_even.
  assert (k <= Qfloor s) as Hfl.
  { rewrite <- (Qfloor_Z k). by apply Qfloor_resp_le. }
  destruct (Qcompare _ _); [destruct (Z.even _) | |]; lia.
Qed.

Lemma nearest_even_le (s : Q) (k : Z) :
  (s <= inject_Z k)%Q -> nearest_even s <= k.
Proof.
  intros Hk. unfold nearest_even.
  assert (Qfloor s <= k) as Hfl.
  { rewrite <- (Qfloor_Z k). by apply Qfloor_resp_le. }
  assert ((q_half <= s - inject_Z (Qfloor s))%Q -> Qfloor s + 1 <= k) as Hup.
  { intros Hhalf.
    assert (inject_Z (Qfloor s) < inject_Z k)%Q as Hlt.
    { apply Qlt_le_trans with (y := s); [| exact Hk].
      apply Qlt_minus_iff.
      apply Qlt_le_trans with (y := q_half); [reflexivity |].
      exact Hhalf. }
    rewrite <- Zlt_Qlt in Hlt. lia. }
  destruct (Qcompare _ _) eqn:Hcmp.
  - apply Qeq_alt in Hcmp. destruct (Z.even _); [lia |].
    apply Hup. rewrite Hcmp. apply Qle_refl.
  - lia.
  - apply Qgt_alt in Hcmp. apply Hup. by apply Qlt_le_weak.
Qed.

Lemma pow10_scale (k : Z) (n : nat) :
  ((k # Z.to_pos (pow10 n)) * inject_Z (pow10 n) == inject_Z k)%Q.
Proof.
  pose proof (pow10_pos n) as Hpos.
  unfold Qeq, inject_Z. simpl. rewrite Pos.mul_1_r, Z2Pos.id by lia. lia.
Qed.

Lemma q_round_le (x : Q) (n : nat) (k : Z) :
  (x <= q_dec k n)%Q -> (q_round x n <= q_dec k n)%Q.
Proof.
  unfold q_round, q_dec. rewrite !Qred_correct. intros Hx.
  assert (nearest_even (x * inject_Z (pow10 n)) <= k) as Hk.
  { apply nearest_even_le. rewrite <- (pow10_scale k n).
    apply Qmult_le_compat_r; [exact Hx |].
    pose proof (pow10_pos n). unfold Qle, inject_Z. simpl. lia. }
  unfold Qle. simpl. nia.
Qed.

Lemma q_round_ge (x : Q) (n : nat) (k : Z) :
  (q_dec k n <= x)%Q -> (q_dec k n <= q_round x n)%Q.
Proof.
  unfold q_round, q_dec. rewrite !Qred_correct. intros Hx.
  assert (k <= nearest_even (x * inject_Z (pow10 n))) as Hk.
  { apply nearest_even_ge. rewrite <- (pow10_scale k n).
    apply Qmult_le_compat_r; [exact Hx |].
    pose proof (pow10_pos n). unfold Qle, inject_Z. simpl. lia. }
  unfold Qle. simpl. nia.
Qed.

Lemma unit_of_raw_range (raw : Z) :
  (0 <= unit_of_raw (F := Q) raw)%Q /\ (unit_of_raw (F := Q) raw < 1)%Q.
Proof.
  unfold unit_of_raw. simpl. rewrite Qred_correct.
  pose proof (Z.mod_pos_bound raw TWO53 eq_refl) as Hr.
  set (r := raw mod TWO53) in *.
  unfold Qdiv, Qmult, Qinv, Qle, Qlt, inject_Z, TWO53 in *. simpl. lia.
Qed.

Lemma uniform_at_range (a b u : Q) :
  (a <= b)%Q -> (0 <= u)%Q -> (u < 1)%Q ->
  (a <= uniform_at a b u)%Q /\ (uniform_at a b u <= b)%Q.
Proof.
  intros Hab Hu0 Hu1. unfold uniform_at. simpl.
  rewrite !Qred_correct. split; nra.
Qed.

Lemma from_row_band (entropy : nat -> Z) (row : list string) (pos : nat)
    (p : Product.t Q) (pos' : nat) :
  Product.from_row entropy row pos = (Ok p, pos') ->
  Product.min_price p =
    f_round (uniform_at (f_dec 250 2) (f_dec 320 2) (unit_of_raw (entropy pos))) 2 /\
  Product.max_price p =
    f_round (uniform_at (f_dec 350 2) (f_dec 450 2)
               (unit_of_raw (entropy (S pos)))) 2 /\
  (q_dec 250 2 <= Product.min_price p)%Q /\
  (Product.min_price p <= q_dec 320 2)%Q /\
  (q_dec 350 2 <= Product.max_price p)%Q /\
  (Product.max_price p <= q_dec 450 2)%Q.
Proof.
  unfold Product.from_row.
  destruct (length row <? 2)%nat; [discriminate |]. intros Hrun.
  apply bind_Ok_inv in Hrun as (r0 & s0 & H0 & Hrun).
  apply lift_Ok_inv in H0 as [_ ->].
  apply bind_Ok_inv in Hrun as (r1 & s1 & H1 & Hrun).
  apply lift_Ok_inv in H1 as [_ ->].
  rewrite (bind_run (random_uniform_run entropy _ _ pos)) in Hrun.
  rewrite (bind_run (random_uniform_run entropy _ _ (S pos))) in Hrun.
  apply ret_Ok_inv in Hrun as [-> _]. simpl.
  destruct (unit_of_raw_range (entropy pos)) as [Hlo0 Hlo1].
  destruct (unit_of_raw_range (entropy (S pos))) as [Hhi0 Hhi1].
  destruct (uniform_at_range (q_dec 250 2) (q_dec 320 2) _ ltac:(done) Hlo0 Hlo1).
  destruct (uniform_at_range (q_dec 350 2) (q_dec 450 2) _ ltac:(done) Hhi0 Hhi1).
  repeat split; auto using q_round_le, q_round_ge.
Qed.

Lemma special_charge_in_range (raw : Z) :
  (f_of_Z 10 <=
   f_round (uniform_at (f_of_Z 10) (f_of_Z 50) (unit_of_raw (F := Q) raw)) 2)%Q /\
  (f_round (uniform_at (f_of_Z 10) (f_of_Z 50) (unit_of_raw (F := Q) raw)) 2 <=
   f_of_Z 50)%Q.
Proof.
  destruct (unit_of_raw_range raw) as [H0 H1].
  destruct (uniform_at_range (inject_Z 10) (inject_Z 50) _ ltac:(done) H0 H1)
    as [Hlo Hhi].
  split.
  - apply (q_round_ge _ 2 1000). exact Hlo.
  - apply (q_round_le _ 2 5000). exact Hhi.
Qed.
End BandFacts.

(** ** Product price band *)

(** C6 (amended). The two bounds of the price band are drawn one after the
    other when a product is built from a row, min_price as
    [round(uniform(2.50, 3.20), 2)] and max_price as
    [round(uniform(3.50, 4.50), 2)]; nothing compares them, but the
    two ranges do not meet, so min_price is between 2.50 and 3.20, max_price
    between 3.50 and 4.50, and min_price < max_price on every draw. *)
Theorem price_band_ordered (entropy : nat -> Z) (row : list string)
    (pos : nat) (p : Product.t Q) (pos' : nat) :
  Product.from_row entropy row pos = (Ok p, pos') ->
  Product.min_price p =
    f_round (uniform_at (f_dec 250 2) (f_dec 320 2) (unit_of_raw (entropy pos))) 2 /\
  Product.max_price p =
    f_round (uniform_at (f_dec 350 2) (f_dec 450 2)
               (unit_of_raw (entropy (S pos)))) 2 /\
  (f_dec 250 2 <= Product.min_price p <= f_dec 320 2)%Q /\
  (f_dec 350 2 <= Product.max_price p <= f_dec 450 2)%Q /\
  (Product.min_price p < Product.max_price p)%Q.
Proof.
  intros Hrun.
  apply from_row_band in Hrun as (Hmin & Hmax & Hlo1 & Hlo2 & Hhi1 & Hhi2).
  repeat split; auto.
  apply Qle_lt_trans with (y := QFloat.q_dec 320 2); [exact Hlo2 |].
  apply Qlt_le_trans with (y := QFloat.q_dec 350 2); [reflexivity | exact Hhi1].
Qed.

Lemma price_band_ordered_witness :
  exists (p : Product.t Q) (pos' : nat),
    Product.from_row Sample.entropy (Product.to_row Sample.product) 0%nat
      = (Ok p, pos') /\
    (f_dec 250 2 <= Product.min_price p <= f_dec 320 2)%Q /\
    (f_dec 350 2 <= Product.max_price p <= f_dec 450 2)%Q /\
    (Product.min_price p < Product.max_price p)%Q.
Proof.
  assert (exists (p : Product.t Q) (pos' : nat),
            Product.from_row Sample.entropy (Product.to_row Sample.product)
              0%nat = (Ok p, pos')) as (p & pos' & Hrun)
    by (vm_compute; eauto).
  exists p, pos'. split; [exact Hrun |].
  apply (price_band_ordered Sample.entropy (Product.to_row Sample.product)
           0%nat p pos' Hrun).
Defined.

(** The claim of C6 as first worded has a draw with min_price above
    max_price: there is none. *)
Lemma price_band_inversion_impossible :
  ~ exists (entropy : nat -> Z) (row : list string) (pos : nat)
      (p : Product.t Q) (pos' : nat),
      Product.from_row entropy row pos = (Ok p, pos') /\
      (Product.max_price p < Product.min_price p)%Q.
Proof.
  intros (entropy & row & pos & p & pos' & Hrun & Hinv).
  apply from_row_band in Hrun as (_ & _ & _ & Hlo2 & Hhi1 & _).
  apply (Qlt_irrefl (Product.min_price p)).
  apply Qle_lt_trans with (y := QFloat.q_dec 320 2); [exact Hlo2 |].
  apply Qlt_le_trans with (y := QFloat.q_dec 350 2); [reflexivity |].
  apply Qle_trans with (y := Product.max_price p); [exact Hhi1 |].
  by apply Qlt_le_weak.
Qed.

(** ** Writing files *)

Section WriteFacts.
Import CSVHandler.

Lemma fault_free_step (w : world) (effect : _ -> _) (n : nat) :
  faults w (ticks w) = None ->
  fault_free (mkWorld (effect (files w)) (S (ticks w)) (faults w)) n ->
  fault_free w (S n).
Proof.
  intros Hnow Hrest k Hk. destruct k as [| k].
  - by rewrite Nat.add_0_r.
  - specialize (Hrest k). simpl in Hrest.
    replace (ticks w + S k)%nat with (S (ticks w + k)) by lia.
    apply Hrest. lia.
Qed.

Lemma fault_now (w : world) (n : nat) (e : exn) :
  faults w (ticks w) = Some e -> ~ fault_free w (S n).
Proof.
  intros Hnow Hfree. specialize (Hfree O). rewrite Nat.add_0_r in Hfree.
  rewrite Hfree in Hnow; [discriminate | lia].
Qed.

Lemma fault_later (w : world) (effect : _ -> _) (n : nat) :
  ~ fault_free (mkWorld (effect (files w)) (S (ticks w)) (faults w)) n ->
  ~ fault_free w (S n).
Proof.
  intros Hrest Hfree. apply Hrest. intros k Hk. simpl.
  replace (S (ticks w + k)) with (ticks w + S k)%nat by lia.
  apply Hfree. lia.
Qed.

Lemma first_fault_now (w : world) (e : exn) :
  faults w (ticks w) = Some e -> first_fault w 0.
Proof.
  intros Hnow. split; [intros k Hk; lia |].
  rewrite Nat.add_0_r, Hnow. discriminate.
Qed.

Lemma first_fault_later (w : world) (effect : _ -> _) (k : nat) :
  faults w (ticks w) = None ->
  first_fault (mkWorld (effect (files w)) (S (ticks w)) (faults w)) k ->
  first_fault w (S k).
Proof.
  intros Hnow [Hfree Hbad]. split.
  - by apply fault_free_step with (effect := effect).
  - simpl in Hbad. by replace (ticks w + S k)%nat with (S (ticks w + k)) by lia.
Qed.


Lemma first_fault_not_free (w : world) (k n : nat) :
  first_fault w k -> (k < n)%nat -> ~ fault_free w n.
Proof. intros [_ Hbad] Hkn Hfree. destruct Hbad. by apply Hfree. Qed.

(** Among the next [n] operations none raises, or one is the first to. *)
Lemma fault_free_or_first (w : world) (n : nat) :
  fault_free w n \/ exists k, (k < n)%nat /\ first_fault w k.
Proof.
  induction n as [| n [Hfree | (k & Hk & Hfirst)]].
  - left. intros k Hk. lia.
  - destruct (faults w (ticks w + n)) as [e |] eqn:Hn.
    + right. exists n. split; [lia |]. split; [exact Hfree |].
      rewrite Hn. discriminate.
    + left. intros k Hk. destruct (decide (k = n)) as [-> | Hne]; [exact Hn |].
      apply Hfree. lia.
  - right. exists k. split; [lia | exact Hfirst].
Qed.

Lemma mapM_cons_run {S A B} (f : A -> M S B) x xs (s : S) :
  mapM f (x :: xs) s =
  match f x s with
  | (Ok y, s1) =>
      match mapM f xs s1 with
      | (Ok ys, s2) => (Ok (y :: ys), s2)
      | (Raise e, s2) => (Raise e, s2)
      end
  | (Raise e, s1) => (Raise e, s1)
  end.
Proof.
  simpl. unfold bind. destruct (f x s) as [[y | e] s1]; [| done].
  by destruct (mapM f xs s1) as [[ys | e] s2].
Qed.

Lemma syscall_run (effect : _ -> _) (w : world) :
  syscall effect w =
  match faults w (ticks w) with
  | Some e => (Raise e, mkWorld (files w) (S (ticks w)) (faults w))
  | None => (Ok tt, mkWorld (effect (files w)) (S (ticks w)) (faults w))
  end.
Proof. reflexivity. Qed.

(** Appending the rows [data] to an open file holding [rs]: either every
    write succeeds, or the first failing one leaves the rows before it. *)
Lemma append_rows_cases (path : string) (data : list (list string)) :
  forall (w : world) fs0 rs,
    files w = <[path := rs]> fs0 ->
    (fault_free w (length data) /\
     exists us,
       mapM (writerow path) data w =
       (Ok us, mkWorld (<[path := (rs ++ data)%list]> fs0)
                 (ticks w + length data) (faults w))) \/
    (exists k e,
       (k < length data)%nat /\ first_fault w k /\
       mapM (writerow path) data w =
       (Raise e, mkWorld (<[path := (rs ++ take k data)%list]> fs0)
                   (ticks w + S k) (faults w))).
Proof.
  induction data as [| r data IH]; intros w fs0 rs Hfiles.
  - left. split; [intros k Hk; simpl in Hk; lia |].
    exists []. destruct w as [fs t ft]. simpl in *.
    by rewrite app_nil_r, Nat.add_0_r, Hfiles.
  - rewrite mapM_cons_run. unfold writerow at 1 3. rewrite syscall_run.
    destruct (faults w (ticks w)) as [e |] eqn:Hnow.
    + right. exists O, e. split; [simpl; lia |].
      split; [by eapply first_fault_now |].
      simpl. by rewrite app_nil_r, Nat.add_1_r, Hfiles.
    + rewrite Hfiles, lookup_insert_eq, insert_insert_eq.
      set (w1 := mkWorld (<[path := (rs ++ [r])%list]> fs0) (S (ticks w)) (faults w)).
      destruct (IH w1 fs0 (rs ++ [r])%list eq_refl)
        as [(Hfree & us & ->) | (k & e & Hk & Hfirst & ->)].
      * left. split.
        { apply fault_free_step with
            (effect := fun _ => <[path := (rs ++ [r])%list]> fs0); done. }
        eexists. simpl. rewrite <- app_assoc. simpl.
        by replace (S (ticks w + length data))%nat
             with (ticks w + S (length data))%nat by lia.
      * right. exists (S k), e. split; [simpl; lia |]. split.
        { apply first_fault_later with
            (effect := fun _ => <[path := (rs ++ [r])%list]> fs0); done. }
        simpl. rewrite <- app_assoc. simpl.
        by replace (S (ticks w + S k))%nat with (ticks w + S (S k))%nat by lia.
Qed.

(** The close that ends a block left by an exception: the block still
    ends by an exception, and the files are those the block left. *)
Lemma close_after_raise {A} (e : exn) (w1 : world) :
  exists e' w2,
    (match close w1 with
     | (Ok _, w2) => (Raise e, w2)
     | (Raise e', w2) => (Raise e', w2)
     end : result A * world) = (Raise e', w2) /\
    files w2 = files w1.
Proof.
  unfold close. rewrite syscall_run.
  destruct (faults w1 (ticks w1)); eexists _, _; (split; [reflexivity |]);
    reflexivity.
Qed.

(** The block [with open(path, 'w')] of [write_csv], by the operation that
    fails first: operation 0 is [open], 1 writes the header, 2 and the
    following write the rows, and the last closes the file. *)
Lemma with_open_w_run (path : string) (headers : list string)
    (data : list (list string)) (w : world) :
  exists (r : result unit) (w' : world),
    with_open_w path
      (let* _ := writerow path headers in writerows path data) w = (r, w') /\
    ((fault_free w (3 + length data) /\ r = Ok tt /\
      w' = mkWorld (<[path := headers :: data]> (files w))
             (ticks w + (3 + length data)) (faults w)) \/
     (exists k e,
        (k < 3 + length data)%nat /\ first_fault w k /\ r = Raise e /\
        files w' =
          match k with
          | O => files w
          | S j => <[path := take j (headers :: data)]> (files w)
          end)).
Proof.
  unfold with_open_w.
  pose proof (syscall_run (fun fs => <[path := []]> fs) w) as Hop.
  fold (open_w path) in Hop.
  destruct (faults w (ticks w)) as [e |] eqn:H1.
  { rewrite (bind_raise Hop). eexists _, _. split; [reflexivity |].
    right. exists O, e. split; [lia |].
    split; [by eapply first_fault_now |]. split; reflexivity. }
  rewrite (bind_run Hop). clear Hop.
  set (w2 := mkWorld (<[path := []]> (files w)) (S (ticks w)) (faults w)).
  pose proof (syscall_run
    (fun fs => match fs !! path with
               | Some rs => <[path := (rs ++ [headers])%list]> fs
               | None => <[path := [headers]]> fs
               end) w2) as Hhd.
  fold (writerow path headers) in Hhd.
  destruct (faults w2 (ticks w2)) as [e |] eqn:H2.
  { rewrite (bind_raise Hhd).
    destruct (close_after_raise (A := unit) e
                (mkWorld (files w2) (S (ticks w2)) (faults w2)))
      as (e' & w' & Hclose & Hfiles).
    exists (Raise e'), w'. split; [exact Hclose |].
    right. exists 1%nat, e'. split; [lia |]. split.
    - apply first_fault_later with (effect := fun fs => <[path := []]> fs);
        [done |].
      by eapply first_fault_now.
    - split; [reflexivity |]. rewrite Hfiles. reflexivity. }
  rewrite (bind_run Hhd). clear Hhd.
  assert (match files w2 !! path with
          | Some rs => <[path := (rs ++ [headers])%list]> (files w2)
          | None => <[path := [headers]]> (files w2)
          end = <[path := [headers]]> (files w)) as ->
    by (simpl; by rewrite lookup_insert_eq, insert_insert_eq).
  set (w3 := mkWorld (<[path := [headers]]> (files w)) (S (ticks w2)) (faults w2)).
  unfold writerows.
  destruct (append_rows_cases path data w3 (files w) [headers] eq_refl)
    as [(Hfree & us & Hrun) | (k & e & Hk & Hfirst & Hrun)].
  - rewrite (bind_run Hrun). unfold ret.
    set (w4 := mkWorld (<[path := ([headers] ++ data)%list]> (files w))
                 (ticks w3 + length data) (faults w3)).
    unfold close. rewrite syscall_run.
    destruct (faults w4 (ticks w4)) as [e |] eqn:H4.
    + eexists _, _. split; [reflexivity |].
      right. exists (2 + length data)%nat, e. split; [lia |]. split.
      * split.
        -- apply fault_free_step with (effect := fun fs => <[path := []]> fs);
             [done |].
           apply fault_free_step with (w := w2)
             (effect := fun _ => <[path := [headers]]> (files w)); done.
        -- simpl in H4.
           replace (ticks w + (2 + length data))%nat
             with (S (S (ticks w + length data))) by lia.
           rewrite H4. discriminate.
      * split; [reflexivity |]. simpl. rewrite firstn_all. reflexivity.
    + eexists _, _. split; [reflexivity |].
      left. split; [| split; [reflexivity |]].
      * apply fault_free_step with (effect := fun fs => <[path := []]> fs);
          [done |].
        apply fault_free_step with (w := w2)
          (effect := fun _ => <[path := [headers]]> (files w)); [done |].
        intros j Hj. destruct (decide (j = length data)) as [-> | Hne].
        -- exact H4.
        -- apply Hfree. lia.
      * subst w4. simpl. f_equal. lia.
  - rewrite (bind_raise Hrun).
    match goal with
    | |- context [close ?w0] =>
        destruct (close_after_raise (A := unit) e w0)
          as (e' & w' & Hclose & Hfiles)
    end.
    exists (Raise e'), w'. split; [exact Hclose |].
    right. exists (2 + k)%nat, e'. split; [lia |]. split.
    + apply first_fault_later with (effect := fun fs => <[path := []]> fs);
        [done |].
      apply first_fault_later with (w := w2)
        (effect := fun _ => <[path := [headers]]> (files w)); done.
    + split; [reflexivity |]. rewrite Hfiles. reflexivity.
Qed.

(** The files a write leaves when its operation [k] is the first to fail:
    operation 0 is [makedirs], 1 is [open], 2 writes the header, 3 and the
    following write the rows, and the last closes the file. *)
Lemma write_csv_cases (path : string) (headers : list string)
    (data : list (list string)) (w : world) :
  (fault_free w (4 + length data) /\
   write_csv path headers data w =
   (Ok true, mkWorld (<[path := headers :: data]> (files w))
               (ticks w + (4 + length data)) (faults w))) \/
  (exists k w',
     (k < 4 + length data)%nat /\ first_fault w k /\
     write_csv path headers data w = (Ok false, w') /\
     files w' =
       match k with
       | O | S O => files w
       | S (S j) => <[path := take j (headers :: data)]> (files w)
       end).
Proof.
  unfold write_csv, try_except.
  pose proof (syscall_run (fun fs => fs) w) as Hmk. fold makedirs in Hmk.
  destruct (faults w (ticks w)) as [e |] eqn:H0.
  { right. exists O. eexists. split; [lia |].
    split; [by eapply first_fault_now |].
    rewrite (bind_raise Hmk). split; reflexivity. }
  rewrite (bind_run Hmk). clear Hmk.
  set (w1 := mkWorld (files w) (S (ticks w)) (faults w)).
  destruct (with_open_w_run path headers data w1)
    as (r & w' & Hrun & [(Hfree & -> & ->) | (k & e & Hk & Hfirst & -> & Hfiles)]).
  - left. split.
    + by apply fault_free_step with (effect := fun fs => fs).
    + rewrite (bind_run Hrun). unfold ret. simpl. do 2 f_equal. lia.
  - right. exists (S k), w'. split; [lia |]. split.
    + by apply first_fault_later with (effect := fun fs => fs).
    + rewrite (bind_raise Hrun). split; [reflexivity |].
      rewrite Hfiles. by destruct k.
Qed.

(** What a write that meets no failure does. *)
Lemma write_csv_ok (path : string) (headers : list string)
    (data : list (list string)) (w : world) :
  fault_free w (4 + length data) ->
  write_csv path headers data w =
  (Ok true, mkWorld (<[path := headers :: data]> (files w))
              (ticks w + (4 + length data)) (faults w)).
Proof.
  intros Hfree.
  destruct (write_csv_cases path headers data w)
    as [(_ & Hrun) | (k & w' & Hk & Hfirst & _)]; [exact Hrun |].
  by destruct (first_fault_not_free w k _ Hfirst Hk).
Qed.

(** What a write that meets a failure does. *)
Lemma write_csv_failed (path : string) (headers : list string)
    (data : list (list string)) (w : world) :
  ~ fault_free w (4 + length data) ->
  exists w', write_csv path headers data w = (Ok false, w').
Proof.
  intros Hbad.
  destruct (write_csv_cases path headers data w)
    as [(Hfree & _) | (k & w' & _ & _ & Hrun & _)]; [done | eauto].
Qed.
End WriteFacts.

(** C10. [write_csv] returns for every path, header and data, whatever the
    operating system does: it never raises; it returns [True] exactly when
    none of its operations failed ([makedirs], [open], the write of the
    header, the write of each row and the close of the file), the file then
    holding the header followed by all the rows, and [False] as soon as one
    of them fails, the close included. *)
Theorem write_csv_total (path : string) (headers : list string)
    (data : list (list string)) (w : CSVHandler.world) :
  exists (b : bool) (w' : CSVHandler.world),
    CSVHandler.write_csv path headers data w = (Ok b, w') /\
    (b = true <-> CSVHandler.fault_free w (4 + length data)) /\
    (b = true -> CSVHandler.files w' !! path = Some (headers :: data)).
Proof.
  destruct (write_csv_cases path headers data w)
    as [(Hfree & Hrun) | (k & w' & Hk & Hfirst & Hrun & _)].
  - eexists true, _. split; [exact Hrun |]. split; [done |].
    intros _. simpl. apply lookup_insert_eq.
  - exists false, w'. split; [exact Hrun |]. split; [| done].
    split; [done |]. intros Hfree.
    by destruct (first_fault_not_free w k _ Hfirst Hk).
Qed.




(** ** Rows *)

Lemma nonempty_str_Z (z : Z) : nonempty (str_Z z) = true.
Proof.
  destruct z as [| p | p]; [reflexivity | |].
  - unfold str_Z. simpl.
    pose proof (DecimalPos.Unsigned.to_uint_nonnil p).
    by destruct (Pos.to_uint p).
  - reflexivity.
Qed.

Lemma all_digits_uint (d : Decimal.uint) :
  all_chars is_digit (NilEmpty.string_of_uint d) = true.
Proof. induction d; simpl; auto. Qed.

Lemma isdigit_str_Z (z : Z) : 0 <= z -> isdigit (str_Z z) = true.
Proof.
  intros Hz. unfold isdigit. rewrite nonempty_str_Z. simpl.
  destruct z as [| p | p]; [reflexivity | | lia].
  unfold str_Z. simpl.
  pose proof (DecimalPos.Unsigned.to_uint_nonnil p) as Hnil.
  assert (NilZero.string_of_uint (Pos.to_uint p) =
          NilEmpty.string_of_uint (Pos.to_uint p)) as ->
    by (destruct (Pos.to_uint p); [congruence | reflexivity ..]).
  apply all_digits_uint.
Qed.

Lemma blank_nonempty (s : string) : blank s = false -> nonempty s = true.
Proof. by destruct s. Qed.

Section RowFacts.
Context {F : Type} `{PyFloat F}.

Lemma float_or_zero_repr (x : F) :
  float_text_ok x -> Order.float_or_zero (f_repr x) = Ok x.
Proof.
  intros [Hne Hparse]. unfold Order.float_or_zero, py_float.
  by rewrite Hne, Hparse.
Qed.

Lemma int_or_zero_str (z : Z) :
  int_text_ok z -> Order.int_or_zero (F := F) (str_Z z) = Ok z.
Proof.
  intros Hparse. unfold Order.int_or_zero, py_int.
  by rewrite nonempty_str_Z, Hparse.
Qed.

Lemma charge_of_text_cell (c : Order.charge F) :
  charge_text_ok c ->
  Order.charge_of_text (Order.csv_text (Order.charge_cell c)) = Ok c.
Proof.
  destruct c as [x | s]; simpl; unfold Order.charge_of_text.
  - intros [Hblank Hparse]. unfold py_float. by rewrite Hblank, Hparse.
  - by intros ->.
Qed.

Lemma sequence_id_str (z : Z) :
  0 <= z -> int_text_ok z ->
  (if isdigit (str_Z z) then py_int (F := F) (str_Z z) else Ok 0) = Ok z.
Proof.
  intros Hz Hparse. rewrite isdigit_str_Z by done.
  unfold py_int. by rewrite Hparse.
Qed.

Lemma order_round_trip (o : Order.t F) :
  text_representable o ->
  Order.from_row (Order.csv_text <$> Order.to_row o) = Ok o.
Proof.
  destruct o. unfold text_representable. simpl.
  intros ((ds & ->) & (ivs & ->) & Hseq & Hseqtxt & Hup & Hq & Hch & Hsp
          & Htt & Htot & Hex & Htc & Hmg).
  unfold Order.from_row, Order.guarded_numerics, Order.parse_numerics,
    Order.float_cell, Order.int_cell, Order.charge_field.
  simpl.
  rewrite !float_or_zero_repr, int_or_zero_str, !charge_of_text_cell by done.
  simpl. rewrite sequence_id_str by done. reflexivity.
Qed.

Lemma getitem_exn {A} (xs : list A) (i : nat) e :
  getitem xs i = Raise e -> e = IndexError.
Proof. unfold getitem. destruct (xs !! i); [discriminate | by intros [= <-]]. Qed.

Lemma float_cell_exn (row : list string) (i : nat) e :
  Order.float_cell row i = Raise e -> e = ValueError \/ e = IndexError.
Proof.
  unfold Order.float_cell. destruct (getitem row i) as [c | e'] eqn:Hc; simpl.
  - unfold Order.float_or_zero, py_float.
    destruct (nonempty c); [| discriminate].
    destruct (f_parse c); [discriminate | intros [= <-]; by left].
  - intros [= <-]. right. by eapply getitem_exn.
Qed.

Lemma int_cell_exn (row : list string) (i : nat) e :
  Order.int_cell (F := F) row i = Raise e -> e = ValueError \/ e = IndexError.
Proof.
  unfold Order.int_cell. destruct (getitem row i) as [c | e'] eqn:Hc; simpl.
  - unfold Order.int_or_zero, py_int.
    destruct (nonempty c); [| discriminate].
    destruct (int_parse c); [discriminate | intros [= <-]; by left].
  - intros [= <-]. right. by eapply getitem_exn.
Qed.

Lemma charge_field_exn (row : list string) (i : nat) e :
  Order.charge_field row i = Raise e -> e = ValueError \/ e = IndexError.
Proof.
  unfold Order.charge_field. destruct (getitem row i) as [c | e'] eqn:Hc; simpl.
  - unfold Order.charge_of_text, py_float.
    destruct (blank c); [discriminate |].
    destruct (f_parse c); [discriminate | intros [= <-]; by left].
  - intros [= <-]. right. by eapply getitem_exn.
Qed.

(** The [try] block: all nine cells are read, or the first that fails
    raises [ValueError] or [IndexError]. *)
Lemma parse_numerics_cases (row : list string) :
  (exists up q ch sp tt tot ex tc mg,
     Order.float_cell row 12 = Ok up /\ Order.int_cell row 13 = Ok q /\
     Order.charge_field row 15 = Ok ch /\ Order.charge_field row 16 = Ok sp /\
     Order.float_cell row 17 = Ok tt /\ Order.float_cell row 18 = Ok tot /\
     Order.float_cell row 19 = Ok ex /\ Order.float_cell row 20 = Ok tc /\
     Order.float_cell row 21 = Ok mg /\
     Order.parse_numerics row =
     Ok (Order.mkNumerics up q ch sp tt tot ex tc mg)) \/
  (exists e, (e = ValueError \/ e = IndexError) /\
             Order.parse_numerics row = Raise e).
Proof.
  unfold Order.parse_numerics.
  destruct (Order.float_cell row 12) as [up | e] eqn:H12;
    [| right; exists e; split; [by eapply float_cell_exn | done]].
  destruct (Order.int_cell row 13) as [q | e] eqn:H13;
    [| right; exists e; split; [by eapply int_cell_exn | done]].
  destruct (Order.charge_field row 15) as [ch | e] eqn:H15;
    [| right; exists e; split; [by eapply charge_field_exn | done]].
  destruct (Order.charge_field row 16) as [sp | e] eqn:H16;
    [| right; exists e; split; [by eapply charge_field_exn | done]].
  destruct (Order.float_cell row 17) as [tt | e] eqn:H17;
    [| right; exists e; split; [by eapply float_cell_exn | done]].
  destruct (Order.float_cell row 18) as [tot | e] eqn:H18;
    [| right; exists e; split; [by eapply float_cell_exn | done]].
  destruct (Order.float_cell row 19) as [ex | e] eqn:H19;
    [| right; exists e; split; [by eapply float_cell_exn | done]].
  destruct (Order.float_cell row 20) as [tc | e] eqn:H20;
    [| right; exists e; split; [by eapply float_cell_exn | done]].
  destruct (Order.float_cell row 21) as [mg | e] eqn:H21;
    [| right; exists e; split; [by eapply float_cell_exn | done]].
  left. exists up, q, ch, sp, tt, tot, ex, tc, mg. simpl. repeat split.
Qed.

(** A row of 14 cells or more goes through [from_row] up to the sequence
    id, with the numbers of the [try] block or the defaults. *)
Lemma from_row_cases (row : list string) :
  (14 <= length row)%nat ->
  exists r2 n,
    row !! 2%nat = Some r2 /\
    Order.guarded_numerics row = Ok n /\
    ((isdigit r2 = true /\ int_parse r2 = None /\
      Order.from_row row = Raise ValueError) \/
     (exists o, Order.from_row row = Ok o /\ numerics_of o = n)).
Proof.
  intros Hlen.
  assert (exists n, Order.guarded_numerics row = Ok n) as [n Hn].
  { unfold Order.guarded_numerics.
    destruct (parse_numerics_cases row)
      as [(up & q & ch & sp & tt & tot & ex & tc & mg & _ & _ & _ & _ & _
           & _ & _ & _ & _ & ->) | (e & [-> | ->] & ->)]; eauto. }
  unfold Order.from_row.
  assert ((length row <? 14)%nat = false) as -> by (apply Nat.ltb_ge; lia).
  rewrite Hn. simpl.
  destruct (lookup_lt_is_Some_2 row 0) as [r0 H0]; [lia |].
  destruct (lookup_lt_is_Some_2 row 1) as [r1 H1]; [lia |].
  destruct (lookup_lt_is_Some_2 row 2) as [r2 H2]; [lia |].
  destruct (lookup_lt_is_Some_2 row 3) as [r3 H3]; [lia |].
  destruct (lookup_lt_is_Some_2 row 4) as [r4 H4]; [lia |].
  destruct (lookup_lt_is_Some_2 row 5) as [r5 H5]; [lia |].
  destruct (lookup_lt_is_Some_2 row 6) as [r6 H6]; [lia |].
  destruct (lookup_lt_is_Some_2 row 7) as [r7 H7]; [lia |].
  destruct (lookup_lt_is_Some_2 row 8) as [r8 H8]; [lia |].
  destruct (lookup_lt_is_Some_2 row 9) as [r9 H9]; [lia |].
  destruct (lookup_lt_is_Some_2 row 10) as [r10 H10]; [lia |].
  destruct (lookup_lt_is_Some_2 row 11) as [r11 H11]; [lia |].
  exists r2, n. split; [exact H2 |]. split; [reflexivity |].
  unfold getitem. rewrite H0, H1, H2. simpl.
  unfold py_int.
  destruct (isdigit r2) eqn:Hdig; [destruct (int_parse r2) eqn:Hint |]; simpl.
  - rewrite H3, H4, H5, H6, H7, H8, H9, H10, H11. simpl.
    right. eexists. split; [reflexivity |]. by destruct n.
  - by left.
  - rewrite H3, H4, H5, H6, H7, H8, H9, H10, H11. simpl.
    right. eexists. split; [reflexivity |]. by destruct n.
Qed.

Lemma guarded_numerics_parsed (row : list string) up q ch sp tt tot ex tc mg :
  Order.float_cell row 12 = Ok up -> Order.int_cell row 13 = Ok q ->
  Order.charge_field row 15 = Ok ch -> Order.charge_field row 16 = Ok sp ->
  Order.float_cell row 17 = Ok tt -> Order.float_cell row 18 = Ok tot ->
  Order.float_cell row 19 = Ok ex -> Order.float_cell row 20 = Ok tc ->
  Order.float_cell row 21 = Ok mg ->
  Order.guarded_numerics row = Ok (Order.mkNumerics up q ch sp tt tot ex tc mg).
Proof.
  intros H12 H13 H15 H16 H17 H18 H19 H20 H21.
  unfold Order.guarded_numerics, Order.parse_numerics.
  by rewrite H12, H13, H15, H16, H17, H18, H19, H20, H21.
Qed.

Lemma guarded_numerics_default (row : list string) :
  (exists e,
     Order.float_cell row 12 = Raise e \/ Order.int_cell row 13 = Raise e \/
     Order.charge_field row 15 = Raise e \/ Order.charge_field row 16 = Raise e \/
     Order.float_cell row 17 = Raise e \/ Order.float_cell row 18 = Raise e \/
     Order.float_cell row 19 = Raise e \/ Order.float_cell row 20 = Raise e \/
     Order.float_cell row 21 = Raise e) ->
  Order.guarded_numerics row = Ok Order.default_numerics.
Proof.
  intros (e & Hfail). unfold Order.guarded_numerics.
  destruct (parse_numerics_cases row)
    as [(up & q & ch & sp & tt & tot & ex & tc & mg & H12 & H13 & H15 & H16
         & H17 & H18 & H19 & H20 & H21 & _) | (e' & [-> | ->] & ->)];
    [| done | done].
  exfalso. repeat (destruct Hfail as [Hfail | Hfail]; [congruence |]). congruence.
Qed.
End RowFacts.

(** C8 (amended). For every order row of 14 cells or more, [from_row] does
    not raise on a failure to parse one of the nine cells unit price,
    quantity, charges, special charges, total taxes, total, exempt taxes,
    total cost, margin (the one exception it can raise is from a sequence
    id made of digits that [int] rejects): when the nine cells are all
    there and all parse, each field has its parsed value; when one of them
    is missing or fails to parse, all nine fields take their defaults
    together, those that parsed included. *)
Theorem from_row_numerics_all_or_default {F : Type} `{PyFloat F}
    (row : list string) :
  (14 <= length row)%nat ->
  exists r2 : string,
    row !! 2%nat = Some r2 /\
    ((isdigit r2 = true /\ int_parse r2 = None /\
      Order.from_row row = Raise ValueError) \/
     (exists o : Order.t F,
        Order.from_row row = Ok o /\
        (forall up q ch sp tt tot ex tc mg,
           Order.float_cell row 12 = Ok up -> Order.int_cell row 13 = Ok q ->
           Order.charge_field row 15 = Ok ch ->
           Order.charge_field row 16 = Ok sp ->
           Order.float_cell row 17 = Ok tt -> Order.float_cell row 18 = Ok tot ->
           Order.float_cell row 19 = Ok ex -> Order.float_cell row 20 = Ok tc ->
           Order.float_cell row 21 = Ok mg ->
           numerics_of o = Order.mkNumerics up q ch sp tt tot ex tc mg) /\
        ((exists e,
            Order.float_cell row 12 = Raise e \/ Order.int_cell row 13 = Raise e \/
            Order.charge_field row 15 = Raise e \/
            Order.charge_field row 16 = Raise e \/
            Order.float_cell row 17 = Raise e \/ Order.float_cell row 18 = Raise e \/
            Order.float_cell row 19 = Raise e \/ Order.float_cell row 20 = Raise e \/
            Order.float_cell row 21 = Raise e) ->
         numerics_of o = Order.default_numerics))).
Proof.
  intros Hlen.
  destruct (from_row_cases row Hlen) as (r2 & n & H2 & Hn & Hcases).
  exists r2. split; [exact H2 |].
  destruct Hcases as [Hseq | (o & Ho & Hnum)]; [by left | right].
  exists o. split; [exact Ho |]. rewrite Hnum. split.
  - intros up q ch sp tt tot ex tc mg H12 H13 H15 H16 H17 H18 H19 H20 H21.
    pose proof (guarded_numerics_parsed row _ _ _ _ _ _ _ _ _
                  H12 H13 H15 H16 H17 H18 H19 H20 H21) as Hparsed.
    congruence.
  - intros Hfail. pose proof (guarded_numerics_default row Hfail). congruence.
Qed.

Lemma from_row_numerics_all_or_default_witness :
  exists o : Order.t Q,
    Order.from_row Sample.bad_quantity_row = Ok o /\
    numerics_of o = Order.default_numerics.
Proof.
  destruct (from_row_numerics_all_or_default (F := Q) Sample.bad_quantity_row)
    as (r2 & H2 & [(_ & Hint & _) | (o & Ho & _ & Hdefault)]).
  - vm_compute. lia.
  - exfalso. vm_compute in H2. injection H2 as <-. vm_compute in Hint.
    discriminate.
  - exists o. split; [exact Ho |]. apply Hdefault.
    exists ValueError. right. left. vm_compute. reflexivity.
Defined.

(** The claim of C8 as first worded keeps the value of every numeric cell
    that parses: in a row whose unit price reads 3.5 and whose quantity is
    not a number, the unit price of the order is 0.0. *)
Lemma parsed_unit_price_is_reset :
  (14 <= length Sample.bad_quantity_row)%nat /\
  Order.float_cell Sample.bad_quantity_row 12 = Ok (QFloat.q_dec 35 1) /\
  exists o : Order.t Q,
    Order.from_row Sample.bad_quantity_row = Ok o /\
    Order.unit_price o = f_dec 0 1 /\
    Order.unit_price o <> QFloat.q_dec 35 1.
Proof.
  split; [vm_compute; lia |]. split; [vm_compute; reflexivity |].
  eexists. split; [vm_compute; reflexivity |].
  split; [vm_compute; reflexivity |]. vm_compute. discriminate.
Qed.

(** [strip] and [isdigit] are those of Python beyond the ASCII characters: a
    charges cell holding a no-break space is blank, so that it is kept as
    text and the numbers of the row keep their parsed values; a sequence id
    holding a superscript two passes [isdigit] and is handed to [int], whose
    [ValueError] leaves [from_row], being raised outside the [try]. *)
Example nbsp_charges_cell_is_kept :
  blank Sample.nbsp = true /\
  exists o : Order.t Q,
    Order.from_row Sample.nbsp_charges_row = Ok o /\
    Order.charges o = Order.ChargeStr Sample.nbsp /\
    Order.unit_price o = QFloat.q_dec 35 1 /\
    Order.quantity o = 200.
Proof.
  split; [reflexivity |]. eexists. split; [vm_compute; reflexivity |].
  split; [reflexivity |]. split; reflexivity.
Qed.

Example superscript_sequence_id_raises :
  isdigit Sample.superscript_two = true /\
  Order.from_row (F := Q) Sample.superscript_sequence_row = Raise ValueError.
Proof. split; vm_compute; reflexivity. Qed.

(** C5 (amended). [from_row(to_row(x))] gives back a customer with its nine
    text fields and without its sequences, which the row does not carry; it
    gives back an order, the row being written as text, when the fields of
    the order are representable as text: dates held as text, a sequence id
    that is not negative, numbers that are read back from their text; it
    gives back a product with its fourteen text fields and a price band
    drawn anew. *)
Theorem rows_round_trip {F : Type} `{PyFloat F} (entropy : nat -> Z)
    (c : Customer.t) (o : Order.t F) (p : Product.t F) (pos : nat) :
  text_representable o ->
  Customer.from_row (Customer.to_row c) = Ok (clear_sequences c) /\
  Order.from_row (Order.csv_text <$> Order.to_row o) = Ok o /\
  Product.from_row entropy (Product.to_row p) pos =
    (Ok (Product.set_prices p
           (f_round (uniform_at (f_dec 250 2) (f_dec 320 2)
                       (unit_of_raw (entropy pos))) 2)
           (f_round (uniform_at (f_dec 350 2) (f_dec 450 2)
                       (unit_of_raw (entropy (S pos)))) 2)),
     S (S pos)).
Proof.
  intros Htext. split; [reflexivity |]. split.
  - by apply order_round_trip.
  - destruct p. reflexivity.
Qed.

Lemma rows_round_trip_witness :
  Customer.from_row (Customer.to_row Sample.customer)
    = Ok (clear_sequences Sample.customer) /\
  Order.from_row (Order.csv_text <$> Order.to_row Sample.text_order)
    = Ok Sample.text_order /\
  Product.from_row Sample.entropy (Product.to_row Sample.product) 0%nat =
    (Ok (Product.set_prices Sample.product
           (f_round (uniform_at (f_dec 250 2) (f_dec 320 2)
                       (unit_of_raw (Sample.entropy 0%nat))) 2)
           (f_round (uniform_at (f_dec 350 2) (f_dec 450 2)
                       (unit_of_raw (Sample.entropy 1%nat))) 2)),
     2%nat).
Proof.
  apply (rows_round_trip Sample.entropy Sample.customer Sample.text_order
           Sample.product 0%nat).
  unfold text_representable, float_text_ok, int_text_ok. simpl.
  repeat split; eauto; try lia; vm_compute; reflexivity.
Defined.

(** The claim of C5 as first worded gives back every customer field for
    field: the sequences of a customer are not in its row. *)
Lemma customer_round_trip_drops_sequences :
  Customer.sequences Sample.customer <> [] /\
  Customer.from_row (Customer.to_row Sample.customer) <> Ok Sample.customer.
Proof. split; [discriminate |]. vm_compute. intros [=]. Qed.

(** Nor does an order of a generated batch come back: its date is a date
    object, and the row gives text. *)
Example generated_order_round_trip_changes_date :
  exists o o' : Order.t Q,
    Sample.orders !! 1%nat = Some o /\
    Order.from_row (Order.csv_text <$> Order.to_row o) = Ok o' /\
    Order.date o = Order.DateObj (mkDate 2024 2 7) /\
    Order.date o' = Order.DateStr "02/07/2024".
Proof.
  eexists _, _. split; [vm_compute; reflexivity |].
  split; [vm_compute; reflexivity |]. split; reflexivity.
Qed.

(** * Further properties *)

(** ** Rows of the three models *)

(** X1. An order row of fewer than 14 cells is refused with [ValueError];
    a row of 14 to 21 cells is read, unless its sequence id stops it, into
    an order whose nine numeric fields all have their defaults, the unit
    price and the quantity of the row included. *)
Theorem order_from_row_short {F : Type} `{PyFloat F} (row : list string) :
  (length row < 22)%nat ->
  ((length row < 14)%nat /\ Order.from_row row = Raise ValueError) \/
  ((14 <= length row)%nat /\
   exists r2 : string,
     row !! 2%nat = Some r2 /\
     ((isdigit r2 = true /\ int_parse r2 = None /\
       Order.from_row row = Raise ValueError) \/
      (exists o : Order.t F,
         Order.from_row row = Ok o /\
         numerics_of o = Order.default_numerics /\
         Order.customer_name o = default "" (row !! 0%nat) /\
         Order.order_number o = default "" (row !! 1%nat)))).
Proof.
  intros Hlen. destruct (Nat.lt_ge_cases (length row) 14) as [Hshort | Hlong].
  - left. split; [exact Hshort |]. unfold Order.from_row.
    by assert ((length row <? 14)%nat = true) as -> by (apply Nat.ltb_lt; lia).
  - right. split; [exact Hlong |].
    destruct (from_row_cases row Hlong) as (r2 & n & H2 & Hn & Hcases).
    exists r2. split; [exact H2 |].
    destruct Hcases as [Hseq | (o & Ho & Hnum)]; [by left | right].
    exists o. split; [exact Ho |].
    assert (n = Order.default_numerics) as ->.
    { assert (Order.guarded_numerics row = Ok Order.default_numerics) as Hd.
      { apply guarded_numerics_default. exists IndexError.
        do 8 right. unfold Order.float_cell, getitem.
        by rewrite lookup_ge_None_2 by lia. }
      congruence. }
    split; [exact Hnum |].
    revert Ho. unfold Order.from_row.
    assert ((length row <? 14)%nat = false) as -> by (apply Nat.ltb_ge; lia).
    rewrite Hn. simpl. unfold getitem.
    destruct (row !! 0%nat) as [r0 |]; simpl; [| discriminate].
    destruct (row !! 1%nat) as [r1 |]; simpl; [| discriminate].
    intros Ho.
    repeat (apply rbind_Ok_inv in Ho as (? & _ & Ho)).
    by injection Ho as <-.
Qed.

Lemma order_from_row_short_witness :
  exists o : Order.t Q,
    Order.from_row Fixture.short_order_row = Ok o /\
    Order.unit_price o = f_dec 0 1 /\ Order.quantity o = 0.
Proof.
  destruct (order_from_row_short (F := Q) Fixture.short_order_row)
    as [(Hshort & _) | (_ & r2 & H2 & [(_ & Hint & _) | (o & Ho & Hnum & _)])].
  - vm_compute. lia.
  - exfalso. vm_compute in Hshort. lia.
  - exfalso. vm_compute in H2. injection H2 as <-. vm_compute in Hint.
    discriminate.
  - exists o. split; [exact Ho |]. by injection Hnum as -> -> _.
Defined.

(** X2. A customer row of fewer than 2 cells is refused with
    [ValueError]; any other row is read into a customer without sequences
    whose row is the first nine cells of the given one, the missing ones
    empty: a row of nine cells comes back as it is. *)
Theorem customer_row_normalised (row : list string) :
  ((length row < 2)%nat /\ Customer.from_row row = Raise ValueError) \/
  ((2 <= length row)%nat /\
   exists c : Customer.t,
     Customer.from_row row = Ok c /\
     Customer.sequences c = [] /\
     Customer.has_sequences c = false /\
     Customer.to_row c = take 9 (row ++ replicate 9 "") /\
     (length row = 9%nat -> Customer.to_row c = row)).
Proof.
  destruct row as [| r0 [| r1 rest]];
    [left; split; [simpl; lia | reflexivity] ..|].
  right. split; [simpl; lia |].
  eexists. split; [reflexivity |]. split; [reflexivity |].
  split; [reflexivity |].
  do 8 (destruct rest as [| ? rest];
        [split; [reflexivity | simpl; intros; (reflexivity || lia)] |]).
  split; [reflexivity |]. simpl. intros ?. lia.
Qed.

(** X3. A product row of fewer than 2 cells is refused with [ValueError];
    any other row is read into a product, two draws of the generator being
    spent on its price band, whose row is the first fourteen cells of the
    given one, the missing ones at their defaults (Fuel, Direct, Bulk,
    Gallon, Active, Yes, or empty): a row of fourteen cells comes back as it
    is. *)
Theorem product_row_normalised {F : Type} `{PyFloat F} (entropy : nat -> Z)
    (row : list string) (pos : nat) :
  ((length row < 2)%nat /\
   Product.from_row (F := F) entropy row pos = (Raise ValueError, pos)) \/
  ((2 <= length row)%nat /\
   exists p : Product.t F,
     Product.from_row entropy row pos = (Ok p, S (S pos)) /\
     Product.to_row p =
       take 14 (row ++ drop (length row) PRODUCT_FIELD_DEFAULTS) /\
     (length row = 14%nat -> Product.to_row p = row)).
Proof.
  destruct row as [| r0 [| r1 rest]];
    [left; split; [simpl; lia | reflexivity] ..|].
  right. split; [simpl; lia |].
  eexists. split.
  { unfold Product.from_row, bind, lift, ret, random_uniform, random_random,
      next_raw. simpl. reflexivity. }
  do 13 (destruct rest as [| ? rest];
         [split; [reflexivity | simpl; intros; (reflexivity || lia)] |]).
  split; [reflexivity |]. simpl. intros ?. lia.
Qed.

(** X4. Every row the three models write has as many cells as the header
    of its file, and so has every row of the sample catalog. *)
Theorem rows_match_headers {F : Type} `{PyFloat F} (o : Order.t F)
    (c : Customer.t) (p : Product.t F) :
  length (Order.to_row o) = length ORDER_HEADERS /\
  length (Customer.to_row c) = length CUSTOMER_HEADERS /\
  length (Product.to_row p) = length PRODUCT_HEADERS /\
  Forall (fun row => length row = length PRODUCT_HEADERS) SAMPLE_PRODUCTS /\
  (forall c', Forall (fun row => length row = length SEQUENCE_HEADERS)
                (Catalog.sequence_rows_of [c'])).
Proof.
  repeat split.
  - repeat constructor.
  - intros c'. unfold Catalog.sequence_rows_of. simpl. rewrite app_nil_r.
    apply Forall_fmap, Forall_forall. by intros.
Qed.

(** ** Amounts of an order, in exact arithmetic *)

Lemma q_round_nonneg (x : Q) (n : nat) : (0 <= x)%Q -> (0 <= QFloat.q_round x n)%Q.
Proof.
  intros Hx. assert (QFloat.q_dec 0 n == 0)%Q as Hz.
  { unfold QFloat.q_dec. rewrite Qred_correct. reflexivity. }
  rewrite <- Hz. apply q_round_ge. by rewrite Hz.
Qed.

Lemma q_round_le_cents (x y : Q) (n : nat) :
  (x <= QFloat.q_round y n)%Q ->
  (QFloat.q_round x n <= QFloat.q_round y n)%Q.
Proof. intros Hx. unfold QFloat.q_round at 2. by apply q_round_le. Qed.

(** The five amounts [calculate_totals] sets, each as the source computes
    it from the two draws. *)
Lemma calculate_totals_amounts {F : Type} `{PyFloat F} (entropy : nat -> Z)
    (o : Order.t F) (pos : nat) :
  exists o',
    Order.calculate_totals entropy o pos = (Ok o', S (S pos)) /\
    let main_charges :=
      f_round (f_mul (Order.unit_price o) (f_of_Z (Order.quantity o))) 2 in
    let tt :=
      f_round (f_mul main_charges
                 (uniform_at (f_dec 5 2) (f_dec 10 2)
                    (unit_of_raw (entropy pos)))) 2 in
    let ex :=
      f_round (uniform_at (f_of_Z 0) (f_mul tt (f_dec 3 1))
                 (unit_of_raw (entropy (S pos)))) 2 in
    let cost := f_round (f_mul main_charges (f_dec 85 2)) 2 in
    Order.total_taxes o' = tt /\
    Order.exempt_taxes o' = ex /\
    Order.total o' =
      f_sub (f_add (f_add (f_add main_charges
                             (Order.charge_amount (Order.charges o)))
                      (Order.charge_amount (Order.special_charges o))) tt) ex /\
    Order.total_cost o' = cost /\
    Order.margin_per_gallon o' =
      (if 0 <? Order.quantity o
       then f_round (f_div (f_sub main_charges cost)
                       (f_of_Z (Order.quantity o))) 3
       else f_dec 0 1).
Proof.
  eexists. split.
  - cbv beta iota zeta delta
      [Order.calculate_totals bind random_uniform random_random next_raw ret].
    reflexivity.
  - cbn [Order.total_taxes Order.exempt_taxes Order.total Order.total_cost
         Order.margin_per_gallon]. repeat split.
Qed.

(** The order of the amounts, on the rational formulas themselves. *)
Lemma amounts_ordered (up : Q) (q : Z) (add sp u v : Q) :
  (0 <= up)%Q -> 0 <= q -> (0 <= u)%Q -> (u < 1)%Q -> (0 <= v)%Q -> (v < 1)%Q ->
  let main_charges := QFloat.q_round (Qred (up * inject_Z q)) 2 in
  let rate :=
    Qred (QFloat.q_dec 5 2 + Qred (Qred (QFloat.q_dec 10 2 - QFloat.q_dec 5 2) * u)) in
  let tt := QFloat.q_round (Qred (main_charges * rate)) 2 in
  let cap := Qred (tt * QFloat.q_dec 3 1) in
  let ex :=
    QFloat.q_round (Qred (inject_Z 0 + Qred (Qred (cap - inject_Z 0) * v))) 2 in
  let cost := QFloat.q_round (Qred (main_charges * QFloat.q_dec 85 2)) 2 in
  (0 <= main_charges)%Q /\
  (0 <= tt)%Q /\
  (0 <= ex <= tt)%Q /\
  (0 <= cost <= main_charges)%Q /\
  (0 <= (if 0 <? q
         then QFloat.q_round (Qred (Qred (main_charges - cost) / inject_Z q)) 3
         else QFloat.q_dec 0 1))%Q /\
  (main_charges + add + sp <=
   Qred (Qred (Qred (Qred (main_charges + add) + sp) + tt) - ex))%Q.
Proof.
  intros Hup Hq Hu0 Hu1 Hv0 Hv1 main_charges rate tt cap ex cost.
  assert (0 <= main_charges)%Q as Hmain.
  { apply q_round_nonneg. rewrite Qred_correct.
    apply Qmult_le_0_compat; [exact Hup |].
    unfold Qle, inject_Z. simpl. lia. }
  assert (0 <= rate)%Q as Hrate0.
  { unfold rate. rewrite !Qred_correct.
    assert (QFloat.q_dec 5 2 == 5 # 100)%Q as -> by reflexivity.
    assert (QFloat.q_dec 10 2 == 10 # 100)%Q as -> by reflexivity.
    nra. }
  assert (0 <= tt)%Q as Htt.
  { apply q_round_nonneg. rewrite Qred_correct.
    by apply Qmult_le_0_compat. }
  assert (0 <= cap /\ cap <= tt)%Q as [Hcap0 Hcap].
  { unfold cap. rewrite Qred_correct.
    assert (QFloat.q_dec 3 1 == 3 # 10)%Q as -> by reflexivity.
    split; nra. }
  assert (0 <= Qred (inject_Z 0 + Qred (Qred (cap - inject_Z 0) * v)) <= cap)%Q
    as [Hx0 Hx1].
  { rewrite !Qred_correct.
    assert (inject_Z 0 == 0)%Q as -> by reflexivity. split; nra. }
  assert (0 <= ex)%Q as Hex by (apply q_round_nonneg; exact Hx0).
  assert (ex <= tt)%Q as Hextt.
  { apply q_round_le_cents. by apply Qle_trans with (y := cap). }
  assert (0 <= cost <= main_charges)%Q as [Hcost0 Hcost].
  { split.
    - apply q_round_nonneg. rewrite Qred_correct.
      apply Qmult_le_0_compat; [exact Hmain | done].
    - apply q_round_le_cents. fold main_charges. rewrite Qred_correct.
      assert (QFloat.q_dec 85 2 == 85 # 100)%Q as -> by reflexivity.
      nra. }
  split; [exact Hmain |]. split; [exact Htt |].
  split; [split; [exact Hex | exact Hextt] |].
  split; [split; [exact Hcost0 | exact Hcost] |].
  split.
  - destruct (0 <? q) eqn:Hpos; [| done].
    apply q_round_nonneg. rewrite Qred_correct.
    apply Qle_shift_div_l.
    + unfold Qlt, inject_Z. simpl. lia.
    + rewrite Qred_correct. nra.
  - rewrite !Qred_correct. nra.
Qed.

(** X5. With a unit price and a quantity that are not negative, the
    amounts [calculate_totals] sets are ordered as amounts should be: main
    charges, total taxes, exempt taxes, total cost and margin per gallon
    are not negative, exempt taxes do not exceed total taxes, total cost
    does not exceed main charges, and the total is at least main charges
    plus the two charges (exact arithmetic). *)
Theorem calculate_totals_bounds (entropy : nat -> Z) (o o' : Order.t Q)
    (pos pos' : nat) :
  (0 <= Order.unit_price o)%Q -> 0 <= Order.quantity o ->
  Order.calculate_totals entropy o pos = (Ok o', pos') ->
  let main_charges :=
    f_round (f_mul (Order.unit_price o) (f_of_Z (Order.quantity o))) 2 in
  (0 <= main_charges)%Q /\
  (0 <= Order.total_taxes o')%Q /\
  (0 <= Order.exempt_taxes o' <= Order.total_taxes o')%Q /\
  (0 <= Order.total_cost o' <= main_charges)%Q /\
  (0 <= Order.margin_per_gallon o')%Q /\
  (main_charges + Order.charge_amount (Order.charges o)
   + Order.charge_amount (Order.special_charges o) <= Order.total o')%Q.
Proof.
  intros Hup Hq Hrun main_charges.
  destruct (calculate_totals_amounts entropy o pos)
    as (o'' & Hrun' & Htt & Hex & Htot & Hcost & Hmg).
  rewrite Hrun' in Hrun. injection Hrun as -> _.
  rewrite Htt, Hex, Htot, Hcost, Hmg.
  destruct (unit_of_raw_range (entropy pos)) as [Hu0 Hu1].
  destruct (unit_of_raw_range (entropy (S pos))) as [Hv0 Hv1].
  exact (amounts_ordered (Order.unit_price o) (Order.quantity o)
           (Order.charge_amount (Order.charges o))
           (Order.charge_amount (Order.special_charges o))
           (unit_of_raw (entropy pos)) (unit_of_raw (entropy (S pos)))
           Hup Hq Hu0 Hu1 Hv0 Hv1).
Qed.

Lemma calculate_totals_bounds_witness :
  exists (o' : Order.t Q) (pos' : nat),
    Order.calculate_totals Sample.entropy Sample.text_order 0%nat = (Ok o', pos') /\
    (0 <= Order.exempt_taxes o' <= Order.total_taxes o')%Q /\
    (0 <= Order.total_cost o' <=
     f_round (f_mul (Order.unit_price Sample.text_order)
                (f_of_Z (Order.quantity Sample.text_order))) 2)%Q.
Proof.
  assert (exists (o' : Order.t Q) (pos' : nat),
            Order.calculate_totals Sample.entropy Sample.text_order 0%nat
            = (Ok o', pos')) as (o' & pos' & Hrun) by (vm_compute; eauto).
  exists o', pos'. split; [exact Hrun |].
  destruct (calculate_totals_bounds Sample.entropy Sample.text_order o'
              0%nat pos') as (_ & _ & Hex & Hcost & _).
  - vm_compute. discriminate.
  - vm_compute. discriminate.
  - exact Hrun.
  - split; [exact Hex | exact Hcost].
Defined.

(** ** More of what an order of a batch holds *)

Section OrderFieldFacts.
Context {F : Type} `{PyFloat F}.
Variable entropy : nat -> Z.

Lemma calculate_totals_keeps_all (o : Order.t F) (pos : nat) :
  exists o',
    Order.calculate_totals entropy o pos = (Ok o', S (S pos)) /\
    Order.customer_name o' = Order.customer_name o /\
    Order.sequence_id o' = Order.sequence_id o /\
    Order.sequence_desc o' = Order.sequence_desc o /\
    Order.product_name o' = Order.product_name o /\
    Order.unit_price o' = Order.unit_price o /\
    Order.quantity o' = Order.quantity o /\
    Order.po_required o' = Order.po_required o /\
    Order.po_number o' = Order.po_number o /\
    Order.status o' = Order.status o /\
    Order.invoice_number o' = Order.invoice_number o /\
    Order.bol o' = Order.bol o.
Proof.
  eexists. split.
  - cbv beta iota zeta delta
      [Order.calculate_totals bind random_uniform random_random next_raw ret].
    reflexivity.
  - simpl. repeat split.
Qed.

Lemma weighted_statuses (s : string) :
  s ∈ DataGenerator.statuses_weighted ->
  s = "Completed" \/ s = "In Progress" \/ s = "Pending".
Proof.
  unfold DataGenerator.statuses_weighted. rewrite !elem_of_app.
  intros [Hs | [Hs | Hs]]; apply elem_of_replicate in Hs as [-> _]; auto.
Qed.

Lemma weighted_po (s : string) :
  s ∈ DataGenerator.po_weighted -> s = "Yes" \/ s = "No".
Proof.
  unfold DataGenerator.po_weighted. rewrite !elem_of_app.
  intros [Hs | Hs]; apply elem_of_replicate in Hs as [-> _]; auto.
Qed.

(** The fields [generate_order] takes from its inputs and from its draws. *)
Lemma generate_order_fields products customers (m : Z) (mys : string)
    (dates : list date) (i : nat) (pos : nat) o pos' :
  DataGenerator.generate_order entropy products customers m mys dates i pos
    = (Ok o, pos') ->
  (exists customer sequence product raw,
     customer ∈ customers /\ sequence ∈ Customer.sequences customer /\
     product ∈ products /\
     Order.customer_name o = Customer.name customer /\
     Order.sequence_id o = Sequence.seq_id sequence /\
     Order.sequence_desc o = Sequence.description sequence /\
     Order.product_name o = Product.name product /\
     Order.unit_price o =
       f_round (uniform_at (Product.min_price product)
                  (Product.max_price product) (unit_of_raw raw)) 2) /\
  (exists q, 20 <= q <= 350 /\ Order.quantity o = q * 10) /\
  ((Order.po_required o = "Yes" /\
    Order.po_number o = "PO-" +:+ mys +:+ "-" +:+ format_0d 3 (Z.of_nat i + 1)) \/
   (Order.po_required o = "No" /\ Order.po_number o = "")) /\
  (Order.status o = "Completed" \/ Order.status o = "In Progress" \/
   Order.status o = "Pending") /\
  Order.bol o = "BOL-" +:+ mys +:+ "-" +:+ format_0d 4 (Z.of_nat i + 1) /\
  (Order.status o = "Completed" ->
   Order.invoice_number o =
   "INV-" +:+ mys +:+ "-" +:+ format_0d 4 (Z.of_nat i + 1)).
Proof.
  unfold DataGenerator.generate_order. intros Hrun.
  apply bind_Ok_inv in Hrun as (customer & s1 & Hc & Hrun).
  apply random_choice_inv in Hc.
  apply bind_Ok_inv in Hrun as (sequence & s2 & Hs & Hrun).
  apply random_choice_inv in Hs.
  apply bind_Ok_inv in Hrun as (po_req & s3 & Hpo & Hrun).
  apply random_choice_inv, weighted_po in Hpo.
  apply bind_Ok_inv in Hrun as (d & s4 & _ & Hrun).
  apply bind_Ok_inv in Hrun as (status & s5 & Hst & Hrun).
  apply random_choice_inv, weighted_statuses in Hst.
  apply bind_Ok_inv in Hrun as ([num inv] & s6 & Hinv & Hrun).
  apply bind_Ok_inv in Hrun as (product & s7 & Hp & Hrun).
  apply random_choice_inv in Hp.
  apply bind_Ok_inv in Hrun as (price & s8 & Hprice & Hrun).
  rewrite get_random_price_run in Hprice. injection Hprice as <- <-.
  apply bind_Ok_inv in Hrun as (q & s9 & Hq & Hrun).
  apply random_randint_inv in Hq.
  apply bind_Ok_inv in Hrun as ([[ap ch] sp] & s10 & _ & Hrun).
  match type of Hrun with
  | Order.calculate_totals _ ?raw _ = _ =>
      destruct (calculate_totals_keeps_all raw s10)
        as (o' & Hrun' & Hcn & Hsid & Hsd & Hpn & Hup & Hqty & Hpr & Hpn'
            & Hstat & Hinum & Hbol)
  end.
  rewrite Hrun' in Hrun. injection Hrun as -> _.
  rewrite Hcn, Hsid, Hsd, Hpn, Hup, Hqty, Hpr, Hpn', Hstat, Hinum, Hbol. simpl.
  split; [by exists customer, sequence, product, (entropy s7) |].
  split; [by exists q |].
  split.
  { destruct Hpo as [-> | ->]; [left | right]; done. }
  split; [exact Hst |]. split; [reflexivity |].
  intros ->. simpl in Hinv. apply lift_Ok_inv in Hinv as [Hinv _].
  unfold DataGenerator.invoice_for in Hinv.
  apply rbind_Ok_inv in Hinv as (next & _ & [= <- _]). reflexivity.
Qed.

(** The same, for an order found in a batch. *)
Lemma generate_orders_fields products customers (y m count : Z) (pos : nat)
    os pos' i o :
  DataGenerator.generate_orders entropy products customers y m count pos
    = (Ok os, pos') ->
  os !! i = Some o ->
  exists s1 s2 dates,
    DataGenerator.generate_order entropy products customers m
      (DataGenerator.month_year_str y m) dates i s1 = (Ok o, s2).
Proof.
  intros Hrun Ho.
  apply generate_orders_inv in Hrun as (drawn & _ & _ & _ & Hgen).
  destruct (Hgen i o Ho) as (s1 & s2 & Hone). eauto.
Qed.
End OrderFieldFacts.

(** X6. In every batch [generate_orders] returns, the quantity of an order
    is a multiple of 10 between 200 and 3500. *)
Theorem quantity_multiple_of_ten {F : Type} `{PyFloat F}
    (entropy : nat -> Z) (products : list (Product.t F))
    (customers : list Customer.t) (y m count : Z) (pos : nat)
    (os : list (Order.t F)) (pos' : nat) (o : Order.t F) :
  DataGenerator.generate_orders entropy products customers y m count pos
    = (Ok os, pos') ->
  o ∈ os ->
  200 <= Order.quantity o <= 3500 /\ Order.quantity o mod 10 = 0.
Proof.
  intros Hrun Ho. apply list_elem_of_lookup in Ho as [i Ho].
  destruct (generate_orders_fields entropy _ _ _ _ _ _ _ _ _ _ Hrun Ho)
    as (s1 & s2 & dates & Hone).
  apply generate_order_fields in Hone as (_ & (q & Hq & ->) & _).
  split; [lia |]. apply Z.mod_mul. lia.
Qed.

Lemma quantity_multiple_of_ten_witness :
  exists o : Order.t Q,
    Sample.orders !! 1%nat = Some o /\
    200 <= Order.quantity o <= 3500 /\ Order.quantity o mod 10 = 0.
Proof.
  assert (exists o : Order.t Q, Sample.orders !! 1%nat = Some o) as [o Ho]
    by (vm_compute; eauto).
  exists o. split; [exact Ho |].
  apply (quantity_multiple_of_ten Sample.entropy [Sample.product]
           [Sample.customer] 2024 2 3 0%nat Sample.orders (snd Sample.run) o).
  - vm_compute. reflexivity.
  - by eapply list_elem_of_lookup_2.
Defined.

(** X7. In every batch [generate_orders] returns, the order at index i
    either requires a purchase order, PO Req being Yes and the PO number
    PO-{yyyymm}-{i+1:03d}, or does not, PO Req being No and the PO number
    empty; and its status is Completed, In Progress or Pending. *)
Theorem po_number_iff_required {F : Type} `{PyFloat F}
    (entropy : nat -> Z) (products : list (Product.t F))
    (customers : list Customer.t) (y m count : Z) (pos : nat)
    (os : list (Order.t F)) (pos' : nat) (i : nat) (o : Order.t F) :
  DataGenerator.generate_orders entropy products customers y m count pos
    = (Ok os, pos') ->
  os !! i = Some o ->
  ((Order.po_required o = "Yes" /\
    Order.po_number o =
    "PO-" +:+ DataGenerator.month_year_str y m +:+ "-" +:+
    format_0d 3 (Z.of_nat i + 1)) \/
   (Order.po_required o = "No" /\ Order.po_number o = "")) /\
  (Order.po_number o <> "" <-> Order.po_required o = "Yes") /\
  (Order.status o = "Completed" \/ Order.status o = "In Progress" \/
   Order.status o = "Pending").
Proof.
  intros Hrun Ho.
  destruct (generate_orders_fields entropy _ _ _ _ _ _ _ _ _ _ Hrun Ho)
    as (s1 & s2 & dates & Hone).
  apply generate_order_fields in Hone as (_ & _ & Hpo & Hst & _).
  split; [exact Hpo |]. split; [| exact Hst].
  destruct Hpo as [(-> & ->) | (-> & ->)]; split; done.
Qed.

Lemma po_number_iff_required_witness :
  exists o : Order.t Q,
    Sample.orders !! 0%nat = Some o /\
    Order.po_required o = "Yes" /\ Order.po_number o = "PO-202402-001".
Proof.
  assert (exists o : Order.t Q, Sample.orders !! 0%nat = Some o) as [o Ho]
    by (vm_compute; eauto).
  exists o. split; [exact Ho |].
  destruct (po_number_iff_required Sample.entropy [Sample.product]
              [Sample.customer] 2024 2 3 0%nat Sample.orders (snd Sample.run)
              0%nat o) as ([Hyes | [Hno _]] & _ & _).
  - vm_compute. reflexivity.
  - exact Ho.
  - exact Hyes.
  - exfalso. vm_compute in Ho. injection Ho as <-. discriminate.
Defined.

(** X8. In every batch [generate_orders] returns, an order names a customer
    of the given list, one of the sequences of that very customer, and a
    product of the given list whose price band its unit price is drawn
    from. *)
Theorem order_refers_to_inputs {F : Type} `{PyFloat F}
    (entropy : nat -> Z) (products : list (Product.t F))
    (customers : list Customer.t) (y m count : Z) (pos : nat)
    (os : list (Order.t F)) (pos' : nat) (o : Order.t F) :
  DataGenerator.generate_orders entropy products customers y m count pos
    = (Ok os, pos') ->
  o ∈ os ->
  exists customer sequence product raw,
    customer ∈ customers /\ sequence ∈ Customer.sequences customer /\
    product ∈ products /\
    Order.customer_name o = Customer.name customer /\
    Order.sequence_id o = Sequence.seq_id sequence /\
    Order.sequence_desc o = Sequence.description sequence /\
    Order.product_name o = Product.name product /\
    Order.unit_price o =
      f_round (uniform_at (Product.min_price product)
                 (Product.max_price product) (unit_of_raw raw)) 2.
Proof.
  intros Hrun Ho. apply list_elem_of_lookup in Ho as [i Ho].
  destruct (generate_orders_fields entropy _ _ _ _ _ _ _ _ _ _ Hrun Ho)
    as (s1 & s2 & dates & Hone).
  by apply generate_order_fields in Hone as (Hrefs & _).
Qed.

Lemma order_refers_to_inputs_witness :
  exists o : Order.t Q,
    Sample.orders !! 1%nat = Some o /\
    Order.customer_name o = "Acme Fuels" /\
    Order.product_name o = "Regular Gasoline".
Proof.
  assert (exists o : Order.t Q, Sample.orders !! 1%nat = Some o) as [o Ho]
    by (vm_compute; eauto).
  exists o. split; [exact Ho |].
  destruct (order_refers_to_inputs Sample.entropy [Sample.product]
              [Sample.customer] 2024 2 3 0%nat Sample.orders (snd Sample.run) o)
    as (c & sq & p & raw & Hc & _ & Hp & -> & _ & _ & -> & _).
  - vm_compute. reflexivity.
  - by eapply list_elem_of_lookup_2.
  - apply list_elem_of_singleton in Hc as ->.
    apply list_elem_of_singleton in Hp as ->. split; reflexivity.
Defined.

(** X9. In every batch [generate_orders] returns, the order at index i has
    the bill of lading BOL-{yyyymm}-{i+1:04d} and, when it is completed,
    the invoice number INV-{yyyymm}-{i+1:04d}: the three numbers of an order
    share its index, and the bills of lading of a batch are pairwise
    distinct. *)
Theorem document_numbers_share_index {F : Type} `{PyFloat F}
    (entropy : nat -> Z) (products : list (Product.t F))
    (customers : list Customer.t) (y m count : Z) (pos : nat)
    (os : list (Order.t F)) (pos' : nat) :
  DataGenerator.generate_orders entropy products customers y m count pos
    = (Ok os, pos') ->
  (forall i o, os !! i = Some o ->
     Order.bol o =
       "BOL-" +:+ DataGenerator.month_year_str y m +:+ "-" +:+
       format_0d 4 (Z.of_nat i + 1) /\
     (Order.status o = "Completed" ->
      Order.invoice_number o =
        "INV-" +:+ DataGenerator.month_year_str y m +:+ "-" +:+
        format_0d 4 (Z.of_nat i + 1))) /\
  NoDup (Order.bol <$> os).
Proof.
  intros Hrun.
  assert (forall i o, os !! i = Some o ->
     Order.bol o =
       "BOL-" +:+ DataGenerator.month_year_str y m +:+ "-" +:+
       format_0d 4 (Z.of_nat i + 1) /\
     (Order.status o = "Completed" ->
      Order.invoice_number o =
        "INV-" +:+ DataGenerator.month_year_str y m +:+ "-" +:+
        format_0d 4 (Z.of_nat i + 1))) as Hnum.
  { intros i o Ho.
    destruct (generate_orders_fields entropy _ _ _ _ _ _ _ _ _ _ Hrun Ho)
      as (s1 & s2 & dates & Hone).
    by apply generate_order_fields in Hone as (_ & _ & _ & _ & Hbol & Hinv). }
  split; [exact Hnum |].
  apply NoDup_alt. intros i j num Hi Hj.
  rewrite list_lookup_fmap in Hi, Hj.
  destruct (os !! i) as [oi |] eqn:Hoi; [| discriminate].
  destruct (os !! j) as [oj |] eqn:Hoj; [| discriminate].
  simpl in Hi, Hj. injection Hi as Hi. injection Hj as Hj.
  destruct (Hnum i oi Hoi) as [Hbi _]. destruct (Hnum j oj Hoj) as [Hbj _].
  rewrite Hbi in Hi. rewrite Hbj in Hj. rewrite <- Hj in Hi.
  do 3 apply append_cancel_l in Hi.
  apply format_0d_inj in Hi; lia.
Qed.

Lemma document_numbers_share_index_witness :
  (forall i o, Sample.orders !! i = Some o ->
     Order.bol o =
       "BOL-" +:+ DataGenerator.month_year_str 2024 2 +:+ "-" +:+
       format_0d 4 (Z.of_nat i + 1) /\
     (Order.status o = "Completed" ->
      Order.invoice_number o =
        "INV-" +:+ DataGenerator.month_year_str 2024 2 +:+ "-" +:+
        format_0d 4 (Z.of_nat i + 1))) /\
  NoDup (Order.bol <$> Sample.orders).
Proof.
  apply (document_numbers_share_index Sample.entropy [Sample.product]
           [Sample.customer] 2024 2 3 0%nat Sample.orders (snd Sample.run)).
  vm_compute. reflexivity.
Defined.

(** X10. When the price band of every product is in cents with min_price
    <= max_price, as the bands [Product.from_row] draws are, the unit price
    of every order of a batch lies within the band of a product of the list
    bearing the name on the order (exact arithmetic). *)
Theorem unit_price_within_band (entropy : nat -> Z)
    (products : list (Product.t Q)) (customers : list Customer.t)
    (y m count : Z) (pos : nat) (os : list (Order.t Q)) (pos' : nat)
    (o : Order.t Q) :
  Forall (fun p => exists a b : Z,
            a <= b /\ Product.min_price p = QFloat.q_dec a 2 /\
            Product.max_price p = QFloat.q_dec b 2) products ->
  DataGenerator.generate_orders entropy products customers y m count pos
    = (Ok os, pos') ->
  o ∈ os ->
  exists p : Product.t Q,
    p ∈ products /\ Order.product_name o = Product.name p /\
    (Product.min_price p <= Order.unit_price o <= Product.max_price p)%Q.
Proof.
  intros Hbands Hrun Ho. apply list_elem_of_lookup in Ho as [i Ho].
  destruct (generate_orders_fields entropy _ _ _ _ _ _ _ _ _ _ Hrun Ho)
    as (s1 & s2 & dates & Hone).
  apply generate_order_fields in Hone
    as ((c & sq & p & raw & _ & _ & Hp & _ & _ & _ & Hname & Hprice) & _).
  exists p. split; [exact Hp |]. split; [exact Hname |].
  rewrite Forall_forall in Hbands.
  destruct (Hbands p Hp) as (a & b & Hab & Hmin & Hmax).
  rewrite Hprice, Hmin, Hmax.
  destruct (unit_of_raw_range raw) as [H0 H1].
  destruct (uniform_at_range (QFloat.q_dec a 2) (QFloat.q_dec b 2)
              (unit_of_raw raw)) as [Hlo Hhi]; [| exact H0 | exact H1 |].
  - unfold QFloat.q_dec. rewrite !Qred_correct. unfold Qle. simpl. nia.
  - split; [by apply q_round_ge | by apply q_round_le].
Qed.

Lemma unit_price_within_band_witness :
  exists o : Order.t Q,
    Sample.orders !! 1%nat = Some o /\
    (Product.min_price Sample.product <= Order.unit_price o
     <= Product.max_price Sample.product)%Q.
Proof.
  assert (exists o : Order.t Q, Sample.orders !! 1%nat = Some o) as [o Ho]
    by (vm_compute; eauto).
  exists o. split; [exact Ho |].
  destruct (unit_price_within_band Sample.entropy [Sample.product]
              [Sample.customer] 2024 2 3 0%nat Sample.orders (snd Sample.run) o)
    as (p & Hp & _ & Hband).
  - repeat constructor. exists 250, 350. repeat split. lia.
  - vm_compute. reflexivity.
  - by eapply list_elem_of_lookup_2.
  - apply list_elem_of_singleton in Hp as ->. exact Hband.
Defined.

(** ** Requests [generate_orders] cannot serve *)

Section RequestFacts.
Context {F : Type} `{PyFloat F}.
Variable entropy : nat -> Z.

Lemma generate_date_in_month_invalid (y m : Z) (pos : nat) :
  ~ (MINYEAR <= y <= MAXYEAR /\ 1 <= m <= 12) ->
  exists pos',
    DataGenerator.generate_date_in_month entropy y m pos = (Raise ValueError, pos').
Proof.
  intros Hbad. unfold DataGenerator.generate_date_in_month.
  destruct (decide (1 <= m <= 12)) as [Hm | Hm].
  - destruct (monthrange_valid y m Hm) as (n & Hn & Hbound).
    destruct (random_randint_ok entropy 1 n pos) as (v & Hv & Hdraw); [lia |].
    rewrite (bind_run (lift_run Hn pos)), (bind_run Hdraw).
    unfold lift, make_date.
    assert ((MINYEAR <=? y) && (y <=? MAXYEAR) = false) as ->; [| eauto].
    apply andb_false_iff. unfold MINYEAR, MAXYEAR in *. lia.
  - unfold monthrange.
    assert ((1 <=? m) && (m <=? 12) = false) as ->
      by (apply andb_false_iff; lia).
    unfold bind, lift. eauto.
Qed.

Lemma mapM_raise_first {S A B} (f : A -> M S B) x xs (s : S) e s' :
  f x s = (Raise e, s') -> mapM f (x :: xs) s = (Raise e, s').
Proof. intros Hf. rewrite mapM_cons_run. by rewrite Hf. Qed.

Lemma positive_count_seq (count : Z) :
  0 < count -> exists n, seq 0 (Z.to_nat count) = O :: seq 1 n.
Proof.
  intros Hpos. destruct (Z.to_nat count) as [| n] eqn:Hn; [lia |].
  exists n. reflexivity.
Qed.
End RequestFacts.

(** X11. A request for no orders, count <= 0, is served with the empty
    list and no draw, whatever the other arguments; a request for orders in
    a month outside 1..12 or a year outside 1..9999 raises [ValueError]; a
    request for orders in a month of the calendar with no customer raises
    [IndexError]. *)
Theorem generate_orders_edge_requests {F : Type} `{PyFloat F}
    (entropy : nat -> Z) (products : list (Product.t F))
    (customers : list Customer.t) (y m count : Z) (pos : nat) :
  (count <= 0 ->
   DataGenerator.generate_orders entropy products customers y m count pos
     = (Ok [], pos)) /\
  (0 < count -> ~ (1 <= y <= 9999 /\ 1 <= m <= 12) ->
   fst (DataGenerator.generate_orders entropy products customers y m count pos)
     = Raise ValueError) /\
  (0 < count -> 1 <= y <= 9999 -> 1 <= m <= 12 -> customers = [] ->
   fst (DataGenerator.generate_orders entropy products customers y m count pos)
     = Raise IndexError).
Proof.
  split; [| split].
  - intros Hcount. unfold DataGenerator.generate_orders.
    by assert (Z.to_nat count = O) as -> by lia.
  - intros Hcount Hbad. unfold DataGenerator.generate_orders.
    destruct (positive_count_seq count Hcount) as [n ->].
    destruct (generate_date_in_month_invalid entropy y m pos Hbad) as [pos' Hd].
    erewrite bind_raise; [reflexivity |].
    by apply mapM_raise_first.
  - intros Hcount Hy Hm ->. unfold DataGenerator.generate_orders.
    destruct (mapM_total
                (fun _ : nat => DataGenerator.generate_date_in_month entropy y m)
                (seq 0 (Z.to_nat count))) with (s := pos)
      as (drawn & s1 & Hdrawn).
    { intros x s _. by apply generate_date_in_month_ok. }
    rewrite (bind_run Hdrawn).
    destruct (positive_count_seq count Hcount) as [n ->].
    erewrite mapM_raise_first; [reflexivity |].
    unfold DataGenerator.generate_order. reflexivity.
Qed.

Example generate_orders_month_13 :
  fst (DataGenerator.generate_orders Sample.entropy [Sample.product]
         [Sample.customer] 2024 13 3 0%nat) = Raise ValueError /\
  DataGenerator.generate_orders Sample.entropy [Sample.product]
    [Sample.customer] 2024 13 (-1) 0%nat = (Ok [], 0%nat).
Proof. split; vm_compute; reflexivity. Qed.

(** ** Reading files *)

Section ReadFacts.
Import CSVHandler.

Lemma read_csv_missing (path : string) (skip : bool) (w : world) :
  files w !! path = None ->
  CSVReader.read_csv path skip w = (Raise OSError, w).
Proof.
  intros Hnone. unfold CSVReader.read_csv, CSVReader.file_exists, bind.
  rewrite Hnone. rewrite bool_decide_eq_false_2; [reflexivity |].
  intros [x Hx]. discriminate.
Qed.

Lemma read_csv_found (path : string) (skip : bool) (w : world) records :
  files w !! path = Some records ->
  CSVReader.read_csv path skip w =
  match faults w (ticks w) with
  | Some e => (Raise e, mkWorld (files w) (S (ticks w)) (faults w))
  | None => (Ok (if skip then drop 1 records else records),
             mkWorld (files w) (S (ticks w)) (faults w))
  end.
Proof.
  intros Hsome. unfold CSVReader.read_csv, CSVReader.file_exists, bind.
  rewrite Hsome. rewrite bool_decide_eq_true_2 by eauto. simpl.
  unfold CSVReader.read_all. rewrite Hsome.
  by destruct (faults w (ticks w)).
Qed.

Lemma fault_free_shift (w w' : world) (n k : nat) :
  faults w' = faults w -> ticks w' = (ticks w + k)%nat ->
  fault_free w (k + n) -> fault_free w' n.
Proof.
  intros Hf Ht Hfree j Hj. rewrite Hf, Ht.
  replace (ticks w + k + j)%nat with (ticks w + (k + j))%nat by lia.
  apply Hfree. lia.
Qed.

Lemma fault_free_weaken (w : world) (n k : nat) :
  (k <= n)%nat -> fault_free w n -> fault_free w k.
Proof. intros Hk Hfree j Hj. apply Hfree. lia. Qed.
End ReadFacts.

(** X12. What [write_csv] writes, [read_csv] reads back: on a disk where
    the operations of the write, its close included, and of the read do
    not fail, writing a
    header and rows to a path returns [True], and reading the path then
    gives the rows when the header is skipped and the header followed by
    the rows when it is not, the files being left as the write left
    them. *)
Theorem write_then_read (path : string) (headers : list string)
    (data : list (list string)) (w : CSVHandler.world) :
  CSVHandler.fault_free w (4 + length data + 1) ->
  exists w1 w2 : CSVHandler.world,
    CSVHandler.write_csv path headers data w = (Ok true, w1) /\
    CSVReader.read_csv path true w1 = (Ok data, w2) /\
    CSVReader.read_csv path false w1 = (Ok (headers :: data), w2) /\
    CSVHandler.files w2 = CSVHandler.files w1 /\
    CSVHandler.files w1 = <[path := headers :: data]> (CSVHandler.files w).
Proof.
  intros Hfree.
  assert (CSVHandler.fault_free w (4 + length data)) as Hwrite
    by (eapply fault_free_weaken; [| exact Hfree]; lia).
  pose proof (write_csv_ok path headers data w Hwrite) as Hrun.
  eexists _, (CSVHandler.mkWorld
                (<[path := headers :: data]> (CSVHandler.files w))
                (S (CSVHandler.ticks w + (4 + length data)))
                (CSVHandler.faults w)).
  split; [exact Hrun |].
  assert (CSVHandler.faults w (CSVHandler.ticks w + (4 + length data)) = None)
    as Hnext by (apply Hfree; lia).
  split; [| split; [| split; reflexivity]].
  - erewrite read_csv_found by (simpl; apply lookup_insert_eq).
    cbn [CSVHandler.faults CSVHandler.ticks CSVHandler.files].
    rewrite Hnext. reflexivity.
  - erewrite read_csv_found by (simpl; apply lookup_insert_eq).
    cbn [CSVHandler.faults CSVHandler.ticks CSVHandler.files].
    rewrite Hnext. reflexivity.
Qed.

Lemma write_then_read_witness :
  exists w1 w2 : CSVHandler.world,
    CSVHandler.write_csv Sample.orders_file ORDER_HEADERS Sample.order_rows
      Fixture.clean_disk = (Ok true, w1) /\
    CSVReader.read_csv Sample.orders_file true w1 = (Ok Sample.order_rows, w2).
Proof.
  destruct (write_then_read Sample.orders_file ORDER_HEADERS Sample.order_rows
              Fixture.clean_disk) as (w1 & w2 & Hw & Hr & _).
  - intros k _. reflexivity.
  - exists w1, w2. split; [exact Hw | exact Hr].
Defined.

(** X13. [read_csv] never changes a file. Of a path that is not on the disk
    it raises [FileNotFoundError] (an [OSError]) before any operation; of a
    file it gives the records, all but the first when the header is
    skipped, so that a file without records, or with a header alone, reads
    as the empty list. *)
Theorem read_csv_cases (path : string) (skip : bool) (w : CSVHandler.world) :
  (CSVHandler.files w !! path = None /\
   CSVReader.read_csv path skip w = (Raise OSError, w)) \/
  (exists (records : list (list string)) (w' : CSVHandler.world),
     CSVHandler.files w !! path = Some records /\
     CSVHandler.files w' = CSVHandler.files w /\
     ((exists e, CSVHandler.faults w (CSVHandler.ticks w) = Some e /\
                 CSVReader.read_csv path skip w = (Raise e, w')) \/
      (CSVHandler.faults w (CSVHandler.ticks w) = None /\
       CSVReader.read_csv path skip w =
         (Ok (if skip then drop 1 records else records), w') /\
       (skip = true -> (length records <= 1)%nat ->
        CSVReader.read_csv path skip w = (Ok [], w'))))).
Proof.
  destruct (CSVHandler.files w !! path) as [records |] eqn:Hfile.
  - right. exists records. eexists. split; [reflexivity |].
    rewrite (read_csv_found path skip w records Hfile).
    destruct (CSVHandler.faults w (CSVHandler.ticks w)) as [e |].
    + split; [| left; eauto]. reflexivity.
    + split; [reflexivity |]. right. split; [reflexivity |].
      split; [reflexivity |]. intros -> Hlen.
      by destruct records as [| r [| r' records]]; [| | simpl in Hlen; lia].
  - left. split; [reflexivity |]. by apply read_csv_missing.
Qed.

(** ** The product catalog *)

Section SessionFacts.
Lemma bind_bind {S A B C} (c : M S A) (k1 : A -> M S B) (k2 : B -> M S C) (s : S) :
  bind (bind c k1) k2 s = bind c (fun x => bind (k1 x) k2) s.
Proof. unfold bind. by destruct (c s) as [[a | e] s1]. Qed.

Lemma with_rng_run {A} (c : Rng A) (s : session) r p :
  c (rng_pos s) = (r, p) ->
  with_rng c s = (r, mkSession p (fake_pos s) (disk s)).
Proof. intros Hc. unfold with_rng. by rewrite Hc. Qed.

Lemma with_io_run {A} (c : CSVHandler.IO A) (s : session) r w :
  c (disk s) = (r, w) ->
  with_io c s = (r, mkSession (rng_pos s) (fake_pos s) w).
Proof. intros Hc. unfold with_io. by rewrite Hc. Qed.

Lemma file_exists_run (path : string) (s : session) :
  with_io (CSVReader.file_exists path) s =
  (Ok (bool_decide (is_Some (CSVHandler.files (disk s) !! path))), s).
Proof. unfold with_io, CSVReader.file_exists. by destruct s. Qed.
End SessionFacts.

Section ProductCatalogFacts.
Context {F : Type} `{PyFloat F}.
Variable entropy : nat -> Z.

Lemma product_from_row_run (row : list string) (pos : nat) :
  (2 <= length row)%nat ->
  exists p : Product.t F,
    Product.from_row entropy row pos = (Ok p, S (S pos)) /\
    Product.to_row p =
      take 14 (row ++ drop (length row) PRODUCT_FIELD_DEFAULTS).
Proof.
  intros Hlen. destruct row as [| r0 [| r1 rest]]; [simpl in Hlen; lia .. |].
  eexists. split.
  { unfold Product.from_row, bind, lift, ret, random_uniform, random_random,
      next_raw. simpl. reflexivity. }
  do 13 (destruct rest as [| ? rest]; [reflexivity |]). reflexivity.
Qed.

(** Reading rows into products: two draws a row. *)
Lemma products_from_rows (rows : list (list string)) (pos : nat) :
  Forall (fun row => (2 <= length row)%nat) rows ->
  exists ps : list (Product.t F),
    mapM (Product.from_row entropy) rows pos = (Ok ps, (pos + 2 * length rows)%nat) /\
    Forall2 (fun p row =>
               Product.to_row p =
               take 14 (row ++ drop (length row) PRODUCT_FIELD_DEFAULTS))
      ps rows.
Proof.
  revert pos. induction rows as [| row rows IH]; intros pos Hall.
  - exists []. split; [| constructor]. simpl. unfold ret. f_equal. lia.
  - apply Forall_cons in Hall as [Hrow Hall].
    destruct (product_from_row_run row pos Hrow) as (p & Hp & Hprow).
    destruct (IH (S (S pos)) Hall) as (ps & Hps & Hrows).
    exists (p :: ps). split; [| by constructor].
    rewrite mapM_cons_run, Hp, Hps. f_equal. simpl. lia.
Qed.

Lemma full_rows_come_back (ps : list (Product.t F)) (rows : list (list string)) :
  Forall (fun row => length row = 14%nat) rows ->
  Forall2 (fun p row =>
             Product.to_row p =
             take 14 (row ++ drop (length row) PRODUCT_FIELD_DEFAULTS))
    ps rows ->
  Product.to_row <$> ps = rows.
Proof.
  intros Hwidth Hrows. induction Hrows as [| p row ps rows Hp Hrows IH];
    [reflexivity |].
  apply Forall_cons in Hwidth as [Hrow Hwidth].
  rewrite fmap_cons, IH by done. f_equal. rewrite Hp, Hrow.
  rewrite take_app_le by lia. apply take_ge. lia.
Qed.

Lemma create_sample_products_run (pos : nat) :
  exists ps : list (Product.t F),
    Catalog.create_sample_products entropy pos = (Ok ps, (pos + 20)%nat) /\
    Product.to_row <$> ps = SAMPLE_PRODUCTS.
Proof.
  destruct (products_from_rows SAMPLE_PRODUCTS pos) as (ps & Hps & Hrows).
  { repeat constructor. }
  exists ps. split; [exact Hps |].
  apply full_rows_come_back; [repeat constructor | exact Hrows].
Qed.

Lemma nonempty_rows_products (ps : list (Product.t F)) (rows : list (list string)) :
  Product.to_row <$> ps = rows -> rows <> [] -> ps <> [].
Proof. intros <- Hne ->. by apply Hne. Qed.

(** The creating branch of [generate_products]. *)
Lemma generate_products_create (file : string) (force_new : bool) (s : session) :
  force_new = true \/ CSVHandler.files (disk s) !! file = None ->
  (CSVHandler.fault_free (disk s) 14 /\
   exists ps : list (Product.t F),
     Catalog.generate_products entropy file force_new s =
     (Ok ps,
      mkSession (rng_pos s + 20) (fake_pos s)
        (CSVHandler.mkWorld
           (<[file := PRODUCT_HEADERS :: SAMPLE_PRODUCTS]>
              (CSVHandler.files (disk s)))
           (CSVHandler.ticks (disk s) + 14) (CSVHandler.faults (disk s)))) /\
     Product.to_row <$> ps = SAMPLE_PRODUCTS) \/
  (~ CSVHandler.fault_free (disk s) 14 /\
   exists s', Catalog.generate_products (F := F) entropy file force_new s =
              (Raise OSError, s')).
Proof.
  intros Hcreate. unfold Catalog.generate_products.
  rewrite (bind_run (file_exists_run file s)). cbv beta.
  assert (force_new || negb (bool_decide
            (is_Some (CSVHandler.files (disk s) !! file))) = true) as ->.
  { destruct Hcreate as [-> | ->]; [reflexivity |].
    rewrite bool_decide_eq_false_2; [by rewrite orb_true_r |].
    intros [x Hx]. discriminate. }
  cbv beta iota.
  destruct (create_sample_products_run (rng_pos s)) as (ps & Hps & Hrows).
  rewrite bind_bind.
  rewrite (bind_run
    (with_rng_run (Catalog.create_sample_products entropy) s _ _ Hps)).
  rewrite bind_bind. cbv beta. rewrite Hrows.
  set (s1 := mkSession (rng_pos s + 20) (fake_pos s) (disk s)).
  destruct (write_csv_cases file PRODUCT_HEADERS SAMPLE_PRODUCTS (disk s))
    as [(Hfree & Hrun) | (k & w' & Hk & Hfirst & Hrun & _)];
    [| pose proof (first_fault_not_free _ _ _ Hfirst Hk) as Hfree].
  - left. split; [exact Hfree |]. exists ps. split; [| exact Hrows].
    rewrite (bind_run
      (with_io_run (CSVHandler.write_csv file PRODUCT_HEADERS SAMPLE_PRODUCTS)
         s1 _ _ Hrun)).
    simpl. destruct ps; [discriminate | reflexivity].
  - right. split; [exact Hfree |].
    rewrite (bind_run
      (with_io_run (CSVHandler.write_csv file PRODUCT_HEADERS SAMPLE_PRODUCTS)
         s1 _ _ Hrun)).
    simpl. eauto.
Qed.

(** The reading branch of [generate_products]. *)
Lemma generate_products_read (file : string) (s : session) records :
  CSVHandler.files (disk s) !! file = Some records ->
  CSVHandler.faults (disk s) (CSVHandler.ticks (disk s)) = None ->
  let rows := Catalog.rows_of_width 2 (drop 1 records) in
  let s' :=
    mkSession (rng_pos s + 2 * length rows) (fake_pos s)
      (CSVHandler.mkWorld (CSVHandler.files (disk s))
         (S (CSVHandler.ticks (disk s))) (CSVHandler.faults (disk s))) in
  (rows = [] /\
   Catalog.generate_products (F := F) entropy file false s = (Raise ValueError, s')) \/
  (rows <> [] /\
   exists ps : list (Product.t F),
     Catalog.generate_products entropy file false s = (Ok ps, s') /\
     Forall2 (fun p row =>
                Product.to_row p =
                take 14 (row ++ drop (length row) PRODUCT_FIELD_DEFAULTS))
       ps rows).
Proof.
  intros Hfile Hnow rows s'. unfold Catalog.generate_products.
  rewrite (bind_run (file_exists_run file s)).
  rewrite bool_decide_eq_true_2 by eauto. simpl orb. cbv iota.
  pose proof (read_csv_found file true (disk s) records Hfile) as Hread.
  rewrite Hnow in Hread.
  rewrite bind_bind.
  rewrite (bind_run (with_io_run (CSVReader.read_csv file true) _ _ _ Hread)).
  destruct (products_from_rows rows (rng_pos s)) as (ps & Hps & Hrows).
  { apply Forall_forall. intros row Hrow.
    apply list_elem_of_filter in Hrow as [Hrow _]. exact Hrow. }
  fold rows.
  set (s1 := mkSession (rng_pos s) (fake_pos s)
               (CSVHandler.mkWorld (CSVHandler.files (disk s))
                  (S (CSVHandler.ticks (disk s))) (CSVHandler.faults (disk s)))).
  assert (with_rng (mapM (Product.from_row entropy) rows) s1 = (Ok ps, s'))
    as Hload
    by (apply (with_rng_run (mapM (Product.from_row entropy) rows) s1 _ _ Hps)).
  rewrite (bind_run Hload).
  destruct ps as [| p ps].
  - left. apply Forall2_nil_inv_l in Hrows. split; [exact Hrows | reflexivity].
  - right. split.
    + intros Hnil. rewrite Hnil in Hrows. by apply Forall2_nil_inv_r in Hrows.
    + exists (p :: ps). split; [reflexivity | exact Hrows].
Qed.
End ProductCatalogFacts.

(** X14. When a new catalog is forced or the products file is not on the
    disk, [generate_products] builds the ten sample products, spending
    twenty draws on their price bands, and writes them: if none of the 14
    operations of the write (the close is the last) fails it returns the ten products, whose rows
    are the sample rows, and the file holds the header and the ten sample
    rows; if one fails it raises [IOError] (an [OSError]) and returns no
    product. *)
Theorem products_catalog_created {F : Type} `{PyFloat F} (entropy : nat -> Z)
    (file : string) (force_new : bool) (s : session) :
  force_new = true \/ CSVHandler.files (disk s) !! file = None ->
  (CSVHandler.fault_free (disk s) 14 ->
   exists (ps : list (Product.t F)) (s' : session),
     Catalog.generate_products entropy file force_new s = (Ok ps, s') /\
     Product.to_row <$> ps = SAMPLE_PRODUCTS /\
     length ps = 10%nat /\
     CSVHandler.files (disk s') =
       <[file := PRODUCT_HEADERS :: SAMPLE_PRODUCTS]> (CSVHandler.files (disk s)) /\
     rng_pos s' = (rng_pos s + 20)%nat) /\
  (~ CSVHandler.fault_free (disk s) 14 ->
   exists s' : session,
     Catalog.generate_products (F := F) entropy file force_new s
       = (Raise OSError, s')).
Proof.
  intros Hcreate.
  destruct (generate_products_create (F := F) entropy file force_new s Hcreate)
    as [(Hfree & ps & Hrun & Hrows) | (Hbad & s' & Hrun)].
  - split; [| done]. intros _. eexists ps, _. split; [exact Hrun |].
    split; [exact Hrows |]. split; [| split; reflexivity].
    by rewrite <- (length_fmap Product.to_row), Hrows.
  - split; [done |]. intros _. eauto.
Qed.

Lemma products_catalog_created_witness :
  exists (ps : list (Product.t Q)) (s' : session),
    Catalog.generate_products Sample.entropy PRODUCTS_FILE true Fixture.start
      = (Ok ps, s') /\
    Product.to_row <$> ps = SAMPLE_PRODUCTS.
Proof.
  destruct (products_catalog_created (F := Q) Sample.entropy PRODUCTS_FILE true
              Fixture.start) as [Hok _]; [by left |].
  destruct Hok as (ps & s' & Hrun & Hrows & _); [intros k _; reflexivity |].
  exists ps, s'. split; [exact Hrun | exact Hrows].
Defined.

(** X15. When no new catalog is asked for and the products file is on the
    disk, [generate_products] reads it and leaves every file as it is: it
    skips the header and the rows of fewer than 2 cells, builds a product
    from each other row, the missing cells at their defaults, two draws a
    row; when no row is left, a file that is empty or holds a header alone
    for one, it raises [ValueError]. *)
Theorem products_catalog_read {F : Type} `{PyFloat F} (entropy : nat -> Z)
    (file : string) (s : session) (records : list (list string)) :
  CSVHandler.files (disk s) !! file = Some records ->
  CSVHandler.faults (disk s) (CSVHandler.ticks (disk s)) = None ->
  let rows := Catalog.rows_of_width 2 (drop 1 records) in
  exists s' : session,
    CSVHandler.files (disk s') = CSVHandler.files (disk s) /\
    rng_pos s' = (rng_pos s + 2 * length rows)%nat /\
    ((rows = [] /\
      Catalog.generate_products (F := F) entropy file false s
        = (Raise ValueError, s')) \/
     (rows <> [] /\
      exists ps : list (Product.t F),
        Catalog.generate_products entropy file false s = (Ok ps, s') /\
        Forall2 (fun p row =>
                   Product.to_row p =
                   take 14 (row ++ drop (length row) PRODUCT_FIELD_DEFAULTS))
          ps rows)).
Proof.
  intros Hfile Hnow rows.
  destruct (generate_products_read (F := F) entropy file s records Hfile Hnow)
    as [Hnone | Hsome]; eexists; (split; [| split]);
    try (left; exact Hnone); try (right; exact Hsome); reflexivity.
Qed.

Lemma products_catalog_read_witness :
  exists s' : session,
    Catalog.generate_products (F := Q) Sample.entropy PRODUCTS_FILE false
      (mkSession 0 0
         (CSVHandler.mkWorld {[ PRODUCTS_FILE := [PRODUCT_HEADERS] ]} 0
            (fun _ => None)))
      = (Raise ValueError, s').
Proof.
  destruct (products_catalog_read (F := Q) Sample.entropy PRODUCTS_FILE
              (mkSession 0 0
                 (CSVHandler.mkWorld {[ PRODUCTS_FILE := [PRODUCT_HEADERS] ]} 0
                    (fun _ => None)))
              [PRODUCT_HEADERS])
    as (s' & _ & _ & [(_ & Hrun) | (Hne & _)]).
  - reflexivity.
  - reflexivity.
  - exists s'. exact Hrun.
  - exfalso. by apply Hne.
Defined.

(** X16. A catalog that [generate_products] has created is read back by a
    second call that does not force a new one: the second call returns
    products with the same rows as the first, the price bands alone being
    drawn anew, and leaves the file as the first call wrote it. *)
Theorem products_catalog_reloaded {F : Type} `{PyFloat F} (entropy : nat -> Z)
    (file : string) (force_new : bool) (s : session) :
  force_new = true \/ CSVHandler.files (disk s) !! file = None ->
  CSVHandler.fault_free (disk s) 15 ->
  exists (ps ps' : list (Product.t F)) (s1 s2 : session),
    Catalog.generate_products entropy file force_new s = (Ok ps, s1) /\
    Catalog.generate_products entropy file false s1 = (Ok ps', s2) /\
    Product.to_row <$> ps' = Product.to_row <$> ps /\
    CSVHandler.files (disk s2) = CSVHandler.files (disk s1) /\
    CSVHandler.files (disk s1) !! file = Some (PRODUCT_HEADERS :: SAMPLE_PRODUCTS).
Proof.
  intros Hcreate Hfree.
  destruct (generate_products_create (F := F) entropy file force_new s Hcreate)
    as [(_ & ps & Hrun & Hrows) | (Hbad & _)].
  2: { destruct Hbad. intros k Hk. apply Hfree. lia. }
  set (s1 := mkSession (rng_pos s + 20) (fake_pos s)
               (CSVHandler.mkWorld
                  (<[file := PRODUCT_HEADERS :: SAMPLE_PRODUCTS]>
                     (CSVHandler.files (disk s)))
                  (CSVHandler.ticks (disk s) + 14)
                  (CSVHandler.faults (disk s)))) in *.
  destruct (generate_products_read (F := F) entropy file s1
              (PRODUCT_HEADERS :: SAMPLE_PRODUCTS))
    as [(Hnone & _) | (_ & ps' & Hrun' & Hrows')].
  - simpl. apply lookup_insert_eq.
  - simpl. apply Hfree. lia.
  - discriminate Hnone.
  - exists ps, ps'. eexists s1, _. split; [exact Hrun |].
    split; [exact Hrun' |]. split; [| split].
    + rewrite Hrows. apply full_rows_come_back; [| exact Hrows'].
      repeat constructor.
    + reflexivity.
    + simpl. apply lookup_insert_eq.
Qed.

Lemma products_catalog_reloaded_witness :
  exists (ps ps' : list (Product.t Q)) (s1 s2 : session),
    Catalog.generate_products Sample.entropy PRODUCTS_FILE true Fixture.start
      = (Ok ps, s1) /\
    Catalog.generate_products Sample.entropy PRODUCTS_FILE false s1 = (Ok ps', s2) /\
    Product.to_row <$> ps' = Product.to_row <$> ps.
Proof.
  destruct (products_catalog_reloaded (F := Q) Sample.entropy PRODUCTS_FILE true
              Fixture.start) as (ps & ps' & s1 & s2 & H1 & H2 & Hrows & _).
  - by left.
  - intros k _. reflexivity.
  - exists ps, ps', s1, s2. repeat split; assumption.
Defined.

(** ** The customer catalog *)

Lemma zrange_length (a b : Z) : length (zrange a b) = Z.to_nat (b - a).
Proof. unfold zrange. by rewrite length_fmap, length_seq. Qed.

Lemma zrange_lookup (a b : Z) (i : nat) (x : Z) :
  zrange a b !! i = Some x <-> x = a + Z.of_nat i /\ (i < Z.to_nat (b - a))%nat.
Proof.
  unfold zrange. rewrite list_lookup_fmap. split.
  - destruct (seq 0 (Z.to_nat (b - a)) !! i) as [k |] eqn:Hk; [| discriminate].
    apply lookup_seq in Hk as [-> Hlt]. simpl. intros [= <-]. auto.
  - intros [-> Hlt]. by rewrite lookup_seq_lt.
Qed.

Lemma zrange_elem (a b x : Z) : x ∈ zrange a b <-> a <= x < b.
Proof.
  rewrite list_elem_of_lookup. split.
  - intros [i Hi]. apply zrange_lookup in Hi. lia.
  - intros Hx. exists (Z.to_nat (x - a)). apply zrange_lookup. lia.
Qed.

Lemma zrange_cons (a b : Z) : a < b -> zrange a b = a :: zrange (a + 1) b.
Proof.
  intros Hab. unfold zrange.
  replace (Z.to_nat (b - a)) with (S (Z.to_nat (b - (a + 1)))) by lia.
  simpl. f_equal; [lia |].
  rewrite <- fmap_S_seq, <- list_fmap_compose.
  apply list_fmap_ext. intros _ k _. simpl. lia.
Qed.

Lemma zrange_nil (a b : Z) : b <= a -> zrange a b = [].
Proof. intros Hab. unfold zrange. by replace (Z.to_nat (b - a)) with O by lia. Qed.

Lemma zrange_NoDup (a b : Z) : NoDup (zrange a b).
Proof.
  apply NoDup_alt. intros i j x Hi Hj.
  apply zrange_lookup in Hi. apply zrange_lookup in Hj. lia.
Qed.

Lemma bind_ret {S A B} (a : A) (k : A -> M S B) (s : S) :
  bind (ret a) k s = k a s.
Proof. reflexivity. Qed.

Lemma foldM_cons {S A B} (f : B -> A -> M S B) x xs acc :
  foldM f (x :: xs) acc = bind (f acc x) (fun acc' => foldM f xs acc').
Proof. reflexivity. Qed.

Section CustomerCreationFacts.
Context {F : Type} `{PyFloat F}.
Variable entropy : nat -> Z.
Variable faker : nat -> string.

Lemma fake_run (s : session) :
  Catalog.fake faker s =
  (Ok (faker (fake_pos s)), mkSession (rng_pos s) (S (fake_pos s)) (disk s)).
Proof. reflexivity. Qed.

Lemma add_sequences_run (js : list Z) :
  forall (c : Customer.t) (s : session),
  exists sqs : list Sequence.t,
    numbered_from js sqs /\
    foldM (fun c j =>
             let* sequence_desc :=
               with_rng (random_choice entropy (Catalog.sequence_descriptions j)) in
             ret (Customer.add_sequence c j sequence_desc))
      js c s =
    (Ok (Customer.mk (Customer.customer_id c) (Customer.name c)
           (Customer.address c) (Customer.city c) (Customer.state c)
           (Customer.zip_code c) (Customer.contact_name c) (Customer.phone c)
           (Customer.email c) (Customer.sequences c ++ sqs)),
     mkSession (rng_pos s + length js) (fake_pos s) (disk s)).
Proof.
  induction js as [| j js IH]; intros c s.
  - exists []. split; [constructor |]. simpl. unfold ret.
    rewrite app_nil_r, Nat.add_0_r. by destruct c, s.
  - destruct (random_choice_ok entropy (Catalog.sequence_descriptions j)
                (rng_pos s)) as (desc & Hdesc & Hdraw); [discriminate |].
    rewrite foldM_cons, bind_bind.
    rewrite (bind_run
      (with_rng_run (random_choice entropy (Catalog.sequence_descriptions j))
         s _ _ Hdraw)).
    cbv beta. rewrite bind_ret.
    destruct (IH (Customer.add_sequence c j desc)
                (mkSession (S (rng_pos s)) (fake_pos s) (disk s)))
      as (sqs & Hsqs & ->).
    exists (Sequence.mk j desc :: sqs). split.
    + constructor; [split; [reflexivity | exact Hdesc] | exact Hsqs].
    + simpl. rewrite <- app_assoc. simpl. do 2 f_equal. lia.
Qed.

Lemma create_sample_customer_run (i : Z) (s : session) :
  exists (c : Customer.t) (k : Z),
    1 <= k <= 5 /\
    Catalog.create_sample_customer entropy faker i s =
    (Ok c, mkSession (rng_pos s + 1 + Z.to_nat k) (fake_pos s + 8) (disk s)) /\
    Customer.customer_id c = "CUST" +:+ format_0d 4 i /\
    numbered_from (zrange 1 (k + 1)) (Customer.sequences c).
Proof.
  unfold Catalog.create_sample_customer.
  do 8 (rewrite (bind_run (fake_run _)); cbv beta).
  cbn [rng_pos fake_pos disk].
  destruct (random_randint_ok entropy 1 5 (rng_pos s)) as (k & Hk & Hdraw);
    [lia |].
  set (s8 := mkSession (rng_pos s) (S (S (S (S (S (S (S (S (fake_pos s)))))))))
               (disk s)).
  rewrite (bind_run (with_rng_run (random_randint entropy 1 5) s8 _ _ Hdraw)).
  match goal with
  | |- context [foldM _ _ ?c0 ?s0] =>
      destruct (add_sequences_run (zrange 1 (k + 1)) c0 s0) as (sqs & Hsqs & ->)
  end.
  eexists _, k. split; [exact Hk |]. split.
  { f_equal. subst s8. cbn [rng_pos fake_pos disk]. rewrite zrange_length.
    f_equal; lia. }
  split; [reflexivity | exact Hsqs].
Qed.
End CustomerCreationFacts.

Section CustomerBatchFacts.
Context {F : Type} `{PyFloat F}.
Variable entropy : nat -> Z.
Variable faker : nat -> string.

Lemma well_sequenced_nonempty (c : Customer.t) :
  well_sequenced c ->
  Customer.sequences c <> [] /\ (1 <= length (Customer.sequences c) <= 5)%nat.
Proof.
  intros (k & Hk & Hnum). apply Forall2_length in Hnum.
  rewrite zrange_length in Hnum.
  split; [| lia]. intros Hnil. rewrite Hnil in Hnum. simpl in Hnum. lia.
Qed.

Lemma create_customers_over (indices : list Z) (s : session) :
  exists (cs : list Customer.t) (s' : session),
    mapM (Catalog.create_sample_customer entropy faker) indices s = (Ok cs, s') /\
    disk s' = disk s /\
    Forall2 (fun c i => Customer.customer_id c = "CUST" +:+ format_0d 4 i /\
                        well_sequenced c) cs indices.
Proof.
  revert s. induction indices as [| i indices IH]; intros s.
  - exists [], s. split; [reflexivity |]. split; [reflexivity | constructor].
  - destruct (create_sample_customer_run entropy faker i s)
      as (c & k & Hk & Hrun & Hid & Hnum).
    destruct (IH (mkSession (rng_pos s + 1 + Z.to_nat k) (fake_pos s + 8) (disk s)))
      as (cs & s' & Hcs & Hdisk & Hall).
    exists (c :: cs), s'. split; [| split].
    + by rewrite mapM_cons_run, Hrun, Hcs.
    + exact Hdisk.
    + constructor; [| exact Hall]. split; [exact Hid |]. by exists k.
Qed.

Lemma create_sample_customers_run (n : Z) (s : session) :
  exists (cs : list Customer.t) (s' : session),
    Catalog.create_sample_customers entropy faker n s = (Ok cs, s') /\
    disk s' = disk s /\
    Forall2 (fun c i => Customer.customer_id c = "CUST" +:+ format_0d 4 i /\
                        well_sequenced c) cs (zrange 1 (n + 1)).
Proof. apply create_customers_over. Qed.

(** What [generate_customers] returns, by either branch. *)
Lemma generate_customers_inv (customers_file sequences_file : string)
    (n : Z) (force_new : bool) (s : session) cs s' :
  Catalog.generate_customers (F := F) entropy faker customers_file sequences_file
    n force_new s = (Ok cs, s') ->
  cs <> [] /\ Forall (fun c => Customer.sequences c <> []) cs.
Proof.
  unfold Catalog.generate_customers. intros Hrun.
  apply bind_Ok_inv in Hrun as (fc & s1 & _ & Hrun).
  apply bind_Ok_inv in Hrun as (fs & s2 & _ & Hrun).
  apply bind_Ok_inv in Hrun as (customers & s3 & Hmade & Hrun).
  assert (Forall (fun c => Customer.sequences c <> []) customers) as Hall.
  { destruct (force_new || negb fc || negb fs).
    - apply bind_Ok_inv in Hmade as (made & s4 & Hmade & Hrest).
      destruct (create_sample_customers_run n s2) as (cs0 & s5 & Hcs0 & _ & Hseq).
      rewrite Hcs0 in Hmade. injection Hmade as <- _.
      apply bind_Ok_inv in Hrest as (ok1 & s6 & _ & Hrest).
      apply bind_Ok_inv in Hrest as (ok2 & s7 & _ & Hrest).
      destruct (negb ok1 || negb ok2); [discriminate |].
      apply ret_Ok_inv in Hrest as [-> _].
      apply Forall_forall. intros c Hc.
      apply list_elem_of_lookup in Hc as [i Hc].
      destruct (Forall2_lookup_l _ _ _ _ _ Hseq Hc) as (j & _ & _ & Hws).
      by apply well_sequenced_nonempty in Hws as [Hne _].
    - apply bind_Ok_inv in Hmade as (rows & s4 & _ & Hrest).
      apply bind_Ok_inv in Hrest as (d1 & s5 & _ & Hrest).
      apply bind_Ok_inv in Hrest as (srows & s6 & _ & Hrest).
      apply bind_Ok_inv in Hrest as (d2 & s7 & _ & Hrest).
      apply ret_Ok_inv in Hrest as [-> _].
      apply Forall_forall. intros c Hc.
      apply list_elem_of_filter in Hc as [Hc _].
      unfold Customer.has_sequences in Hc.
      intros Hnil. rewrite Hnil in Hc. discriminate. }
  destruct customers as [| c customers]; [discriminate |].
  apply ret_Ok_inv in Hrun as [-> _]. split; [discriminate | exact Hall].
Qed.
End CustomerBatchFacts.

(** X17. [_create_sample_customers] returns for every count: it gives
    max(count, 0) customers, the customer at index i bearing the id
    CUST{i+1:04d}, so that the ids are pairwise distinct, and each customer
    has between 1 and 5 sequences, numbered from 1 in order, each with one
    of the six descriptions of its number; it touches no file. *)
Theorem sample_customers_numbered {F : Type} `{PyFloat F} (entropy : nat -> Z)
    (faker : nat -> string) (n : Z) (s : session) :
  exists (cs : list Customer.t) (s' : session),
    Catalog.create_sample_customers entropy faker n s = (Ok cs, s') /\
    disk s' = disk s /\
    length cs = Z.to_nat n /\
    (forall i c, cs !! i = Some c ->
       Customer.customer_id c = "CUST" +:+ format_0d 4 (Z.of_nat i + 1) /\
       (1 <= length (Customer.sequences c) <= 5)%nat /\
       Sequence.seq_id <$> Customer.sequences c =
         zrange 1 (Z.of_nat (length (Customer.sequences c)) + 1) /\
       Forall (fun sq => Sequence.description sq ∈
                         Catalog.sequence_descriptions (Sequence.seq_id sq))
         (Customer.sequences c)) /\
    NoDup (Customer.customer_id <$> cs).
Proof.
  destruct (create_sample_customers_run entropy faker n s)
    as (cs & s' & Hrun & Hdisk & Hall).
  exists cs, s'. split; [exact Hrun |]. split; [exact Hdisk |].
  assert (length cs = Z.to_nat n) as Hlen.
  { apply Forall2_length in Hall. rewrite zrange_length in Hall.
    rewrite Hall. f_equal. lia. }
  assert (forall i c, cs !! i = Some c ->
            Customer.customer_id c = "CUST" +:+ format_0d 4 (Z.of_nat i + 1) /\
            well_sequenced c) as Heach.
  { intros i c Hc.
    destruct (Forall2_lookup_l _ _ _ _ _ Hall Hc) as (j & Hj & Hid & Hws).
    apply zrange_lookup in Hj as [-> _].
    split; [| exact Hws]. rewrite Hid. do 2 f_equal. lia. }
  split; [exact Hlen |]. split.
  - intros i c Hc. destruct (Heach i c Hc) as (Hid & Hws).
    split; [exact Hid |].
    destruct (well_sequenced_nonempty c Hws) as [_ Hcount].
    split; [exact Hcount |].
    destruct Hws as (k & Hk & Hnum).
    assert (Z.of_nat (length (Customer.sequences c)) = k) as ->.
    { apply Forall2_length in Hnum. rewrite zrange_length in Hnum. lia. }
    split.
    + apply list_eq. intros idx. rewrite list_lookup_fmap.
      destruct (Customer.sequences c !! idx) as [sq |] eqn:Hsq; simpl.
      * destruct (Forall2_lookup_l _ _ _ _ _ Hnum Hsq) as (j & Hj & -> & _).
        by rewrite Hj.
      * symmetry. apply lookup_ge_None. apply lookup_ge_None in Hsq.
        apply Forall2_length in Hnum. lia.
    + apply Forall_forall. intros sq Hsq.
      apply list_elem_of_lookup in Hsq as [idx Hsq].
      by destruct (Forall2_lookup_l _ _ _ _ _ Hnum Hsq) as (j & _ & -> & Hd).
  - apply NoDup_alt. intros i j id Hi Hj.
    rewrite list_lookup_fmap in Hi, Hj.
    destruct (cs !! i) as [ci |] eqn:Hci; [| discriminate].
    destruct (cs !! j) as [cj |] eqn:Hcj; [| discriminate].
    simpl in Hi, Hj. injection Hi as Hi. injection Hj as Hj.
    destruct (Heach i ci Hci) as [Hidi _]. destruct (Heach j cj Hcj) as [Hidj _].
    rewrite Hidi in Hi. rewrite Hidj in Hj. rewrite <- Hj in Hi.
    apply append_cancel_l in Hi. apply format_0d_inj in Hi; lia.
Qed.

(** X18. Whatever [generate_customers] returns, from new customers or from
    the two files, is a list that is not empty and whose customers all have
    at least one sequence: what [generate_orders] needs of its customers. *)
Theorem generated_customers_have_sequences {F : Type} `{PyFloat F}
    (entropy : nat -> Z) (faker : nat -> string)
    (customers_file sequences_file : string) (n : Z) (force_new : bool)
    (s s' : session) (cs : list Customer.t) :
  Catalog.generate_customers (F := F) entropy faker customers_file sequences_file
    n force_new s = (Ok cs, s') ->
  cs <> [] /\
  Forall (fun c => Customer.sequences c <> []) cs /\
  Forall (fun c => Customer.has_sequences c = true) cs.
Proof.
  intros Hrun. apply generate_customers_inv in Hrun as [Hne Hall].
  split; [exact Hne |]. split; [exact Hall |].
  eapply Forall_impl; [exact Hall |]. intros c Hc. simpl in Hc.
  unfold Customer.has_sequences.
  destruct (Customer.sequences c); [congruence | reflexivity].
Qed.

Lemma generated_customers_have_sequences_witness :
  exists (cs : list Customer.t) (s' : session),
    Catalog.generate_customers (F := Q) Sample.entropy Fixture.faker
      CUSTOMERS_FILE SEQUENCES_FILE 2 true Fixture.start = (Ok cs, s') /\
    cs <> [] /\
    Forall (fun c => Customer.sequences c <> []) cs.
Proof.
  assert (exists cs s',
            Catalog.generate_customers (F := Q) Sample.entropy Fixture.faker
              CUSTOMERS_FILE SEQUENCES_FILE 2 true Fixture.start = (Ok cs, s'))
    as (cs & s' & Hrun) by (vm_compute; eauto).
  exists cs, s'. split; [exact Hrun |].
  destruct (generated_customers_have_sequences (F := Q) Sample.entropy
              Fixture.faker CUSTOMERS_FILE SEQUENCES_FILE 2 true Fixture.start
              s' cs Hrun) as (Hne & Hall & _).
  split; [exact Hne | exact Hall].
Defined.

(** ** Runs on a disk that does not fail *)

Section ReliableDisk.
Import CSVHandler.

Lemma reliable_fault_free (w : world) (n : nat) :
  (forall t, faults w t = None) -> fault_free w n.
Proof. intros Hnone k _. apply Hnone. Qed.

Lemma with_io_inv {A} (c : IO A) (s : session) r s' :
  with_io c s = (r, s') ->
  exists w, c (disk s) = (r, w) /\ s' = mkSession (rng_pos s) (fake_pos s) w.
Proof.
  unfold with_io. destruct (c (disk s)) as [r0 w]. intros [= <- <-]. eauto.
Qed.

Lemma with_rng_inv {A} (c : Rng A) (s : session) r s' :
  with_rng c s = (r, s') ->
  exists p, c (rng_pos s) = (r, p) /\ s' = mkSession p (fake_pos s) (disk s).
Proof.
  unfold with_rng. destruct (c (rng_pos s)) as [r0 p]. intros [= <- <-]. eauto.
Qed.

(** A write that returns [True] has put the header and the rows in place. *)
Lemma write_csv_true (path : string) (headers : list string)
    (data : list (list string)) (w w' : world) :
  write_csv path headers data w = (Ok true, w') ->
  files w' = <[path := headers :: data]> (files w) /\ faults w' = faults w.
Proof.
  intros Hrun.
  destruct (write_csv_cases path headers data w)
    as [(_ & Hok) | (k & w'' & _ & _ & Hbad & _)].
  - rewrite Hok in Hrun. injection Hrun as <-. split; reflexivity.
  - rewrite Hbad in Hrun. discriminate.
Qed.

(** On a disk that does not fail a write succeeds, and the disk still
    does not fail. *)
Lemma write_csv_reliable (path : string) (headers : list string)
    (data : list (list string)) (w : world) :
  (forall t, faults w t = None) ->
  exists w',
    write_csv path headers data w = (Ok true, w') /\
    files w' = <[path := headers :: data]> (files w) /\
    (forall t, faults w' t = None).
Proof.
  intros Hnone.
  pose proof (write_csv_ok path headers data w (reliable_fault_free w _ Hnone))
    as Hrun.
  eexists. split; [exact Hrun |]. split; [reflexivity | exact Hnone].
Qed.
End ReliableDisk.

Section ReliableCatalog.
Context {F : Type} `{PyFloat F}.
Variable entropy : nat -> Z.
Variable faker : nat -> string.

(** The creating branch of [generate_customers] on a disk that does not
    fail. *)
Lemma generate_customers_create (customers_file sequences_file : string)
    (n : Z) (force_new : bool) (s : session) :
  force_new = true \/
  CSVHandler.files (disk s) !! customers_file = None \/
  CSVHandler.files (disk s) !! sequences_file = None ->
  (forall t, CSVHandler.faults (disk s) t = None) ->
  0 < n ->
  exists (cs : list Customer.t) (s' : session),
    Catalog.generate_customers (F := F) entropy faker customers_file
      sequences_file n force_new s = (Ok cs, s') /\
    Catalog.create_sample_customers entropy faker n s =
      (Ok cs, mkSession (rng_pos s') (fake_pos s') (disk s)) /\
    CSVHandler.files (disk s') =
      <[sequences_file := SEQUENCE_HEADERS :: Catalog.sequence_rows_of cs]>
        (<[customers_file := CUSTOMER_HEADERS :: (Customer.to_row <$> cs)]>
           (CSVHandler.files (disk s))) /\
    (forall t, CSVHandler.faults (disk s') t = None).
Proof.
  intros Hcreate Hnone Hn. unfold Catalog.generate_customers.
  rewrite (bind_run (file_exists_run customers_file s)). cbv beta.
  rewrite (bind_run (file_exists_run sequences_file s)). cbv beta.
  assert (force_new
          || negb (bool_decide
                     (is_Some (CSVHandler.files (disk s) !! customers_file)))
          || negb (bool_decide
                     (is_Some (CSVHandler.files (disk s) !! sequences_file)))
          = true) as ->.
  { destruct Hcreate as [-> | [Hc | Hq]]; [reflexivity | |].
    - rewrite Hc, bool_decide_eq_false_2 by (intros [x Hx]; discriminate).
      by rewrite orb_true_r.
    - rewrite Hq, (bool_decide_eq_false_2 (is_Some None))
        by (intros [x Hx]; discriminate).
      by rewrite orb_true_r. }
  cbv beta iota.
  destruct (create_sample_customers_run entropy faker n s)
    as (cs & s1 & Hcs & Hdisk & Hall).
  rewrite bind_bind. rewrite (bind_run Hcs). cbv beta.
  destruct (write_csv_reliable customers_file CUSTOMER_HEADERS
              (Customer.to_row <$> cs) (disk s1))
    as (w2 & Hw2 & Hfiles2 & Hnone2); [by rewrite Hdisk |].
  rewrite bind_bind.
  rewrite (bind_run (with_io_run _ s1 _ _ Hw2)). cbv beta.
  set (s2 := mkSession (rng_pos s1) (fake_pos s1) w2).
  destruct (write_csv_reliable sequences_file SEQUENCE_HEADERS
              (Catalog.sequence_rows_of cs) (disk s2))
    as (w3 & Hw3 & Hfiles3 & Hnone3); [exact Hnone2 |].
  rewrite bind_bind.
  rewrite (bind_run (with_io_run _ s2 _ _ Hw3)). cbv beta.
  simpl negb. simpl orb. cbv iota. rewrite bind_ret.
  assert (cs <> []) as Hne.
  { apply Forall2_length in Hall. rewrite zrange_length in Hall.
    intros ->. simpl in Hall. lia. }
  destruct cs as [| c cs]; [done |].
  eexists (c :: cs), _. split; [reflexivity |].
  cbn [rng_pos fake_pos disk]. split; [| split].
  - rewrite Hcs. f_equal. destruct s1 as [p q d]. simpl in *. by subst d.
  - rewrite Hfiles3. subst s2. cbn [disk]. by rewrite Hfiles2, Hdisk.
  - exact Hnone3.
Qed.
End ReliableCatalog.

(** X19. When new customers are forced or one of the two files is not on
    the disk, on a disk that does not fail and for a positive count,
    [generate_customers] returns the customers [_create_sample_customers]
    makes, as many as asked for, and has written two files: the customers
    file holds the header and one row a customer, the sequences file the
    header and, customer after customer, one row a sequence (customer id,
    sequence number, description). *)
Theorem customers_catalog_created {F : Type} `{PyFloat F} (entropy : nat -> Z)
    (faker : nat -> string) (customers_file sequences_file : string)
    (n : Z) (force_new : bool) (s : session) :
  force_new = true \/
  CSVHandler.files (disk s) !! customers_file = None \/
  CSVHandler.files (disk s) !! sequences_file = None ->
  (forall t, CSVHandler.faults (disk s) t = None) ->
  0 < n ->
  exists (cs : list Customer.t) (s' : session),
    Catalog.generate_customers (F := F) entropy faker customers_file
      sequences_file n force_new s = (Ok cs, s') /\
    fst (Catalog.create_sample_customers entropy faker n s) = Ok cs /\
    length cs = Z.to_nat n /\
    CSVHandler.files (disk s') =
      <[sequences_file := SEQUENCE_HEADERS :: Catalog.sequence_rows_of cs]>
        (<[customers_file := CUSTOMER_HEADERS :: (Customer.to_row <$> cs)]>
           (CSVHandler.files (disk s))).
Proof.
  intros Hcreate Hnone Hn.
  destruct (generate_customers_create (F := F) entropy faker customers_file
              sequences_file n force_new s Hcreate Hnone Hn)
    as (cs & s' & Hrun & Hmade & Hfiles & _).
  exists cs, s'. split; [exact Hrun |]. split; [by rewrite Hmade |].
  split; [| exact Hfiles].
  destruct (create_sample_customers_run entropy faker n s)
    as (cs0 & s0 & Hcs0 & _ & Hall).
  rewrite Hcs0 in Hmade. injection Hmade as -> _.
  apply Forall2_length in Hall. rewrite zrange_length in Hall.
  rewrite Hall. f_equal. lia.
Qed.

Lemma customers_catalog_created_witness :
  exists (cs : list Customer.t) (s' : session),
    Catalog.generate_customers (F := Q) Sample.entropy Fixture.faker
      CUSTOMERS_FILE SEQUENCES_FILE 3 true Fixture.start = (Ok cs, s') /\
    length cs = 3%nat /\
    CSVHandler.files (disk s') !! CUSTOMERS_FILE =
      Some (CUSTOMER_HEADERS :: (Customer.to_row <$> cs)).
Proof.
  destruct (customers_catalog_created (F := Q) Sample.entropy Fixture.faker
              CUSTOMERS_FILE SEQUENCES_FILE 3 true Fixture.start)
    as (cs & s' & Hrun & _ & Hlen & Hfiles).
  - by left.
  - intros t. reflexivity.
  - lia.
  - exists cs, s'. split; [exact Hrun |]. split; [exact Hlen |].
    rewrite Hfiles. rewrite lookup_insert_ne by (vm_compute; discriminate).
    apply lookup_insert_eq.
Defined.

Section MonthlyFacts.
Context {F : Type} `{PyFloat F}.
Variable entropy : nat -> Z.
Variable faker : nat -> string.

Lemma order_rows_width (orders : list (Order.t F)) :
  Forall (fun row => length row = 22%nat) (ReportGenerator.order_rows orders).
Proof.
  unfold ReportGenerator.order_rows. apply Forall_fmap, Forall_forall.
  intros o _. reflexivity.
Qed.

Lemma try_except_inv {S A} (c : M S A) (h : exn -> M S A) (s : S) r s' :
  try_except c h s = (r, s') ->
  (exists a, c s = (Ok a, s') /\ r = Ok a) \/
  (exists e s1, c s = (Raise e, s1) /\ h e s1 = (r, s')).
Proof.
  unfold try_except. destruct (c s) as [[a | e] s1].
  - intros [= <- <-]. left. eauto.
  - intros Hh. right. eauto.
Qed.

(** What a month that [generate_monthly_orders] reports done has left. *)
Lemma monthly_orders_true_inv (y m : Z) (output_file : string) (n : Z)
    (force_new : bool) (s s' : session) :
  ReportGenerator.generate_monthly_orders entropy faker y m output_file n
    force_new s = (Ok true, s') ->
  exists orders : list (Order.t F),
    length orders = Z.to_nat n /\
    CSVHandler.files (disk s') !! output_file =
      Some (ORDER_HEADERS :: ReportGenerator.order_rows orders).
Proof.
  unfold ReportGenerator.generate_monthly_orders. intros Hrun.
  apply try_except_inv in Hrun as [(b & Hbody & [= <-]) | (e & s1 & _ & Hh)];
    [| discriminate].
  apply bind_Ok_inv in Hbody as (products & s1 & _ & Hbody).
  apply bind_Ok_inv in Hbody as (customers & s2 & _ & Hbody).
  apply bind_Ok_inv in Hbody as (orders & s3 & Horders & Hbody).
  apply bind_Ok_inv in Hbody as (success & s4 & Hwrite & Hbody).
  destruct success; [| discriminate].
  apply ret_Ok_inv in Hbody as [_ ->].
  apply with_rng_inv in Horders as (p & Horders & _).
  apply generate_orders_inv in Horders as (_ & _ & _ & Hlen & _).
  apply with_io_inv in Hwrite as (w & Hwrite & ->).
  apply write_csv_true in Hwrite as [Hfiles _].
  exists orders. split; [exact Hlen |].
  cbn [disk]. rewrite Hfiles. apply lookup_insert_eq.
Qed.

(** A month on a disk that does not fail, the base data made anew. *)
Lemma monthly_orders_run (y m : Z) (output_file : string) (n : Z) (s : session) :
  (forall t, CSVHandler.faults (disk s) t = None) ->
  MINYEAR <= y <= MAXYEAR -> 1 <= m <= 12 -> ~ (y = MAXYEAR /\ m = 12) ->
  exists s' : session,
    ReportGenerator.generate_monthly_orders (F := F) entropy faker y m
      output_file n true s = (Ok true, s') /\
    (forall t, CSVHandler.faults (disk s') t = None).
Proof.
  intros Hnone Hy Hm Hlast. unfold ReportGenerator.generate_monthly_orders,
    try_except.
  destruct (generate_products_create (F := F) entropy PRODUCTS_FILE true s)
    as [(_ & ps & Hps & Hrows) | (Hbad & _)]; [by left | |].
  2: { destruct Hbad. by apply reliable_fault_free. }
  rewrite (bind_run Hps).
  match type of Hps with _ = (_, ?s0) => set (s1 := s0) in * end.
  destruct (generate_customers_create (F := F) entropy faker CUSTOMERS_FILE
              SEQUENCES_FILE DEFAULT_NUM_CUSTOMERS true s1)
    as (cs & s2 & Hcs & _ & _ & Hnone2);
    [by left | exact Hnone | unfold DEFAULT_NUM_CUSTOMERS; lia |].
  rewrite (bind_run Hcs).
  pose proof (generate_customers_inv _ _ _ _ _ _ _ _ _ Hcs) as [Hne Hseqs].
  destruct (generate_orders_ok entropy ps cs y m n (rng_pos s2))
    as (os & p & Hos).
  { intros _. split; [| done].
    intros ->. discriminate Hrows. }
  rewrite (bind_run (with_rng_run _ s2 _ _ Hos)).
  set (s3 := mkSession p (fake_pos s2) (disk s2)).
  destruct (write_csv_reliable output_file ORDER_HEADERS
              (ReportGenerator.order_rows os) (disk s3))
    as (w4 & Hw4 & _ & Hnone4); [exact Hnone2 |].
  rewrite (bind_run (with_io_run _ s3 _ _ Hw4)).
  eexists. split; [reflexivity | exact Hnone4].
Qed.
End MonthlyFacts.

(** X20. [generate_monthly_orders] raises nothing, whatever the files, the
    failures of the disk and the request: it returns a bool. When it
    returns [True] the output file holds the order header followed by one
    row of 22 cells for each of the [num_orders] orders asked for (none
    when the number is 0 or negative). *)
Theorem monthly_orders_total {F : Type} `{PyFloat F} (entropy : nat -> Z)
    (faker : nat -> string) (y m : Z) (output_file : string) (n : Z)
    (force_new : bool) (s : session) :
  exists (b : bool) (s' : session),
    ReportGenerator.generate_monthly_orders (F := F) entropy faker y m
      output_file n force_new s = (Ok b, s') /\
    (b = true ->
     exists rows : list (list string),
       CSVHandler.files (disk s') !! output_file = Some (ORDER_HEADERS :: rows) /\
       length rows = Z.to_nat n /\
       Forall (fun row => length row = 22%nat) rows).
Proof.
  destruct (ReportGenerator.generate_monthly_orders (F := F) entropy faker y m
              output_file n force_new s) as [r s'] eqn:Hrun.
  assert (exists b, r = Ok b) as [b ->].
  { unfold ReportGenerator.generate_monthly_orders in Hrun.
    apply try_except_inv in Hrun as [(b & _ & ->) | (e & s1 & _ & [= <- _])];
      eauto. }
  exists b, s'. split; [reflexivity |]. intros ->.
  apply monthly_orders_true_inv in Hrun as (orders & Hlen & Hfile).
  exists (ReportGenerator.order_rows orders). split; [exact Hfile |].
  split; [| apply order_rows_width].
  unfold ReportGenerator.order_rows. by rewrite length_fmap.
Qed.

(** X21. On a disk that does not fail, for a year in 1..9999 and a month
    in 1..12 other than December 9999, [generate_monthly_orders] with new
    base data forced returns [True]: the ten products and the twenty
    customers are made and written, the orders are generated from them and
    the output file holds the header and [num_orders] rows. *)
Theorem monthly_orders_succeed {F : Type} `{PyFloat F} (entropy : nat -> Z)
    (faker : nat -> string) (y m : Z) (output_file : string) (n : Z)
    (s : session) :
  (forall t, CSVHandler.faults (disk s) t = None) ->
  MINYEAR <= y <= MAXYEAR -> 1 <= m <= 12 -> ~ (y = MAXYEAR /\ m = 12) ->
  exists (rows : list (list string)) (s' : session),
    ReportGenerator.generate_monthly_orders (F := F) entropy faker y m
      output_file n true s = (Ok true, s') /\
    CSVHandler.files (disk s') !! output_file = Some (ORDER_HEADERS :: rows) /\
    length rows = Z.to_nat n.
Proof.
  intros Hnone Hy Hm Hlast.
  destruct (monthly_orders_run (F := F) entropy faker y m output_file n s
              Hnone Hy Hm Hlast) as (s' & Hrun & _).
  pose proof (monthly_orders_true_inv _ _ _ _ _ _ _ _ _ Hrun)
    as (orders & Hlen & Hfile).
  exists (ReportGenerator.order_rows orders), s'.
  split; [exact Hrun |]. split; [exact Hfile |].
  unfold ReportGenerator.order_rows. by rewrite length_fmap.
Qed.

Lemma monthly_orders_succeed_witness :
  exists (rows : list (list string)) (s' : session),
    ReportGenerator.generate_monthly_orders (F := Q) Sample.entropy Fixture.faker
      2024 2 Sample.orders_file 3 true Fixture.start = (Ok true, s') /\
    CSVHandler.files (disk s') !! Sample.orders_file =
      Some (ORDER_HEADERS :: rows) /\
    length rows = 3%nat.
Proof.
  apply (monthly_orders_succeed (F := Q) Sample.entropy Fixture.faker 2024 2
           Sample.orders_file 3 Fixture.start).
  - intros t. reflexivity.
  - unfold MINYEAR, MAXYEAR. lia.
  - lia.
  - unfold MAXYEAR. lia.
Defined.

(** ** The two customer files, read back *)

Section CustomerFileFacts.
Context {F : Type} `{PyFloat F}.

Lemma dict_set_fresh {V} (d : list (string * V)) (key : string) (v : V) :
  key ∉ (fst <$> d) -> Catalog.dict_set d key v = (d ++ [(key, v)])%list.
Proof.
  induction d as [| [k w] d IH]; intros Hfresh; [reflexivity |].
  simpl in *. apply not_elem_of_cons in Hfresh as [Hne Hfresh].
  destruct (String.eqb k key) eqn:Hk.
  - apply String.eqb_eq in Hk. congruence.
  - by rewrite IH.
Qed.

(** The customers file of [cs], read into the dict. *)
Lemma load_customers_rows (cs : list Customer.t) :
  NoDup (Customer.customer_id <$> cs) ->
  Catalog.load_customers (Customer.to_row <$> cs) =
  Ok ((fun c => (Customer.customer_id c, clear_sequences c)) <$> cs).
Proof.
  unfold Catalog.load_customers.
  set (step := fun (acc : result (list (string * Customer.t))) (row : list string) =>
                 let? d := acc in
                 if (2 <=? length row)%nat
                 then let? customer := Customer.from_row row in
                      Ok (Catalog.dict_set d (Customer.customer_id customer) customer)
                 else Ok d).
  assert (forall d c, step (Ok d) (Customer.to_row c) =
                      Ok (Catalog.dict_set d (Customer.customer_id c)
                            (clear_sequences c))) as Hstep by reflexivity.
  assert (forall d : list (string * Customer.t),
            NoDup ((fst <$> d) ++ (Customer.customer_id <$> cs))%list ->
            fold_left step (Customer.to_row <$> cs) (Ok d) =
            Ok (d ++ ((fun c => (Customer.customer_id c, clear_sequences c)) <$> cs))%list)
    as Hgen.
  { induction cs as [| c cs IH]; intros d Hdup.
    - simpl. by rewrite app_nil_r.
    - rewrite !fmap_cons. cbn [fold_left]. rewrite Hstep.
      rewrite fmap_cons in Hdup. apply NoDup_app in Hdup as (Hd & Hcross & Hcs).
      apply NoDup_cons in Hcs as [Hc Hcs].
      rewrite dict_set_fresh.
      2: { intros Hin. apply (Hcross _ Hin). left. }
      rewrite IH.
      + rewrite <- app_assoc. reflexivity.
      + rewrite fmap_app. simpl. rewrite <- app_assoc. simpl.
        apply NoDup_app. split; [exact Hd |]. split.
        * intros k Hk Hin. apply (Hcross k Hk).
          apply elem_of_cons in Hin as [-> | Hin]; [left | by right].
        * by apply NoDup_cons. }
  intros Hdup. by rewrite (Hgen [] Hdup).
Qed.

Lemma dict_has_here (d1 d2 : list (string * Customer.t)) (k : string)
    (c : Customer.t) :
  Catalog.dict_has (d1 ++ (k, c) :: d2)%list k = true.
Proof.
  unfold Catalog.dict_has. rewrite existsb_app. simpl.
  rewrite String.eqb_refl. by rewrite orb_true_r.
Qed.

Lemma dict_add_sequence_here (d1 d2 : list (string * Customer.t)) (k : string)
    (c : Customer.t) (j : Z) (desc : string) :
  k ∉ (fst <$> d1) ->
  Catalog.dict_add_sequence (d1 ++ (k, c) :: d2)%list k j desc =
  (d1 ++ (k, Customer.add_sequence c j desc) :: d2)%list.
Proof.
  induction d1 as [| [k1 c1] d1 IH]; intros Hfresh; simpl.
  - by rewrite String.eqb_refl.
  - simpl in Hfresh. apply not_elem_of_cons in Hfresh as [Hne Hfresh].
    destruct (String.eqb k1 k) eqn:Hk.
    + apply String.eqb_eq in Hk. congruence.
    + by rewrite IH.
Qed.

Lemma customer_eq (a b : Customer.t) :
  clear_sequences a = clear_sequences b ->
  Customer.sequences a = Customer.sequences b -> a = b.
Proof.
  destruct a, b. unfold clear_sequences. simpl. intros [= -> -> -> -> -> -> -> -> ->] ->.
  reflexivity.
Qed.

(** The rows of the sequences of one customer, read into a dict that
    has the customer. *)
Lemma load_sequences_of_customer (k : string) (sqs : list Sequence.t) :
  Forall (fun sq => int_parse (str_Z (Sequence.seq_id sq)) =
                    Some (Sequence.seq_id sq)) sqs ->
  forall (d1 d2 : list (string * Customer.t)) (c0 : Customer.t),
    k ∉ (fst <$> d1) ->
    exists c1 : Customer.t,
      Catalog.load_sequences (d1 ++ (k, c0) :: d2)%list
        ((fun sq => [k; str_Z (Sequence.seq_id sq); Sequence.description sq])
           <$> sqs) =
      Ok (d1 ++ (k, c1) :: d2)%list /\
      clear_sequences c1 = clear_sequences c0 /\
      Customer.sequences c1 = (Customer.sequences c0 ++ sqs)%list.
Proof.
  induction 1 as [| sq sqs Hsq Hsqs IH]; intros d1 d2 c0 Hfresh.
  - exists c0. split; [reflexivity |]. split; [reflexivity |].
    by rewrite app_nil_r.
  - destruct (IH d1 d2 (Customer.add_sequence c0 (Sequence.seq_id sq)
                          (Sequence.description sq)) Hfresh)
      as (c1 & Hrun & Hclear & Hseqs).
    exists c1. split; [| split].
    + rewrite <- Hrun. unfold Catalog.load_sequences.
      rewrite fmap_cons. cbn [fold_left]. f_equal.
      cbn [rbind length Nat.leb getitem lookup list_lookup].
      rewrite dict_has_here. unfold py_int. rewrite Hsq.
      cbn [rbind]. by rewrite dict_add_sequence_here.
    + rewrite Hclear. reflexivity.
    + rewrite Hseqs. simpl. rewrite <- app_assoc. simpl.
      by destruct sq.
Qed.

Lemma load_sequences_app (d : list (string * Customer.t))
    (rows1 rows2 : list (list string)) d' :
  Catalog.load_sequences d rows1 = Ok d' ->
  Catalog.load_sequences d (rows1 ++ rows2)%list = Catalog.load_sequences d' rows2.
Proof.
  unfold Catalog.load_sequences. intros Hrun. by rewrite fold_left_app, Hrun.
Qed.

(** The sequences file of [cs], read into the dict of the customers
    file: every customer has its sequences again. *)
Lemma load_sequences_rows (cs : list Customer.t) :
  Forall (fun c =>
            Forall (fun sq => int_parse (str_Z (Sequence.seq_id sq)) =
                              Some (Sequence.seq_id sq))
              (Customer.sequences c)) cs ->
  forall d1 : list (string * Customer.t),
    NoDup ((fst <$> d1) ++ (Customer.customer_id <$> cs))%list ->
    Catalog.load_sequences
      (d1 ++ ((fun c => (Customer.customer_id c, clear_sequences c)) <$> cs))%list
      (Catalog.sequence_rows_of cs) =
    Ok (d1 ++ ((fun c => (Customer.customer_id c, c)) <$> cs))%list.
Proof.
  induction 1 as [| c cs Hc Hcs IH]; intros d1 Hdup; [reflexivity |].
  unfold Catalog.sequence_rows_of. rewrite bind_cons.
  fold (Catalog.sequence_rows_of cs). rewrite !fmap_cons.
  rewrite fmap_cons in Hdup.
  assert (Customer.customer_id c ∉ fst <$> d1) as Hfresh.
  { apply NoDup_app in Hdup as (_ & Hcross & _).
    intros Hin. apply (Hcross _ Hin). left. }
  destruct (load_sequences_of_customer (Customer.customer_id c)
              (Customer.sequences c) Hc d1
              ((fun c => (Customer.customer_id c, clear_sequences c)) <$> cs)
              (clear_sequences c) Hfresh)
    as (c1 & Hrun & Hclear & Hseqs).
  rewrite (load_sequences_app _ _ _ _ Hrun).
  assert (c1 = c) as -> by (apply customer_eq; [exact Hclear | exact Hseqs]).
  replace (d1 ++ (Customer.customer_id c, c)
              :: ((fun c => (Customer.customer_id c, clear_sequences c)) <$> cs))%list
    with ((d1 ++ [(Customer.customer_id c, c)]) ++
          ((fun c => (Customer.customer_id c, clear_sequences c)) <$> cs))%list
    by (by rewrite <- app_assoc).
  rewrite IH.
  - by rewrite <- app_assoc.
  - rewrite fmap_app. simpl. by rewrite <- app_assoc.
Qed.

(** The reading branch of [generate_customers], of the two files written
    for [cs]. *)
Lemma generate_customers_read (entropy : nat -> Z) (faker : nat -> string)
    (customers_file sequences_file : string) (n : Z) (s : session)
    (cs : list Customer.t) :
  CSVHandler.files (disk s) !! customers_file =
    Some (CUSTOMER_HEADERS :: (Customer.to_row <$> cs)) ->
  CSVHandler.files (disk s) !! sequences_file =
    Some (SEQUENCE_HEADERS :: Catalog.sequence_rows_of cs) ->
  CSVHandler.fault_free (disk s) 2 ->
  NoDup (Customer.customer_id <$> cs) ->
  Forall (fun c =>
            Forall (fun sq => int_parse (str_Z (Sequence.seq_id sq)) =
                              Some (Sequence.seq_id sq))
              (Customer.sequences c)) cs ->
  Forall (fun c => Customer.sequences c <> []) cs ->
  cs <> [] ->
  Catalog.generate_customers (F := F) entropy faker customers_file
    sequences_file n false s =
  (Ok cs,
   mkSession (rng_pos s) (fake_pos s)
     (CSVHandler.mkWorld (CSVHandler.files (disk s))
        (S (S (CSVHandler.ticks (disk s)))) (CSVHandler.faults (disk s)))).
Proof.
  intros Hcfile Hsfile Hfree Hdup Hparse Hseqs Hne.
  unfold Catalog.generate_customers.
  rewrite (bind_run (file_exists_run customers_file s)). cbv beta.
  rewrite (bind_run (file_exists_run sequences_file s)). cbv beta.
  rewrite !bool_decide_eq_true_2 by eauto. simpl orb. cbv iota.
  assert (CSVHandler.faults (disk s) (CSVHandler.ticks (disk s)) = None) as H0.
  { specialize (Hfree 0%nat). rewrite Nat.add_0_r in Hfree. apply Hfree. lia. }
  assert (CSVHandler.faults (disk s) (S (CSVHandler.ticks (disk s))) = None) as H1.
  { specialize (Hfree 1%nat). rewrite Nat.add_1_r in Hfree. apply Hfree. lia. }
  pose proof (read_csv_found customers_file true (disk s) _ Hcfile) as Hread1.
  rewrite H0 in Hread1. simpl drop in Hread1.
  rewrite !bind_bind.
  rewrite (bind_run (with_io_run (CSVReader.read_csv customers_file true)
                       s _ _ Hread1)). cbv beta.
  rewrite bind_bind.
  rewrite (bind_run (lift_run (load_customers_rows cs Hdup) _)). cbv beta.
  set (s1 := mkSession (rng_pos s) (fake_pos s)
               (CSVHandler.mkWorld (CSVHandler.files (disk s))
                  (S (CSVHandler.ticks (disk s))) (CSVHandler.faults (disk s)))).
  pose proof (read_csv_found sequences_file true (disk s1) _ Hsfile) as Hread2.
  cbn [disk s1 CSVHandler.faults CSVHandler.ticks CSVHandler.files] in Hread2.
  rewrite H1 in Hread2. simpl drop in Hread2.
  rewrite bind_bind.
  rewrite (bind_run (with_io_run (CSVReader.read_csv sequences_file true)
                       s1 _ _ Hread2)). cbv beta.
  pose proof (load_sequences_rows cs Hparse [] Hdup) as Hload.
  simpl app in Hload.
  rewrite bind_bind.
  rewrite (bind_run (lift_run Hload _)). cbv beta.
  rewrite bind_ret.
  rewrite <- list_fmap_compose.
  assert (filter (fun c => Customer.has_sequences c = true)
            ((snd ∘ (fun c => (Customer.customer_id c, c))) <$> cs) = cs) as ->.
  { clear -Hseqs. induction Hseqs as [| c cs Hc Hcs IH]; [reflexivity |].
    rewrite fmap_cons, filter_cons_True.
    - by rewrite IH.
    - simpl. unfold Customer.has_sequences.
      destruct (Customer.sequences c); [done | reflexivity]. }
  destruct cs as [| c cs]; [done |]. reflexivity.
Qed.
End CustomerFileFacts.

Section CustomerReloadFacts.
Context {F : Type} `{PyFloat F}.

(** The customers [_create_sample_customers] makes can be told apart by
    their ids, and their sequence numbers are among 1..5. *)
Lemma created_customers_readable (cs : list Customer.t) (n : Z) :
  Forall2 (fun c i => Customer.customer_id c = "CUST" +:+ format_0d 4 i /\
                      well_sequenced c) cs (zrange 1 (n + 1)) ->
  (forall j, 1 <= j <= 5 -> int_parse (str_Z j) = Some j) ->
  NoDup (Customer.customer_id <$> cs) /\
  Forall (fun c =>
            Forall (fun sq => int_parse (str_Z (Sequence.seq_id sq)) =
                              Some (Sequence.seq_id sq))
              (Customer.sequences c)) cs /\
  Forall (fun c => Customer.sequences c <> []) cs.
Proof.
  intros Hall Hparse. split; [| split].
  - apply NoDup_alt. intros i j id Hi Hj.
    rewrite list_lookup_fmap in Hi, Hj.
    destruct (cs !! i) as [ci |] eqn:Hci; [| discriminate].
    destruct (cs !! j) as [cj |] eqn:Hcj; [| discriminate].
    simpl in Hi, Hj. injection Hi as Hi. injection Hj as Hj.
    destruct (Forall2_lookup_l _ _ _ _ _ Hall Hci) as (a & Ha & Hida & _).
    destruct (Forall2_lookup_l _ _ _ _ _ Hall Hcj) as (b & Hb & Hidb & _).
    apply zrange_lookup in Ha as [-> _]. apply zrange_lookup in Hb as [-> _].
    rewrite Hida in Hi. rewrite Hidb in Hj. rewrite <- Hj in Hi.
    apply append_cancel_l in Hi. apply format_0d_inj in Hi; lia.
  - apply Forall_forall. intros c Hc.
    apply list_elem_of_lookup in Hc as [i Hc].
    destruct (Forall2_lookup_l _ _ _ _ _ Hall Hc) as (a & _ & _ & k & Hk & Hnum).
    apply Forall_forall. intros sq Hsq.
    apply list_elem_of_lookup in Hsq as [idx Hsq].
    destruct (Forall2_lookup_l _ _ _ _ _ Hnum Hsq) as (j & Hj & -> & _).
    apply Hparse. apply zrange_lookup in Hj. lia.
  - apply Forall_forall. intros c Hc.
    apply list_elem_of_lookup in Hc as [i Hc].
    destruct (Forall2_lookup_l _ _ _ _ _ Hall Hc) as (a & _ & _ & Hws).
    by apply well_sequenced_nonempty in Hws as [Hne _].
Qed.
End CustomerReloadFacts.

(** X22. The two customer files restore what one customer row loses. After
    [generate_customers] has created the customers on a disk that does not
    fail, the two files being distinct, a second call that does not force
    new ones returns the very same customers, each with the sequences it
    was created with, whatever count it is asked for; it draws nothing and
    leaves the files as they are. [int] is required to read the numbers
    1..5 back from their text. *)
Theorem customers_catalog_reloaded {F : Type} `{PyFloat F} (entropy : nat -> Z)
    (faker : nat -> string) (customers_file sequences_file : string)
    (n n' : Z) (force_new : bool) (s : session) :
  customers_file <> sequences_file ->
  force_new = true \/
  CSVHandler.files (disk s) !! customers_file = None \/
  CSVHandler.files (disk s) !! sequences_file = None ->
  (forall t, CSVHandler.faults (disk s) t = None) ->
  0 < n ->
  (forall j, 1 <= j <= 5 -> int_parse (str_Z j) = Some j) ->
  exists (cs : list Customer.t) (s1 s2 : session),
    Catalog.generate_customers (F := F) entropy faker customers_file
      sequences_file n force_new s = (Ok cs, s1) /\
    Catalog.generate_customers (F := F) entropy faker customers_file
      sequences_file n' false s1 = (Ok cs, s2) /\
    CSVHandler.files (disk s2) = CSVHandler.files (disk s1) /\
    rng_pos s2 = rng_pos s1 /\ fake_pos s2 = fake_pos s1.
Proof.
  intros Hdistinct Hcreate Hnone Hn Hparse.
  destruct (generate_customers_create (F := F) entropy faker customers_file
              sequences_file n force_new s Hcreate Hnone Hn)
    as (cs & s1 & Hrun & Hmade & Hfiles & Hnone1).
  destruct (create_sample_customers_run entropy faker n s)
    as (cs0 & s0 & Hcs0 & _ & Hall).
  rewrite Hcs0 in Hmade. injection Hmade as -> _.
  destruct (created_customers_readable cs n Hall Hparse)
    as (Hdup & Hreadable & Hseqs).
  assert (cs <> []) as Hne.
  { apply Forall2_length in Hall. rewrite zrange_length in Hall.
    intros ->. simpl in Hall. lia. }
  exists cs, s1. eexists. split; [exact Hrun |]. split.
  - apply generate_customers_read; try done.
    + rewrite Hfiles. rewrite lookup_insert_ne by done. apply lookup_insert_eq.
    + rewrite Hfiles. apply lookup_insert_eq.
    + by apply reliable_fault_free.
  - split; [reflexivity |]. split; reflexivity.
Qed.

Lemma customers_catalog_reloaded_witness :
  exists (cs : list Customer.t) (s1 s2 : session),
    Catalog.generate_customers (F := Q) Sample.entropy Fixture.faker
      CUSTOMERS_FILE SEQUENCES_FILE 3 true Fixture.start = (Ok cs, s1) /\
    Catalog.generate_customers (F := Q) Sample.entropy Fixture.faker
      CUSTOMERS_FILE SEQUENCES_FILE 20 false s1 = (Ok cs, s2).
Proof.
  destruct (customers_catalog_reloaded (F := Q) Sample.entropy Fixture.faker
              CUSTOMERS_FILE SEQUENCES_FILE 3 20 true Fixture.start)
    as (cs & s1 & s2 & Hmade & Hread & _).
  - vm_compute. discriminate.
  - by left.
  - intros t. reflexivity.
  - lia.
  - intros j Hj.
    assert (j = 1 \/ j = 2 \/ j = 3 \/ j = 4 \/ j = 5) as Hcases by lia.
    destruct Hcases as [-> | [-> | [-> | [-> | ->]]]]; reflexivity.
  - exists cs, s1, s2. split; [exact Hmade | exact Hread].
Defined.

(** ** Reports over several years *)

Section ReportFacts.
Context {F : Type} `{PyFloat F}.
Variable entropy : nat -> Z.
Variable faker : nat -> string.

(** A loop whose body always returns and keeps [I] returns and keeps it. *)
Lemma foldM_invariant {S A B} (f : B -> A -> M S B) (I : B -> S -> Prop)
    (xs : list A) :
  (forall acc x s, I acc s -> exists acc' s', f acc x s = (Ok acc', s') /\ I acc' s') ->
  forall acc s, I acc s ->
    exists acc' s', foldM f xs acc s = (Ok acc', s') /\ I acc' s'.
Proof.
  intros Hbody. induction xs as [| x xs IH]; intros acc s Hacc.
  - exists acc, s. split; [reflexivity | exact Hacc].
  - destruct (Hbody acc x s Hacc) as (acc1 & s1 & Hrun & Hacc1).
    rewrite foldM_cons, (bind_run Hrun). by apply IH.
Qed.

Lemma monthly_orders_returns (y m : Z) (output_file : string) (n : Z)
    (force_new : bool) (s : session) :
  exists (b : bool) (s' : session),
    ReportGenerator.generate_monthly_orders (F := F) entropy faker y m
      output_file n force_new s = (Ok b, s').
Proof.
  destruct (ReportGenerator.generate_monthly_orders (F := F) entropy faker y m
              output_file n force_new s) as [r s'] eqn:Hrun.
  unfold ReportGenerator.generate_monthly_orders in Hrun.
  apply try_except_inv in Hrun as [(b & _ & ->) | (e & s1 & _ & [= <- _])];
    eauto.
Qed.

(** A month of the loop returns, and takes no success back. *)
Lemma report_month_keeps (n y k : Z) (st : ReportGenerator.progress) (m : Z)
    (s : session) :
  k <= ReportGenerator.months_succeeded st ->
  exists st' s',
    ReportGenerator.report_month (F := F) entropy faker n y st m s = (Ok st', s') /\
    k <= ReportGenerator.months_succeeded st'.
Proof.
  intros Hk. unfold ReportGenerator.report_month.
  destruct (monthly_orders_returns y m (ReportGenerator.monthly_file y m) n
              (ReportGenerator.force_new st) s) as (b & s' & Hrun).
  rewrite (bind_run Hrun). eexists _, _. split; [reflexivity |].
  simpl. destruct b; lia.
Qed.

Lemma report_year_keeps (n end_year end_month k : Z)
    (st : ReportGenerator.progress) (y : Z) (s : session) :
  k <= ReportGenerator.months_succeeded st ->
  exists st' s',
    ReportGenerator.report_year (F := F) entropy faker n end_year end_month
      st y s = (Ok st', s') /\
    k <= ReportGenerator.months_succeeded st'.
Proof.
  intros Hk. unfold ReportGenerator.report_year.
  apply (foldM_invariant _
           (fun st _ => k <= ReportGenerator.months_succeeded st)); [| exact Hk].
  intros acc x s0 Hacc. by apply report_month_keeps.
Qed.

Lemma report_years_keep (n end_year end_month k : Z) (years : list Z)
    (st : ReportGenerator.progress) (s : session) :
  k <= ReportGenerator.months_succeeded st ->
  exists st' s',
    foldM (ReportGenerator.report_year (F := F) entropy faker n end_year
             end_month) years st s = (Ok st', s') /\
    k <= ReportGenerator.months_succeeded st'.
Proof.
  intros Hk.
  apply (foldM_invariant _
           (fun st _ => k <= ReportGenerator.months_succeeded st)); [| exact Hk].
  intros acc x s0 Hacc. by apply report_year_keeps.
Qed.
End ReportFacts.

(** X23. [generate_multi_year_reports] raises nothing: it returns a bool,
    whatever the arguments and the disk. It returns [False] without a draw
    and without touching a file when the first year comes after the last,
    or when they are the same year and the last month is below 1. *)
Theorem multi_year_reports_total {F : Type} `{PyFloat F} (entropy : nat -> Z)
    (faker : nat -> string) (now_year now_month : Z)
    (start_year end_year end_month : option Z) (orders_per_month : Z)
    (s : session) :
  let sy := default (now_year - 5) start_year in
  let ey := default now_year end_year in
  let em := default now_month end_month in
  exists (b : bool) (s' : session),
    ReportGenerator.generate_multi_year_reports (F := F) entropy faker
      now_year now_month start_year end_year end_month orders_per_month s
      = (Ok b, s') /\
    (ey < sy \/ (sy = ey /\ em < 1) -> b = false /\ s' = s).
Proof.
  intros sy ey em. unfold ReportGenerator.generate_multi_year_reports.
  fold sy ey em.
  destruct (ey <? sy) eqn:Horder.
  { exists false, s. split; [reflexivity | done]. }
  destruct ((sy =? ey) && (em <? 1)) eqn:Hmonth.
  { exists false, s. split; [reflexivity | done]. }
  destruct (report_years_keep (F := F) entropy faker orders_per_month ey em 0
              (zrange sy (ey + 1)) (ReportGenerator.mkProgress true 0 0) s)
    as (st & s' & Hrun & _); [simpl; lia |].
  rewrite (bind_run Hrun). eexists _, _. split; [reflexivity |].
  intros [Hlt | [Heq Hem]]; [lia |].
  apply andb_false_iff in Hmonth as [Hne | Hge]; lia.
Qed.

(** X24. The result of [generate_multi_year_reports] says that one month
    at least succeeded, not that all did. On a disk that does not fail,
    with a first year in 1..9999 that does not come after the last and, when
    they are the same year, a last month of 1 or more, it returns [True]:
    the first month processed, January of the first year, is generated with
    new base data and succeeds, whatever becomes of the later months, a last
    month beyond 12 or a last year beyond 9999 included. *)
Theorem multi_year_reports_succeed {F : Type} `{PyFloat F} (entropy : nat -> Z)
    (faker : nat -> string) (now_year now_month : Z)
    (start_year end_year end_month : option Z) (orders_per_month : Z)
    (s : session) :
  let sy := default (now_year - 5) start_year in
  let ey := default now_year end_year in
  let em := default now_month end_month in
  (forall t, CSVHandler.faults (disk s) t = None) ->
  MINYEAR <= sy <= MAXYEAR -> sy <= ey -> (sy = ey -> 1 <= em) ->
  exists s' : session,
    ReportGenerator.generate_multi_year_reports (F := F) entropy faker
      now_year now_month start_year end_year end_month orders_per_month s
      = (Ok true, s').
Proof.
  intros sy ey em Hnone Hsy Horder Hmonth.
  unfold ReportGenerator.generate_multi_year_reports. fold sy ey em.
  assert ((ey <? sy) = false) as -> by lia.
  assert ((sy =? ey) && (em <? 1) = false) as ->.
  { apply andb_false_iff. destruct (Z.eq_dec sy ey) as [Heq | Hne]; lia. }
  rewrite (zrange_cons sy (ey + 1)) by lia. rewrite foldM_cons.
  set (max_month := if sy =? ey then em else 12).
  assert (1 <= max_month) as Hmax.
  { unfold max_month. destruct (sy =? ey) eqn:Heq; lia. }
  assert (exists st1 s1,
            ReportGenerator.report_year (F := F) entropy faker orders_per_month
              ey em (ReportGenerator.mkProgress true 0 0) sy s = (Ok st1, s1) /\
            1 <= ReportGenerator.months_succeeded st1) as (st1 & s1 & Hyear & Hst1).
  { unfold ReportGenerator.report_year. fold max_month.
    rewrite (zrange_cons 1 (max_month + 1)) by lia. rewrite foldM_cons.
    destruct (monthly_orders_run (F := F) entropy faker sy 1
                (ReportGenerator.monthly_file sy 1) orders_per_month s)
      as (s0 & Hfirst & _); [exact Hnone | exact Hsy | lia | lia |].
    unfold ReportGenerator.report_month at 1. cbn [ReportGenerator.force_new].
    rewrite bind_bind, (bind_run Hfirst). cbv beta. rewrite bind_ret.
    apply (foldM_invariant _
             (fun st _ => 1 <= ReportGenerator.months_succeeded st));
      [| simpl; lia].
    intros acc x s2 Hacc. by apply report_month_keeps. }
  rewrite bind_bind, (bind_run Hyear).
  destruct (report_years_keep (F := F) entropy faker orders_per_month ey em 1
              (zrange (sy + 1) (ey + 1)) st1 s1 Hst1)
    as (st2 & s2 & Hrest & Hst2).
  rewrite (bind_run Hrest). exists s2. unfold ret. do 2 f_equal. lia.
Qed.

Lemma multi_year_reports_succeed_witness :
  exists s' : session,
    ReportGenerator.generate_multi_year_reports (F := Q) Sample.entropy
      Fixture.faker 2024 2 (Some 2023) None (Some 13) 3 Fixture.start
      = (Ok true, s').
Proof.
  apply (multi_year_reports_succeed (F := Q) Sample.entropy Fixture.faker
           2024 2 (Some 2023) None (Some 13) 3 Fixture.start).
  - intros t. reflexivity.
  - unfold MINYEAR, MAXYEAR. simpl. lia.
  - simpl. lia.
  - simpl. lia.
Defined.
